(** * Mitabo: the upload-to-playable-media pipeline of [home.py]

    A shallow embedding of the pipeline functions of [src/home.py]
    ([allowed_file], [ffmpeg_exists], [transcode_to_hls], [Video.source_url]
    and the request handler [upload_post]) together with the library
    functions they call, and the properties of the specification stated
    over them.

    Conventions.
    - A Python [str] is a Rocq [string]; one [ascii] stands for one code
      point below 256, so the character classes below ([is_space],
      [lower_char], [upper_char]) are Python's restricted to that range.
    - A nullable column or an absent form field is an [option string];
      Python truthiness of such a value is [truthy].
    - A call that can raise returns [result], the raised exception on the
      left.
    - What the program prints on its console is left out; the messages
      it flashes to the user are kept. *)

From Stdlib Require Import Ascii String.
From stdpp Require Import base option list strings pretty gmap sets.

Local Open Scope string_scope.
Local Open Scope list_scope.

(** ** Characters and strings as Python sees them *)

Module Py.

Definition chr (n : nat) : ascii := ascii_of_nat n.
Definition ord (c : ascii) : nat := nat_of_ascii c.

Definition in_range (lo hi : nat) (c : ascii) : bool :=
  (lo <=? ord c)%nat && (ord c <=? hi)%nat.

(** [str.isspace] on one character: the code points 9..13, 28..32, 133
    and 160. *)
Definition is_space (c : ascii) : bool :=
  in_range 9 13 c || in_range 28 32 c || (ord c =? 133)%nat || (ord c =? 160)%nat.

(** [str.lower] on one character: A..Z and the upper-case letters of the
    range 192..222 (the multiplication sign 215 apart) move up by 32. *)
Definition lower_char (c : ascii) : ascii :=
  if in_range 65 90 c || (in_range 192 222 c && negb (ord c =? 215)%nat)
  then chr (ord c + 32) else c.

(** [str.upper] on one character: a..z and 224..254 (the division sign
    247 apart) move down by 32. The three characters below 256 that
    Python maps out of the range (181, 223 and 255) are left as they
    are; the program applies [upper] to ASCII text only. *)
Definition upper_char (c : ascii) : ascii :=
  if in_range 97 122 c || (in_range 224 254 c && negb (ord c =? 247)%nat)
  then chr (ord c - 32) else c.

Fixpoint map (f : ascii -> ascii) (s : string) : string :=
  match s with
  | EmptyString => EmptyString
  | String c r => String (f c) (map f r)
  end.

Fixpoint filter (p : ascii -> bool) (s : string) : string :=
  match s with
  | EmptyString => EmptyString
  | String c r => if p c then String c (filter p r) else filter p r
  end.

Definition lower : string -> string := map lower_char.
Definition upper : string -> string := map upper_char.

(** [c in s] for a one-character needle. *)
Fixpoint contains (c : ascii) (s : string) : bool :=
  match s with
  | EmptyString => false
  | String a r => bool_decide (a = c) || contains c r
  end.

(** [s.replace(old, new)] for one-character [old] and [new]. *)
Definition replace (old new : ascii) : string -> string :=
  map (fun c => if bool_decide (c = old) then new else c).

(** [s.rsplit(sep, 1)] for a one-character separator: the string cut at
    its last separator, or the string alone when it has none. *)
Fixpoint rsplit1 (sep : ascii) (s : string) : list string :=
  match s with
  | EmptyString => [EmptyString]
  | String a r =>
      match rsplit1 sep r with
      | [h; t] => [String a h; t]
      | _ => if bool_decide (a = sep) then [EmptyString; r] else [String a r]
      end
  end.

(** [s.split(sep)[0]]: the part before the first separator. *)
Fixpoint split_head (sep : ascii) (s : string) : string :=
  match s with
  | EmptyString => EmptyString
  | String a r => if bool_decide (a = sep) then EmptyString else String a (split_head sep r)
  end.

(** [s.split(sep)] for a one-character separator. *)
Fixpoint split_on (sep : ascii) (s : string) : list string :=
  match s with
  | EmptyString => [EmptyString]
  | String a r =>
      if bool_decide (a = sep) then EmptyString :: split_on sep r
      else match split_on sep r with
           | h :: t => String a h :: t
           | [] => [String a EmptyString]
           end
  end.

(** What follows [prefix] in [s], when [s] starts with it. *)
Fixpoint after_prefix (prefix s : string) : option string :=
  match prefix, s with
  | EmptyString, _ => Some s
  | String a p, String b r => if bool_decide (a = b) then after_prefix p r else None
  | String _ _, EmptyString => None
  end.

(** [s.split()]: the maximal runs of characters that are not white space. *)
Fixpoint split (s : string) : list string :=
  match s with
  | EmptyString => []
  | String a r =>
      if is_space a then split r
      else match r with
           | EmptyString => [String a EmptyString]
           | String b _ =>
               if is_space b then String a EmptyString :: split r
               else match split r with
                    | w :: ws => String a w :: ws
                    | [] => [String a EmptyString]
                    end
           end
  end.

(** [sep.join(l)]. *)
Definition join (sep : string) (l : list string) : string := String.concat sep l.

Fixpoint lstrip (p : ascii -> bool) (s : string) : string :=
  match s with
  | EmptyString => EmptyString
  | String a r => if p a then lstrip p r else s
  end.

Fixpoint rstrip (p : ascii -> bool) (s : string) : string :=
  match s with
  | EmptyString => EmptyString
  | String a r =>
      match rstrip p r with
      | EmptyString => if p a then EmptyString else String a EmptyString
      | r' => String a r'
      end
  end.

(** [s.strip(chars)], the characters to strip given as a predicate;
    [s.strip()] is [strip is_space]. *)
Definition strip (p : ascii -> bool) (s : string) : string := rstrip p (lstrip p s).

(** [s[:n]] and [s[n:]] for [0 <= n]. *)
Fixpoint take (n : nat) (s : string) : string :=
  match n, s with
  | S n', String a r => String a (take n' r)
  | _, _ => EmptyString
  end.

Fixpoint drop (n : nat) (s : string) : string :=
  match n, s with
  | S n', String _ r => drop n' r
  | _, _ => s
  end.

(** [s.rfind(c)] for a one-character needle: the last index of [c], or -1. *)
Fixpoint rfind (c : ascii) (s : string) : Z :=
  match s with
  | EmptyString => (-1)%Z
  | String a r =>
      let i := rfind c r in
      if (0 <=? i)%Z then (i + 1)%Z
      else if bool_decide (a = c) then 0%Z else (-1)%Z
  end.

(** Every character of [s] satisfies [p]. *)
Fixpoint all (p : ascii -> bool) (s : string) : bool :=
  match s with
  | EmptyString => true
  | String a r => p a && all p r
  end.

(** [s] starts with a character that satisfies [p]. *)
Definition head_is (p : ascii -> bool) (s : string) : bool :=
  match s with
  | EmptyString => false
  | String a _ => p a
  end.

Definition is_dot (c : ascii) : bool := bool_decide (c = "."%char).

(** Truthiness of a [str]: every string but the empty one. *)
Definition nonempty (s : string) : bool :=
  match s with EmptyString => false | _ => true end.

(** Truthiness of a value that is [None] or a [str]. *)
Definition truthy (o : option string) : bool :=
  match o with Some s => nonempty s | None => false end.

(** [o or d] for such a value and a string [d]. *)
Definition or_else (o : option string) (d : string) : string :=
  match o with
  | Some s => if nonempty s then s else d
  | None => d
  end.

End Py.

(** ** Exceptions *)

Inductive exn : Type :=
  | IndexError
  | CalledProcessError (returncode : Z) (stderr : string)
  | OSError
  | DatabaseError.

Definition result (A : Type) : Type := exn + A.

(** ** Constants of [home.py] *)

Definition ALLOWED_EXTENSIONS : gset string :=
  {[ "mp4"; "webm"; "ogg"; "mov"; "m4v" ]}.

(** ** [allowed_file] *)

(** The subscript [[1]] of the list [rsplit] returns raises [IndexError]
    when the list has one element; [and] evaluates it only when the name
    has a dot. *)
Definition allowed_file (filename : string) : result bool :=
  if Py.contains "." filename then
    match Py.rsplit1 "." filename !! 1%nat with
    | Some ext => inr (bool_decide (Py.lower ext ∈ ALLOWED_EXTENSIONS))
    | None => inl IndexError
    end
  else inr false.


(** ** The host the program runs on

    What the program takes from its platform and its libraries, and that
    the source does not fix. *)

Class Host : Type := {
  (** [os.name == "nt"]; it fixes [os.sep] and [os.path.altsep]. *)
  os_nt : bool;
  (** werkzeug's [_windows_device_files]. *)
  windows_device_files : gset string;
  (** [unicodedata.normalize("NFKD", s).encode("ascii", "ignore").decode("ascii")]. *)
  nfkd_ascii : string -> string;
  (** The quoting [url_for] applies to the value of a [path] converter. *)
  url_quote : string -> string;
  (** The components of [os.path.dirname(os.path.abspath(__file__))]. *)
  BASE_DIR : list string
}.

(** ** The file system *)

(** A path is the list of its components; a last component that is the
    empty string stands for a trailing separator. *)
Abbreviation path := (list string).

Inductive node : Type :=
  | File (content : string)
  | Dir.

Abbreviation FS := (gmap (list string) node).

Definition is_dir (fs : FS) (p : path) : bool :=
  match fs !! p with Some Dir => true | _ => false end.

(** [os.path.exists]. *)
Definition path_exists (fs : FS) (p : path) : bool :=
  match last p with
  | Some EmptyString => is_dir fs (removelast p)
  | _ => bool_decide (is_Some (fs !! p))
  end.

(** Opening [p] for writing and writing [content], as far as the file
    system here shows: the directory of [p] has to exist and [p] must not
    name a directory. What else the operating system refuses is told by
    [save_refused] below, for the one file whose name comes from the
    client. *)
Definition write_file (fs : FS) (p : path) (content : string) : result FS :=
  match last p with
  | Some EmptyString => inl OSError
  | _ =>
      if is_dir fs (removelast p) && negb (is_dir fs p)
      then inr (<[p := File content]> fs)
      else inl OSError
  end.

(** [os.makedirs(p, exist_ok=True)]: every prefix of [p] becomes a
    directory; a file in the way raises. *)
Fixpoint makedirs_from (done : path) (todo : list string) (fs : FS) : result FS :=
  match todo with
  | [] => inr fs
  | c :: todo' =>
      let p := done ++ [c] in
      match fs !! p with
      | Some (File _) => inl OSError
      | _ => makedirs_from p todo' (<[p := Dir]> fs)
      end
  end.

Definition makedirs (fs : FS) (p : path) : result FS := makedirs_from [] p fs.

(** ** The data model *)

(** The columns of the table [videos] that the pipeline writes or reads;
    [views], [likes], [dislikes] and [created_at] keep their defaults
    and are left out. *)
Record Video : Type := {
  id : option N;
  title : string;
  description : string;
  category : string;
  filename : option string;
  external_url : option string;
  thumb_url : option string;
  duration : string;
  creator : string;
  user_id : option N;
  hls_manifest : option string
}.

Definition set_hls_manifest (m : option string) (v : Video) : Video :=
  {| id := id v; title := title v; description := description v;
     category := category v; filename := filename v;
     external_url := external_url v; thumb_url := thumb_url v;
     duration := duration v; creator := creator v; user_id := user_id v;
     hls_manifest := m |}.

Definition set_id (i : option N) (v : Video) : Video :=
  {| id := i; title := title v; description := description v;
     category := category v; filename := filename v;
     external_url := external_url v; thumb_url := thumb_url v;
     duration := duration v; creator := creator v; user_id := user_id v;
     hls_manifest := hls_manifest v |}.

Record Category : Type := { cat_id : string; cat_label : string }.

Definition CATEGORIES : list Category :=
  [ {| cat_id := "tendance"; cat_label := "Tendances" |};
    {| cat_id := "jeux"; cat_label := "Jeux" |};
    {| cat_id := "musique"; cat_label := "Musique" |};
    {| cat_id := "film"; cat_label := "Films & Anim" |};
    {| cat_id := "sport"; cat_label := "Sports" |} ].

Definition CATEGORIES_MAP : gmap string Category :=
  list_to_map ((fun c => (cat_id c, c)) <$> CATEGORIES).

(** [k in d] for a dict [d]. *)
Definition dict_has {V : Type} (d : gmap string V) (k : string) : bool :=
  bool_decide (is_Some (d !! k)).

(** The routes [url_for] is asked for. *)
Inductive endpoint : Type := hls | media.

Definition route_prefix (e : endpoint) : string :=
  match e with hls => "/hls/" | media => "/media/" end.

(** ** Library functions that depend on the host *)

Section HostLibrary.
Context `{Host}.

Definition os_sep : ascii := if os_nt then "\"%char else "/"%char.

Definition os_altsep : option ascii := if os_nt then Some "/"%char else None.

(** The character class [[A-Za-z0-9_.-]] of werkzeug's
    [_filename_ascii_strip_re], which removes every other character. *)
Definition filename_char (c : ascii) : bool :=
  Py.in_range 65 90 c || Py.in_range 97 122 c || Py.in_range 48 57 c
  || bool_decide (c = "_"%char) || bool_decide (c = "."%char)
  || bool_decide (c = "-"%char).

Definition dot_or_underscore (c : ascii) : bool :=
  bool_decide (c = "."%char) || bool_decide (c = "_"%char).

(** [werkzeug.utils.secure_filename], past the normalisation to ASCII. *)
Definition secure_ascii (filename : string) : string :=
  let filename := Py.replace os_sep " " filename in
  let filename :=
    match os_altsep with
    | Some sep => Py.replace sep " " filename
    | None => filename
    end in
  let filename :=
    Py.strip dot_or_underscore
      (Py.filter filename_char (Py.join "_" (Py.split filename))) in
  if os_nt && Py.nonempty filename
     && bool_decide (Py.upper (Py.split_head "." filename) ∈ windows_device_files)
  then "_" +:+ filename
  else filename.

Definition secure_filename (filename : string) : string :=
  secure_ascii (nfkd_ascii filename).

(** The loop of [genericpath._splitext] that skips leading dots: whether
    one of the [n] characters from index [i] on is not a dot. *)
Fixpoint splitext_scan (n i : nat) (p : string) : bool :=
  match n with
  | O => false
  | S n' =>
      if bool_decide (String.get i p = Some "."%char)
      then splitext_scan n' (S i) p
      else true
  end.

(** [os.path.splitext]. *)
Definition splitext (p : string) : string * string :=
  let sepIndex := Py.rfind os_sep p in
  let sepIndex :=
    match os_altsep with
    | Some a => Z.max sepIndex (Py.rfind a p)
    | None => sepIndex
    end in
  let dotIndex := Py.rfind "." p in
  if (sepIndex <? dotIndex)%Z
     && splitext_scan (Z.to_nat (dotIndex - (sepIndex + 1))) (Z.to_nat (sepIndex + 1)) p
  then (Py.take (Z.to_nat dotIndex) p, Py.drop (Z.to_nat dotIndex) p)
  else (p, EmptyString).

(** [os.path.join(p, name)] for a relative [name] without separator. *)
Definition os_path_join (p : path) (name : string) : path := p ++ [name].

(** The path as the string the program passes on. *)
Definition path_str (p : path) : string := Py.join (String os_sep EmptyString) p.

(** [os.path.normcase] on one component. *)
Definition normcase (c : string) : string := if os_nt then Py.lower c else c.

Fixpoint common_prefix_len (a b : list string) : nat :=
  match a, b with
  | x :: a', y :: b' =>
      if bool_decide (normcase x = normcase y) then S (common_prefix_len a' b') else O
  | _, _ => O
  end.

(** [os.path.relpath(p, start)] for absolute, normalised paths on one
    drive. *)
Definition relpath (p start : path) : string :=
  let start_list := List.filter Py.nonempty start in
  let path_list := List.filter Py.nonempty p in
  let i := common_prefix_len start_list path_list in
  let rel_list := replicate (length start_list - i) ".." ++ drop i path_list in
  match rel_list with
  | [] => "."
  | _ => path_str rel_list
  end.

Definition UPLOAD_DIR : path := os_path_join BASE_DIR "uploads".
Definition HLS_DIR : path := os_path_join UPLOAD_DIR "hls".

(** [url_for(endpoint, filename=..., _external=False)] for the two routes
    [/hls/<path:filename>] and [/media/<path:filename>]. *)
Definition url_for (e : endpoint) (filename : string) : string :=
  route_prefix e +:+ url_quote filename.

(** ** [Video.source_url] *)

Definition source_url (self : Video) : string :=
  if Py.truthy (hls_manifest self) then
    url_for hls (default EmptyString (hls_manifest self))
  else if Py.truthy (filename self) then
    url_for media (default EmptyString (filename self))
  else Py.or_else (external_url self) "".

End HostLibrary.

(** ** The world a request runs in *)

(** The messages the handler flashes:
    - [NoFileReceived]: Aucun fichier recu;
    - [UnsupportedExtension]: Extension non supportee;
    - [HlsTranscodeFailed]: Transcodage HLS echoue, lecture MP4 directe utilisee;
    - [UploadError e]: Erreur lors de l'upload, followed by the text of [e]. *)
Inductive flash_msg : Type :=
  | NoFileReceived
  | UnsupportedExtension
  | HlsTranscodeFailed
  | UploadError (e : exn).

Inductive response : Type :=
  | RedirectUploadForm
  | RedirectWatch (video_id : option N).

Record World : Type := {
  fs : FS;
  (** The committed rows of the table [videos]. *)
  videos : list Video;
  flashes : list flash_msg;
  (** The commands given to [subprocess.run], the latest last. *)
  runs : list (list string)
}.

(** What [subprocess.run] meets: a process that ran, with its return
    code, its standard error and the file system it left, or no process. *)
Inductive run_outcome : Type :=
  | Ran (returncode : Z) (stderr : string) (after : FS)
  | NotStarted.

Record User : Type := { user_ident : N; display_name : string }.

(** What a request reads from outside the program. *)
Record Env : Type := {
  (** [shutil.which("ffmpeg")]. *)
  which_ffmpeg : option string;
  (** The external encoder, as a function of its command line and of the
      file system it starts in. *)
  encoder : list string -> FS -> run_outcome;
  (** [datetime.utcnow().timestamp()], rounded as [:.0f] prints it. *)
  utc_timestamp : N;
  (** Whether [db.session.commit()] raises. *)
  commit_fails : bool;
  (** Whether the operating system refuses the file that [file.save]
      opens at a path, for a reason that the file system here does not
      show: a name longer than it allows, a full disk, a missing
      permission. *)
  save_refused : path -> bool;
  current_user : User
}.

Record FileStorage : Type := { client_filename : string; payload : string }.

Record Request : Type := {
  file : option FileStorage;
  form : gmap string string
}.

(** ** A state monad with exceptions

    A computation runs in a [World] and returns the world it leaves with
    a value or a raised exception; [None] stands for a loop that did not
    finish within the fuel it was given. *)

Definition M (A : Type) : Type := World -> option (World * result A).

Definition ret {A : Type} (a : A) : M A := fun w => Some (w, inr a).

Definition raise {A : Type} (e : exn) : M A := fun w => Some (w, inl e).

Definition bind {A B : Type} (m : M A) (k : A -> M B) : M B :=
  fun w =>
    match m w with
    | Some (w', inr a) => k a w'
    | Some (w', inl e) => Some (w', inl e)
    | None => None
    end.

(** [try: m except Exception as e: h e]. *)
Definition try_except {A : Type} (m : M A) (h : exn -> M A) : M A :=
  fun w =>
    match m w with
    | Some (w', inl e) => h e w'
    | r => r
    end.

Definition lift {A : Type} (r : result A) : M A :=
  match r with inl e => raise e | inr a => ret a end.

Notation "x <- m ;; k" := (bind m (fun x => k))
  (at level 100, m at next level, right associativity).
Notation "m ;;; k" := (bind m (fun _ => k))
  (at level 100, right associativity).

Definition set_fs (fs' : FS) (w : World) : World :=
  {| fs := fs'; videos := videos w; flashes := flashes w; runs := runs w |}.

Definition add_flash (msg : flash_msg) (w : World) : World :=
  {| fs := fs w; videos := videos w; flashes := flashes w ++ [msg]; runs := runs w |}.

Definition add_run (cmd : list string) (w : World) : World :=
  {| fs := fs w; videos := videos w; flashes := flashes w; runs := runs w ++ [cmd] |}.

Definition add_video (v : Video) (w : World) : World :=
  {| fs := fs w; videos := videos w ++ [v]; flashes := flashes w; runs := runs w |}.

Definition get_fs : M FS := fun w => Some (w, inr (fs w)).

Definition put_fs (fs' : FS) : M unit := fun w => Some (set_fs fs' w, inr tt).

Definition flash (msg : flash_msg) : M unit := fun w => Some (add_flash msg w, inr tt).

Definition log_run (cmd : list string) : M unit := fun w => Some (add_run cmd w, inr tt).

(** The primary key SQLite gives a new row: one more than the largest. *)
Definition next_id (rows : list Video) : N :=
  N.succ (foldr (fun v acc => N.max (default 0%N (id v)) acc) 0%N rows).

(** [db.session.add(v); db.session.commit()]: the row is stored with a
    fresh [id], which [v] carries from then on. *)
Definition db_add_commit (env : Env) (v : Video) : M Video :=
  fun w =>
    if commit_fails env then Some (w, inl DatabaseError)
    else
      let v' := set_id (Some (next_id (videos w))) v in
      Some (add_video v' w, inr v').

(** ** [ffmpeg_exists] and [transcode_to_hls] *)

Definition ffmpeg_exists (env : Env) : bool :=
  bool_decide (which_ffmpeg env <> None).

Definition newline : string := String (Py.chr 10) EmptyString.

(** The text the three [f.write] calls of [transcode_to_hls] leave in the
    master manifest. *)
Definition master_manifest : string :=
  ("#EXTM3U" +:+ newline +:+ "#EXT-X-VERSION:3" +:+ newline)
  +:+ ("#EXT-X-STREAM-INF:BANDWIDTH=800000,RESOLUTION=640x360" +:+ newline
       +:+ "v0/index.m3u8" +:+ newline)
  +:+ ("#EXT-X-STREAM-INF:BANDWIDTH=2500000,RESOLUTION=1280x720" +:+ newline
       +:+ "v1/index.m3u8" +:+ newline).

Section Pipeline.
Context `{Host}.

(** [os.path.join(target_dir, name)] as a string, for the two output
    patterns, which hold a separator of their own. *)
Definition joined (target_dir : path) (name : string) : string :=
  path_str target_dir +:+ String os_sep name.

Definition ffmpeg_cmd (input_path target_dir : path) : list string :=
  [ "ffmpeg"; "-y"; "-i"; path_str input_path;
    "-filter:v:0"; "scale=w=640:h=360:force_original_aspect_ratio=decrease";
    "-c:a:0"; "aac"; "-ar:0"; "48000"; "-c:v:0"; "h264"; "-profile:v:0"; "main";
    "-crf:0"; "23"; "-sc_threshold"; "0"; "-g"; "48"; "-keyint_min"; "48";
    "-filter:v:1"; "scale=w=1280:h=720:force_original_aspect_ratio=decrease";
    "-c:a:1"; "aac"; "-ar:1"; "48000"; "-c:v:1"; "h264"; "-profile:v:1"; "main";
    "-crf:1"; "21"; "-sc_threshold"; "0"; "-g"; "48"; "-keyint_min"; "48";
    "-map"; "0:v:0"; "-map"; "0:a:0?"; "-map"; "0:v:0"; "-map"; "0:a:0?";
    "-var_stream_map"; "v:0,a:0 v:1,a:1"; "-master_pl_name"; "master.m3u8";
    "-f"; "hls"; "-hls_time"; "4"; "-hls_playlist_type"; "vod";
    "-hls_segment_filename"; joined target_dir "v%v/seg_%03d.ts";
    joined target_dir "v%v/index.m3u8" ].

(** [subprocess.run(cmd, check=True, ...)]: a return code other than 0
    raises [CalledProcessError], which [transcode_to_hls] prints and
    raises again (the print is left out); what the process wrote stays. *)
Definition subprocess_run (env : Env) (cmd : list string) : M unit :=
  log_run cmd ;;;
  fs0 <- get_fs ;;
  match encoder env cmd fs0 with
  | NotStarted => raise OSError
  | Ran returncode stderr after =>
      put_fs after ;;;
      if (returncode =? 0)%Z then ret tt
      else raise (CalledProcessError returncode stderr)
  end.

Definition transcode_to_hls (env : Env) (input_path target_dir : path) : M string :=
  fs0 <- get_fs ;;
  fs1 <- lift (makedirs fs0 target_dir) ;;
  put_fs fs1 ;;;
  let master_path := os_path_join target_dir "master.m3u8" in
  let cmd := ffmpeg_cmd input_path target_dir in
  subprocess_run env cmd ;;;
  fs2 <- get_fs ;;
  (if negb (path_exists fs2 master_path) then
     fs3 <- lift (write_file fs2 master_path master_manifest) ;;
     put_fs fs3
   else ret tt) ;;;
  let rel := relpath master_path HLS_DIR in
  ret (Py.replace "\" "/" rel).

(** ** [upload_post] *)

(** The f-string [f"{base}-{counter}{ext}"]. *)
Definition suffixed (base : string) (counter : N) (ext : string) : string :=
  base +:+ "-" +:+ pretty counter +:+ ext.

(** The [while] loop of [upload_post] that looks for a free name,
    [final] and [counter] being its two variables. *)
Fixpoint reserve_loop (fuel : nat) (fs : FS) (base ext : string)
    (counter : N) (final : string) : option string :=
  if path_exists fs (os_path_join UPLOAD_DIR final) then
    match fuel with
    | O => None
    | S fuel' =>
        reserve_loop fuel' fs base ext (counter + 1) (suffixed base counter ext)
    end
  else Some final.

(** The loop run in the monad, with fuel enough for every directory
    (see [reserve_loop_ends]). *)
Definition reserve (base ext filename : string) : M string :=
  fun w =>
    match reserve_loop (S (size (fs w))) (fs w) base ext 1 filename with
    | Some final => Some (w, inr final)
    | None => None
    end.

Definition thumb_for (base : string) : string :=
  "https://picsum.photos/seed/mitabo-" +:+ base +:+ "/640/360".

(** [file.save(p)]: [OSError] when the operating system refuses the
    file, and otherwise the writing of the payload at [p]. *)
Definition save (env : Env) (f : FileStorage) (fs : FS) (p : path) : result FS :=
  if save_refused env p then inl OSError else write_file fs p (payload f).

(** The block of [upload_post] that reserves the name and saves the
    file: it yields [base], [final] and [file_path]. *)
Definition store_upload (env : Env) (f : FileStorage) : M (string * string * path) :=
  let filename := secure_filename (client_filename f) in
  let '(base, ext) := splitext filename in
  final <- reserve base ext filename ;;
  let file_path := os_path_join UPLOAD_DIR final in
  fs0 <- get_fs ;;
  fs1 <- lift (save env f fs0 file_path) ;;
  put_fs fs1 ;;;
  ret (base, final, file_path).

(** The call [Video(...)] of [upload_post]. *)
Definition new_video (env : Env) (title description category creator base final : string)
    : Video :=
  {| id := None;
     title := title;
     description := description;
     category := if dict_has CATEGORIES_MAP category then category else "tendance";
     filename := Some final;
     external_url := None;
     thumb_url := Some (thumb_for base);
     duration := "";
     creator := creator;
     user_id := Some (user_ident (current_user env));
     hls_manifest := None |}.

(** The block of [upload_post] under [if to_hls and ffmpeg_exists()]. *)
Definition transcode_step (env : Env) (to_hls : bool) (file_path : path) (v : Video)
    : M Video :=
  if to_hls && ffmpeg_exists env then
    let target_dir :=
      os_path_join HLS_DIR ("video_" +:+ pretty (utc_timestamp env)) in
    try_except
      (rel_master <- transcode_to_hls env file_path target_dir ;;
       ret (set_hls_manifest (Some rel_master) v))
      (fun _ => flash HlsTranscodeFailed ;;; ret v)
  else ret v.

(** The form fields as [upload_post] reads them. *)
Definition form_title (req : Request) : string :=
  Py.strip Py.is_space (Py.or_else (form req !! "title") "Sans titre").

Definition form_description (req : Request) : string :=
  Py.strip Py.is_space (Py.or_else (form req !! "description") "").

Definition form_category (req : Request) : string :=
  Py.or_else (form req !! "category") "tendance".

Definition form_creator (env : Env) (req : Request) : string :=
  Py.strip Py.is_space
    (Py.or_else (form req !! "creator")
       (Py.or_else (Some (display_name (current_user env))) "Anonyme")).

Definition form_to_hls (req : Request) : bool :=
  bool_decide (form req !! "to_hls" <> None).

(** What follows the two checks of [upload_post], for the file [f]. *)
Definition upload_accepted (env : Env) (req : Request) (f : FileStorage) : M response :=
  stored <- store_upload env f ;;
  let '(base, final, file_path) := stored in
  let v :=
    new_video env (form_title req) (form_description req) (form_category req)
      (form_creator env req) base final in
  v <- transcode_step env (form_to_hls req) file_path v ;;
  v <- db_add_commit env v ;;
  ret (RedirectWatch (id v)).

(** The handler of the [try] that spans [upload_post]. *)
Definition upload_handler (e : exn) : M response :=
  flash (UploadError e) ;;; ret RedirectUploadForm.

Definition upload_post (env : Env) (req : Request) : M response :=
  try_except
    (match file req with
     | None => flash NoFileReceived ;;; ret RedirectUploadForm
     | Some f =>
         if negb (Py.nonempty (client_filename f)) then
           flash NoFileReceived ;;; ret RedirectUploadForm
         else
           ok <- lift (allowed_file (client_filename f)) ;;
           if negb ok then
             flash UnsupportedExtension ;;; ret RedirectUploadForm
           else upload_accepted env req f
     end)
    upload_handler.

(** The name [upload_post] stores a client's file under, as a function
    of the file system: [final] after the loop. *)
Definition final_name (fuel : nat) (fs : FS) (client_name : string) : option string :=
  let filename := secure_filename client_name in
  let '(base, ext) := splitext filename in
  reserve_loop fuel fs base ext 1 filename.

End Pipeline.

(** Two hosts to run the definitions on: a POSIX one and a Windows one,
    both with the identity for the two library functions, which is what
    these are on the ASCII names used below. *)
Definition posix_host : Host :=
  {| os_nt := false; windows_device_files := ∅; nfkd_ascii := fun s => s;
     url_quote := fun s => s; BASE_DIR := [""; "srv"; "mitabo"] |}.

Definition nt_host : Host :=
  {| os_nt := true;
     windows_device_files := {[ "CON"; "PRN"; "AUX"; "NUL"; "COM1"; "LPT1" ]};
     nfkd_ascii := fun s => s; url_quote := fun s => s;
     BASE_DIR := ["C:"; "mitabo"] |}.

(** ** Sample data

    A POSIX installation under /srv/mitabo as the two [os.makedirs] calls
    at the top of [home.py] leave it, and requests, encoders and
    environments to run the handler on. *)

Definition sample_uploads : path := [""; "srv"; "mitabo"; "uploads"].

Definition sample_root : FS :=
  {[ [""; "srv"; "mitabo"] := Dir;
     sample_uploads := Dir;
     sample_uploads ++ ["hls"] := Dir ]}.

Definition sample_world (files : FS) : World :=
  {| fs := files; videos := []; flashes := []; runs := [] |}.

(** An encoder that gives up on its input. *)
Definition failing_encoder (cmd : list string) (files : FS) : run_outcome :=
  Ran 1 "Invalid data found when processing input" files.

(** An encoder that writes the two rendition playlists of the output
    directory video_1700000000 and no master playlist. *)
Definition renditions_only_encoder (cmd : list string) (files : FS) : run_outcome :=
  let out := sample_uploads ++ ["hls"; "video_1700000000"] in
  Ran 0 ""
    (<[out ++ ["v1"; "index.m3u8"] := File "#EXTM3U"]>
       (<[out ++ ["v1"] := Dir]>
          (<[out ++ ["v0"; "index.m3u8"] := File "#EXTM3U"]>
             (<[out ++ ["v0"] := Dir]> files)))).

(** The refusal of file systems whose names have 255 characters at
    most. *)
Definition name_too_long (p : path) : bool :=
  match last p with
  | Some name => (255 <? String.length name)%nat
  | None => false
  end.

Definition sample_env (which : option string)
    (enc : list string -> FS -> run_outcome) : Env :=
  {| which_ffmpeg := which; encoder := enc; utc_timestamp := 1700000000;
     commit_fails := false;
     save_refused := name_too_long;
     current_user := {| user_ident := 7; display_name := "Demo" |} |}.

Definition sample_request (name : string) (fields : gmap string string) : Request :=
  {| file := Some {| client_filename := name; payload := "DATA" |};
     form := fields |}.

(** The upload root once a.mp4 is stored, and once a-1.mp4 is as well. *)
Definition sample_taken : FS :=
  <[sample_uploads ++ ["a.mp4"] := File "OLD"]> sample_root.

Definition sample_taken_twice : FS :=
  <[sample_uploads ++ ["a-1.mp4"] := File "OLDER"]> sample_taken.

(** The world a run leaves, [w] when the run does not end. *)
Definition world_after {A : Type} (w : World) (run : option (World * A)) : World :=
  match run with
  | Some (w', _) => w'
  | None => w
  end.

(** The rows a run of the handler leaves in the table. *)
Definition rows_after {A : Type} (run : option (World * A)) : list Video :=
  match run with
  | Some (w, _) => videos w
  | None => []
  end.

(** An upload whose form has an empty title, and one whose form has a
    title of white space. *)
Definition sample_empty_title_run : option (World * result response) :=
  @upload_post posix_host (sample_env None failing_encoder)
    (sample_request "clip.mp4" {[ "title" := "" ]}) (sample_world sample_root).

Definition sample_blank_title_run : option (World * result response) :=
  @upload_post posix_host (sample_env None failing_encoder)
    (sample_request "clip.mp4" {[ "title" := "   " ]}) (sample_world sample_root).

(** An upload of a.mp4 into an upload root that holds a.mp4. *)
Definition sample_collision_run : option (World * result response) :=
  @upload_post posix_host (sample_env None failing_encoder)
    (sample_request "a.mp4" ∅) (sample_world sample_taken).

(** An encoder that writes the master playlist of the output directory
    video_1700000000 itself. *)
Definition complete_encoder (cmd : list string) (files : FS) : run_outcome :=
  Ran 0 ""
    (<[sample_uploads ++ ["hls"; "video_1700000000"; "master.m3u8"] := File "#EXTM3U"]> files).

(** ** The social features

    The handlers of [home.py] and [profil.py] for votes, follows,
    comments and promotions, over the tables they read and write.
    Each runs under [login_required], so for a logged-in user. A unique
    constraint makes a row of [likes] a function of its user and video,
    and a row of [follows] a pair; the keys [id] and the dates of the
    rows are left out. *)

(** The columns of a row of [users] that the handlers read. *)
Record UserRow : Type := {
  row_username : string;
  row_display_name : string;
  row_is_admin : bool
}.

(** The counters of a row of [videos]: nullable integers. *)
Record Counters : Type := {
  views : option Z;
  likes : option Z;
  dislikes : option Z
}.

Record Comment : Type := {
  comment_video : N;
  comment_user : N;
  body : string
}.

(** The messages these handlers flash. *)
Inductive notice : Type :=
  | EmptyComment
  | CommentFailed
  | AccessDenied
  | Promoted (name : string)
  | PromoteFailed
  | Banned (name : string)
  | BanFailed
  | SelfFollow
  | AlreadyFollowing (name : string)
  | NowFollowing (name : string)
  | Unfollowed (name : string)
  | NotFollowing (name : string).

Record Site : Type := {
  user_rows : gmap N UserRow;
  video_rows : gmap N Counters;
  (** [(user_id, video_id)] to [is_like]. *)
  like_rows : gmap (N * N) bool;
  (** [(follower_id, followed_id)]. *)
  follow_rows : gset (N * N);
  comment_rows : list Comment;
  notices : list notice
}.

(** What a handler of these meets: [get_or_404] finds no row, which
    raises the exception of [abort(404)], or the commit raises. *)
Inductive fault : Type := NotFound | CommitFailed.

Definition set_video_votes (rows : gmap (N * N) bool) (table : gmap N Counters)
    (s : Site) : Site :=
  {| user_rows := user_rows s; video_rows := table; like_rows := rows;
     follow_rows := follow_rows s; comment_rows := comment_rows s;
     notices := notices s |}.

Definition set_follow_rows (rows : gset (N * N)) (s : Site) : Site :=
  {| user_rows := user_rows s; video_rows := video_rows s; like_rows := like_rows s;
     follow_rows := rows; comment_rows := comment_rows s; notices := notices s |}.

Definition set_user_rows (rows : gmap N UserRow) (s : Site) : Site :=
  {| user_rows := rows; video_rows := video_rows s; like_rows := like_rows s;
     follow_rows := follow_rows s; comment_rows := comment_rows s;
     notices := notices s |}.

Definition add_comment (c : Comment) (s : Site) : Site :=
  {| user_rows := user_rows s; video_rows := video_rows s; like_rows := like_rows s;
     follow_rows := follow_rows s; comment_rows := comment_rows s ++ [c];
     notices := notices s |}.

Definition add_notice (n : notice) (s : Site) : Site :=
  {| user_rows := user_rows s; video_rows := video_rows s; like_rows := like_rows s;
     follow_rows := follow_rows s; comment_rows := comment_rows s;
     notices := notices s ++ [n] |}.

Definition set_likes (n : option Z) (v : Counters) : Counters :=
  {| views := views v; likes := n; dislikes := dislikes v |}.

Definition set_dislikes (n : option Z) (v : Counters) : Counters :=
  {| views := views v; likes := likes v; dislikes := n |}.

(** [o or d] for a value that is [None] or an [int]. *)
Definition int_or (o : option Z) (d : Z) : Z :=
  match o with
  | Some n => if (n =? 0)%Z then d else n
  | None => d
  end.

Arguments int_or : simpl never.

(** *** [like_video] and [dislike_video] *)

Inductive vote_response : Type :=
  | VoteCounts (likes dislikes : option Z)
  | VoteError500 (e : fault).

Definition like_video (commit_fails : bool) (me video_id : N) (s : Site)
    : Site * vote_response :=
  match video_rows s !! video_id with
  | None => (s, VoteError500 NotFound)
  | Some v =>
      let '(rows, v) :=
        match like_rows s !! (me, video_id) with
        | Some true =>
            (delete (me, video_id) (like_rows s),
             set_likes (Some (Z.max (int_or (likes v) 1 - 1) 0)%Z) v)
        | Some false =>
            (<[(me, video_id) := true]> (like_rows s),
             set_dislikes (Some (Z.max (int_or (dislikes v) 1 - 1) 0)%Z)
               (set_likes (Some (int_or (likes v) 0 + 1)%Z) v))
        | None =>
            (<[(me, video_id) := true]> (like_rows s),
             set_likes (Some (int_or (likes v) 0 + 1)%Z) v)
        end in
      if commit_fails then (s, VoteError500 CommitFailed)
      else (set_video_votes rows (<[video_id := v]> (video_rows s)) s,
            VoteCounts (likes v) (dislikes v))
  end.

Definition dislike_video (commit_fails : bool) (me video_id : N) (s : Site)
    : Site * vote_response :=
  match video_rows s !! video_id with
  | None => (s, VoteError500 NotFound)
  | Some v =>
      let '(rows, v) :=
        match like_rows s !! (me, video_id) with
        | Some false =>
            (delete (me, video_id) (like_rows s),
             set_dislikes (Some (Z.max (int_or (dislikes v) 1 - 1) 0)%Z) v)
        | Some true =>
            (<[(me, video_id) := false]> (like_rows s),
             set_likes (Some (Z.max (int_or (likes v) 1 - 1) 0)%Z)
               (set_dislikes (Some (int_or (dislikes v) 0 + 1)%Z) v))
        | None =>
            (<[(me, video_id) := false]> (like_rows s),
             set_dislikes (Some (int_or (dislikes v) 0 + 1)%Z) v)
        end in
      if commit_fails then (s, VoteError500 CommitFailed)
      else (set_video_votes rows (<[video_id := v]> (video_rows s)) s,
            VoteCounts (likes v) (dislikes v))
  end.

(** *** [watch]: the view it counts

    [watch] counts the view and commits before it reads anything else.
    The function returns the site after that commit, or the site as it
    was with the fault that makes the handler answer 500. *)

Definition set_views (n : option Z) (v : Counters) : Counters :=
  {| views := n; likes := likes v; dislikes := dislikes v |}.

Definition watch (commit_fails : bool) (video_id : N) (s : Site) : Site * option fault :=
  match video_rows s !! video_id with
  | None => (s, Some NotFound)
  | Some v =>
      let v := set_views (Some (int_or (views v) 0 + 1)%Z) v in
      if commit_fails then (s, Some CommitFailed)
      else (set_video_votes (like_rows s) (<[video_id := v]> (video_rows s)) s, None)
  end.

(** *** [User.is_following], [followers_count], [following_count] *)

Definition is_following (self user : N) (s : Site) : bool :=
  bool_decide ((self, user) ∈ follow_rows s).

Definition followers_count (self : N) (s : Site) : nat :=
  size (filter (fun p : N * N => p.2 = self) (follow_rows s)).

Definition following_count (self : N) (s : Site) : nat :=
  size (filter (fun p : N * N => p.1 = self) (follow_rows s)).

(** *** [follow_user] of [home.py] *)

Inductive follow_response : Type :=
  | FollowSelf400
  | FollowJson (following : bool)
  | FollowError500 (e : fault).

Definition follow_user (commit_fails : bool) (me user_id : N) (s : Site)
    : Site * follow_response :=
  if bool_decide (user_id = me) then (s, FollowSelf400)
  else
    match user_rows s !! user_id with
    | None => (s, FollowError500 NotFound)
    | Some target_user =>
        let existing := bool_decide ((me, user_id) ∈ follow_rows s) in
        let rows :=
          if existing then follow_rows s ∖ {[ (me, user_id) ]}
          else {[ (me, user_id) ]} ∪ follow_rows s in
        if commit_fails then (s, FollowError500 CommitFailed)
        else (set_follow_rows rows s, FollowJson (negb existing))
    end.

(** *** [comment_post] *)

(** Every path of [comment_post] answers with the redirection to the
    watch page of [video_id]; the function returns the site it leaves. *)
Definition comment_post (commit_fails : bool) (me video_id : N)
    (form_body : option string) (s : Site) : Site :=
  match video_rows s !! video_id with
  | None => add_notice CommentFailed s
  | Some v =>
      let body := Py.strip Py.is_space (Py.or_else form_body "") in
      if negb (Py.nonempty body) then add_notice EmptyComment s
      else if commit_fails then add_notice CommentFailed s
      else add_comment {| comment_video := video_id; comment_user := me; body := body |} s
  end.

(** *** [promote_user] *)

(** [current_user], as far as the admin routes read it. *)
Record Account : Type := { account_id : N; account_is_admin : bool }.

Definition set_admin (r : UserRow) : UserRow :=
  {| row_username := row_username r; row_display_name := row_display_name r;
     row_is_admin := true |}.

(** Every path of [promote_user] answers with the redirection to the
    home page; the function returns the site it leaves. *)
Definition promote_user (commit_fails : bool) (cu : Account) (user_id : N) (s : Site)
    : Site :=
  if negb (account_is_admin cu) then add_notice AccessDenied s
  else
    match user_rows s !! user_id with
    | None => add_notice PromoteFailed s
    | Some user =>
        if commit_fails then add_notice PromoteFailed s
        else add_notice (Promoted (row_display_name user))
               (set_user_rows (<[user_id := set_admin user]> (user_rows s)) s)
    end.

(** *** [ban_user]

    What [db.session.delete(user)] and the commit do to the rows that
    refer to the user is the work of the ORM: [orm_delete] stands for it,
    [None] when it raises. *)
Definition ban_user (orm_delete : N -> Site -> option Site) (cu : Account)
    (user_id : N) (s : Site) : Site :=
  if negb (account_is_admin cu) then add_notice AccessDenied s
  else
    match user_rows s !! user_id with
    | None => add_notice BanFailed s
    | Some user =>
        if bool_decide (user_id <> account_id cu) then
          match orm_delete user_id s with
          | Some s' => add_notice (Banned (row_display_name user)) s'
          | None => add_notice BanFailed s
          end
        else s
    end.

(** *** [follow_user] and [unfollow_user] of [profil.py] *)

Module profil.

Inductive response : Type :=
  | Abort404
  | RedirectProfil (username : string)
  | Raised (e : fault).

(** [user.display_name or user.username]. *)
Definition shown_name (user : UserRow) : string :=
  Py.or_else (Some (row_display_name user)) (row_username user).

Definition follow_user (commit_fails : bool) (me user_id : N) (s : Site)
    : Site * response :=
  match user_rows s !! user_id with
  | None => (s, Abort404)
  | Some user =>
      if bool_decide (user_id = me) then
        (add_notice SelfFollow s, RedirectProfil (row_username user))
      else if is_following me user_id s then
        (add_notice (AlreadyFollowing (shown_name user)) s,
         RedirectProfil (row_username user))
      else if commit_fails then (s, Raised CommitFailed)
      else
        (add_notice (NowFollowing (shown_name user))
           (set_follow_rows ({[ (me, user_id) ]} ∪ follow_rows s) s),
         RedirectProfil (row_username user))
  end.

Definition unfollow_user (commit_fails : bool) (me user_id : N) (s : Site)
    : Site * response :=
  match user_rows s !! user_id with
  | None => (s, Abort404)
  | Some user =>
      if bool_decide ((me, user_id) ∈ follow_rows s) then
        if commit_fails then (s, Raised CommitFailed)
        else
          (add_notice (Unfollowed (shown_name user))
             (set_follow_rows (follow_rows s ∖ {[ (me, user_id) ]}) s),
           RedirectProfil (row_username user))
      else
        (add_notice (NotFollowing (shown_name user)) s,
         RedirectProfil (row_username user))
  end.

End profil.

(** *** [api_videos] *)

(** The two functions of the libraries that [api_videos] relies on:
    [int] on a string, [None] when it raises [ValueError], and the match
    of SQL's [ILIKE], pattern first. The table comes as the list of its
    rows by [created_at], the latest first, which is the order of the
    query. *)

(** The largest INTEGER of SQLite, the database of
    [SQLALCHEMY_DATABASE_URI]: binding a larger offset to the query
    raises [OverflowError]. *)
Definition SQLITE_INTEGER_MAX : Z := 2 ^ 63 - 1.

Section Api.
Variable py_int : string -> option Z.
Variable ilike : string -> string -> bool.

Record ApiPage : Type := {
  api_page : Z;
  api_per_page : Z;
  api_total : nat;
  api_items : list Video
}.

(** [int(request.args.get(name, default))]. *)
Definition int_arg (args : gmap string string) (name : string) (default : Z) : option Z :=
  match args !! name with
  | Some text => py_int text
  | None => Some default
  end.

(** The rows the query of [api_videos] selects, in its order. *)
Definition api_query (args : gmap string string) (table : list Video) : list Video :=
  let q := Py.strip Py.is_space (Py.or_else (args !! "q") "") in
  let cat := Py.or_else (args !! "cat") "" in
  let query := table in
  let query :=
    if Py.nonempty cat
    then List.filter (fun v => bool_decide (category v = cat)) query
    else query in
  if Py.nonempty q then
    let like := "%" +:+ q +:+ "%" in
    List.filter (fun v => ilike like (title v) || ilike like (creator v)) query
  else query.

(** [api_videos]: the page it answers with, or [None] for the answer 500
    that a [ValueError] of [int] leads to, and an offset that the
    database does not take. *)
Definition api_videos (args : gmap string string) (table : list Video) : option ApiPage :=
  match int_arg args "page" 1 with
  | None => None
  | Some page_arg =>
      let page := Z.max page_arg 1 in
      match int_arg args "per_page" 12 with
      | None => None
      | Some per_page_arg =>
          let per_page := Z.min (Z.max per_page_arg 1) 50 in
          let query := api_query args table in
          let offset := ((page - 1) * per_page)%Z in
          if (SQLITE_INTEGER_MAX <? offset)%Z then None
          else
            Some {| api_page := page;
                    api_per_page := per_page;
                    api_total := length query;
                    api_items := take (Z.to_nat per_page) (drop (Z.to_nat offset) query) |}
      end
  end.

(** The items that [home] hands to its template: the rows of the active
    category, [CATEGORIES[0]["id"]] when the request names none, that
    match the search, 40 at most. *)
Definition home_items (args : gmap string string) (table : list Video)
    : result (list Video) :=
  let q := Py.strip Py.is_space (Py.or_else (args !! "q") "") in
  let active_cat :=
    if Py.truthy (args !! "cat") then inr (Py.or_else (args !! "cat") "")
    else match CATEGORIES with
         | c :: _ => inr (cat_id c)
         | [] => inl IndexError
         end in
  match active_cat with
  | inl e => inl e
  | inr active_cat =>
      let query := List.filter (fun v => bool_decide (category v = active_cat)) table in
      let query :=
        if Py.nonempty q then
          let like := "%" +:+ q +:+ "%" in
          List.filter (fun v => ilike like (title v) || ilike like (creator v)) query
        else query in
      inr (take 40 query)
  end.

End Api.

(** A site with two users and one video, for runs of the handlers. *)
Definition sample_site : Site :=
  {| user_rows :=
       {[ 1%N := {| row_username := "demo"; row_display_name := "Demo";
                    row_is_admin := true |};
          2%N := {| row_username := "ana"; row_display_name := "";
                    row_is_admin := false |} ]};
     video_rows := {[ 5%N := {| views := Some 3%Z; likes := Some 0%Z; dislikes := None |} ]};
     like_rows := ∅;
     follow_rows := ∅;
     comment_rows := [];
     notices := [] |}.

(** A deletion that removes the row of the user and nothing else. *)
Definition sample_orm_delete (user_id : N) (s : Site) : option Site :=
  Some (set_user_rows (delete user_id (user_rows s)) s).

(** An [int] that reads the decimal numerals, and an [ILIKE] for the
    patterns of the handlers, a text between two percent signs: it tells
    whether the text occurs, letter case apart. *)
Fixpoint digits_value (acc : Z) (text : string) : option Z :=
  match text with
  | EmptyString => Some acc
  | String c rest =>
      if Py.in_range 48 57 c
      then digits_value (10 * acc + Z.of_nat (Py.ord c - 48))%Z rest
      else None
  end.

Definition sample_py_int (text : string) : option Z :=
  if Py.nonempty text then digits_value 0 text else None.

Definition sample_ilike (pattern text : string) : bool :=
  let needle := Py.lower (Py.strip (fun c => bool_decide (c = "%"%char)) pattern) in
  match String.index 0 needle (Py.lower text) with
  | Some _ => true
  | None => false
  end.

(** A table of five rows, the latest first. *)
Definition sample_video (i : N) (name cat who : string) : Video :=
  {| id := Some i; title := name; description := ""; category := cat;
     filename := Some (name +:+ ".mp4"); external_url := None; thumb_url := None;
     duration := ""; creator := who; user_id := Some 1%N; hls_manifest := None |}.

Definition sample_table : list Video :=
  [ sample_video 5 "Finale" "sport" "ana";
    sample_video 4 "Speedrun" "jeux" "demo";
    sample_video 3 "Concert" "musique" "ana";
    sample_video 2 "Tournoi" "jeux" "ana";
    sample_video 1 "Bande annonce" "film" "demo" ].

(** A site on which the video has a like of the first user and a dislike
    of the second. *)
Definition sample_voted_site : Site :=
  {| user_rows := user_rows sample_site;
     video_rows := {[ 5%N := {| views := Some 3%Z; likes := Some 1%Z; dislikes := Some 1%Z |} ]};
     like_rows := {[ (1%N, 5%N) := true; (2%N, 5%N) := false ]};
     follow_rows := ∅;
     comment_rows := [];
     notices := [] |}.


(** An environment without encoder in which the commit fails. *)
Definition sample_env_commit_fails : Env :=
  {| which_ffmpeg := None; encoder := failing_encoder; utc_timestamp := 1700000000;
     commit_fails := true;
     save_refused := name_too_long;
     current_user := {| user_ident := 7; display_name := "Demo" |} |}.

Definition sample_clip (name : string) : FileStorage :=
  {| client_filename := name; payload := "DATA" |}.

(** ** Notions the properties are stated with *)

(** [ext] is what follows the last dot of [filename]. *)
Definition after_last_dot (filename ext : string) : Prop :=
  exists stem, filename = stem +:+ String "."%char ext /\ Py.contains "." ext = false.

(** A field of a record is set when it holds a string that is not empty,
    which is what [if self.field:] tests. *)
Definition is_set (o : option string) : Prop :=
  exists s, o = Some s /\ s <> EmptyString.

Definition unset (o : option string) : Prop :=
  o = None \/ o = Some EmptyString.

(** How a player reads a master playlist: the lines that are neither
    empty nor tags are the URIs of the renditions, and a tag
    EXT-X-STREAM-INF gives the attributes of the URI on the next line. *)
Definition m3u8_uris (text : string) : list string :=
  List.filter (fun l => Py.nonempty l && negb (Py.head_is (fun c => bool_decide (c = "#"%char)) l))
    (Py.split_on (Py.chr 10) text).

Fixpoint m3u8_variants_of (lines : list string) : list (string * string) :=
  match lines with
  | l :: rest =>
      match Py.after_prefix "#EXT-X-STREAM-INF:" l, rest with
      | Some attrs, uri :: _ => (attrs, uri) :: m3u8_variants_of rest
      | _, _ => m3u8_variants_of rest
      end
  | [] => []
  end.

Definition m3u8_variants (text : string) : list (string * string) :=
  m3u8_variants_of (Py.split_on (Py.chr 10) text).

(** The number of rows of [likes] for a video with a given [is_like]. *)
Definition vote_count (video_id : N) (is_like : bool) (rows : gmap (N * N) bool) : nat :=
  size (filter (fun kv : N * N * bool => kv.1.2 = video_id /\ kv.2 = is_like) rows).

(** The counters of every video tell the numbers of its rows of [likes],
    a null counter reading as 0. *)
Definition counters_in_sync (s : Site) : Prop :=
  forall video_id v, video_rows s !! video_id = Some v ->
    int_or (likes v) 0 = Z.of_nat (vote_count video_id true (like_rows s))
    /\ int_or (dislikes v) 0 = Z.of_nat (vote_count video_id false (like_rows s)).

Definition counters_not_negative (s : Site) : Prop :=
  forall video_id v, video_rows s !! video_id = Some v ->
    (forall n, likes v = Some n -> (0 <= n)%Z)
    /\ (forall n, dislikes v = Some n -> (0 <= n)%Z).

(** The site with likes and dislikes exchanged, in the counters and in
    the rows. *)
Definition mirror_counters (v : Counters) : Counters :=
  {| views := views v; likes := dislikes v; dislikes := likes v |}.

Definition mirror (s : Site) : Site :=
  set_video_votes (negb <$> like_rows s) (mirror_counters <$> video_rows s) s.

Definition mirror_response (r : vote_response) : vote_response :=
  match r with
  | VoteCounts l d => VoteCounts d l
  | VoteError500 e => VoteError500 e
  end.

(** A comment as [comment_post] stores it: a body that is not empty and
    has no white space around it, on a video of the table. *)
Definition comment_ok (s : Site) (c : Comment) : Prop :=
  body c <> "" /\ Py.strip Py.is_space (body c) = body c
  /\ is_Some (video_rows s !! comment_video c).

Definition no_self_follow (s : Site) : Prop :=
  forall u, (u, u) ∉ follow_rows s.

(** The site after [n] requests of the watch page of a video, each
    committed. *)
Definition watches (n : nat) (video_id : N) (s : Site) : Site :=
  Nat.iter n (fun s => (watch false video_id s).1) s.

(** * Properties *)

(** ** Strings *)

Lemma contains_app c s t :
  Py.contains c (s +:+ t) = Py.contains c s || Py.contains c t.
Proof.
  induction s as [|a r IH]; simpl; [done|].
  rewrite IH. by rewrite orb_assoc.
Qed.

Lemma rsplit1_without_sep c s :
  Py.contains c s = false -> Py.rsplit1 c s = [s].
Proof.
  induction s as [|a r IH]; simpl; [done|].
  intros [Hac Hr]%orb_false_elim.
  rewrite (IH Hr). by rewrite Hac.
Qed.

Lemma rsplit1_at_last_sep c h t :
  Py.contains c t = false -> Py.rsplit1 c (h +:+ String c t) = [h; t].
Proof.
  intros Ht. induction h as [|a h IH]; simpl.
  - rewrite (rsplit1_without_sep _ _ Ht).
    by rewrite bool_decide_eq_true_2.
  - by rewrite IH.
Qed.

Lemma contains_split c s :
  Py.contains c s = true ->
  exists h t, s = h +:+ String c t /\ Py.contains c t = false.
Proof.
  induction s as [|a r IH]; simpl; [done|].
  destruct (Py.contains c r) eqn:Hr.
  - intros _. destruct (IH eq_refl) as (h & t & -> & Ht).
    by exists (String a h), t.
  - rewrite orb_false_r. intros ->%bool_decide_eq_true.
    by exists EmptyString, r.
Qed.

(** ** [allowed_file] *)

Lemma allowed_file_total filename :
  exists b, allowed_file filename = inr b.
Proof.
  unfold allowed_file. destruct (Py.contains "." filename) eqn:Hdot; [|by eexists].
  destruct (contains_split _ _ Hdot) as (h & t & -> & Ht).
  rewrite (rsplit1_at_last_sep _ h t Ht). simpl. by eexists.
Qed.

Lemma allowed_file_true filename :
  allowed_file filename = inr true <->
  exists ext, after_last_dot filename ext /\ Py.lower ext ∈ ALLOWED_EXTENSIONS.
Proof.
  unfold allowed_file, after_last_dot. split.
  - destruct (Py.contains "." filename) eqn:Hdot; [|done].
    destruct (contains_split _ _ Hdot) as (h & t & -> & Ht).
    rewrite (rsplit1_at_last_sep _ h t Ht). simpl.
    intros [= Hin%bool_decide_eq_true]. exists t. eauto.
  - intros (ext & (stem & -> & Hext) & Hin).
    rewrite contains_app. simpl. rewrite orb_true_r.
    rewrite (rsplit1_at_last_sep _ stem ext Hext). simpl.
    by rewrite bool_decide_eq_true_2.
Qed.

Lemma allowed_extensions_elem x :
  x ∈ ALLOWED_EXTENSIONS <-> x ∈ ["mp4"; "webm"; "ogg"; "mov"; "m4v"].
Proof. unfold ALLOWED_EXTENSIONS. set_unfold. tauto. Qed.

(** C2. The ingest validator never raises, and it accepts a filename if
    and only if the filename has a dot and what follows its last dot,
    lowercased, is one of mp4, webm, ogg, mov and m4v; clip.MP4 is
    accepted, clip.exe and noext are rejected. *)
Theorem allowed_file_extension_gate :
  (forall filename,
     (allowed_file filename = inr true \/ allowed_file filename = inr false)
     /\ (allowed_file filename = inr true <->
         exists ext, after_last_dot filename ext
                     /\ Py.lower ext ∈ ["mp4"; "webm"; "ogg"; "mov"; "m4v"]))
  /\ allowed_file "clip.MP4" = inr true
  /\ allowed_file "clip.exe" = inr false
  /\ allowed_file "noext" = inr false.
Proof.
  split; [|by vm_compute].
  intros filename. split.
  - destruct (allowed_file_total filename) as [[] ->]; auto.
  - rewrite allowed_file_true.
    by setoid_rewrite allowed_extensions_elem.
Qed.

(** ** [Video.source_url] *)

Section Resolver.
Context `{Host}.

Lemma truthy_is_set o : Py.truthy o = true <-> is_set o.
Proof.
  unfold is_set. destruct o as [[|a s]|]; simpl; split; try done.
  - by intros (s & [= <-] & ?).
  - intros _. by eexists.
  - by intros (s & ? & _).
Qed.

Lemma truthy_unset o : Py.truthy o = false <-> unset o.
Proof.
  unfold unset. destruct o as [[|a s]|]; simpl; split; auto; try done.
  by intros [?|?].
Qed.

Lemma source_url_manifest v m :
  hls_manifest v = Some m -> m <> EmptyString -> source_url v = url_for hls m.
Proof.
  intros Hm Hne. unfold source_url.
  assert (Py.truthy (hls_manifest v) = true) as ->.
  { apply truthy_is_set. by exists m. }
  by rewrite Hm.
Qed.

Lemma source_url_file v f :
  unset (hls_manifest v) -> filename v = Some f -> f <> EmptyString ->
  source_url v = url_for media f.
Proof.
  intros Hm%truthy_unset Hf Hne. unfold source_url. rewrite Hm.
  assert (Py.truthy (filename v) = true) as ->.
  { apply truthy_is_set. by exists f. }
  by rewrite Hf.
Qed.

Lemma source_url_external v :
  unset (hls_manifest v) -> unset (filename v) ->
  source_url v = Py.or_else (external_url v) "".
Proof.
  intros Hm%truthy_unset Hf%truthy_unset. unfold source_url. by rewrite Hm, Hf.
Qed.

(** C1. The playback locator resolver is a total function that answers
    in strict priority order: the streaming-route URL of the manifest
    path when that field is set, whatever the other fields hold; else
    the media-route URL of the stored filename when that is set; else
    the external URL verbatim when there is one; else the empty string. *)
Theorem source_url_priority (v : Video) :
  (forall m, hls_manifest v = Some m -> m <> "" ->
     source_url v = "/hls/" +:+ url_quote m)
  /\ (unset (hls_manifest v) ->
      forall f, filename v = Some f -> f <> "" ->
        source_url v = "/media/" +:+ url_quote f)
  /\ (unset (hls_manifest v) -> unset (filename v) ->
      forall u, external_url v = Some u -> source_url v = u)
  /\ (unset (hls_manifest v) -> unset (filename v) ->
      external_url v = None -> source_url v = "").
Proof.
  split; [|split; [|split]].
  - intros m Hm Hne. by rewrite (source_url_manifest v m).
  - intros Hm f Hf Hne. by rewrite (source_url_file v f).
  - intros Hm Hf u Hu. rewrite source_url_external by done.
    rewrite Hu. by destruct u.
  - intros Hm Hf Hu. rewrite source_url_external by done. by rewrite Hu.
Qed.

End Resolver.

(** ** The storage namer: the loop of [upload_post] *)

Lemma string_app_length s t :
  String.length (s +:+ t) = (String.length s + String.length t)%nat.
Proof. induction s as [|a s IH]; simpl; [done|]. by rewrite IH. Qed.

Lemma string_app_inv_tail s s' t : s +:+ t = s' +:+ t -> s = s'.
Proof.
  revert s'. induction s as [|a s IH]; intros [|a' s'] Heq; simpl in *.
  - done.
  - apply (f_equal String.length) in Heq.
    rewrite !string_app_length in Heq. simpl in Heq. lia.
  - apply (f_equal String.length) in Heq.
    rewrite !string_app_length in Heq. simpl in Heq. lia.
  - injection Heq as -> Heq. by rewrite (IH _ Heq).
Qed.

Lemma suffixed_inj base ext k k' :
  suffixed base k ext = suffixed base k' ext -> k = k'.
Proof.
  unfold suffixed. intros Heq.
  apply (inj (String.app base)) in Heq. simpl in Heq.
  injection Heq as Heq.
  apply (string_app_inv_tail (pretty k) (pretty k') ext) in Heq.
  by apply (inj pretty).
Qed.

Lemma suffixed_nonempty base k ext : suffixed base k ext <> EmptyString.
Proof. unfold suffixed. by destruct base. Qed.

Section Namer.
Context `{Host}.

(** A name that is not empty is in the directory when its path is a key
    of the file system. *)
Lemma path_exists_entry (fs : FS) (dir : path) (name : string) :
  name <> EmptyString ->
  path_exists fs (os_path_join dir name) = bool_decide (is_Some (fs !! (dir ++ [name]))).
Proof.
  intros Hne. unfold path_exists, os_path_join. rewrite last_snoc.
  by destruct name.
Qed.

Lemma reserve_loop_free fuel fs base ext counter final r :
  reserve_loop fuel fs base ext counter final = Some r ->
  path_exists fs (os_path_join UPLOAD_DIR r) = false.
Proof.
  revert counter final. induction fuel as [|fuel IH]; intros counter final; simpl;
    destruct (path_exists fs (os_path_join UPLOAD_DIR final)) eqn:Hex; try done.
  - by intros [= <-].
  - apply IH.
  - by intros [= <-].
Qed.

Lemma reserve_loop_more_fuel fuel fuel' fs base ext counter final r :
  reserve_loop fuel fs base ext counter final = Some r ->
  (fuel <= fuel')%nat ->
  reserve_loop fuel' fs base ext counter final = Some r.
Proof.
  revert fuel' counter final.
  induction fuel as [|fuel IH]; intros fuel' counter final; simpl;
    destruct (path_exists fs (os_path_join UPLOAD_DIR final)) eqn:Hex; try done.
  - intros [= <-] _. destruct fuel'; simpl; by rewrite Hex.
  - intros Hr Hle. destruct fuel' as [|fuel']; [lia|]. simpl. rewrite Hex.
    apply IH; [done|lia].
  - intros [= <-] _. destruct fuel'; simpl; by rewrite Hex.
Qed.

(** The loop returns its first name or one of the suffixed names. *)
Lemma reserve_loop_shape fuel fs base ext counter final r :
  reserve_loop fuel fs base ext counter final = Some r ->
  r = final \/ exists k, (counter <= k)%N /\ r = suffixed base k ext.
Proof.
  revert counter final. induction fuel as [|fuel IH]; intros counter final; simpl;
    destruct (path_exists fs (os_path_join UPLOAD_DIR final)) eqn:Hex; try done.
  - intros [= <-]. by left.
  - intros [->|(k & Hk & ->)]%IH; right.
    + exists counter. split; [lia|done].
    + exists k. split; [lia|done].
  - intros [= <-]. by left.
Qed.

(** Among the suffixed names from [counter] on, those present are keys
    of the file system, and two of them differ; so a loop that stands at
    a suffixed name ends within as many steps as there are keys. *)
Lemma reserve_loop_suffixed_ends fs base ext :
  forall (n : nat) (X : gset (list string)) (counter : N),
    (size X <= n)%nat ->
    (forall k, (counter <= k)%N ->
       path_exists fs (os_path_join UPLOAD_DIR (suffixed base k ext)) = true ->
       UPLOAD_DIR ++ [suffixed base k ext] ∈ X) ->
    is_Some (reserve_loop n fs base ext (counter + 1) (suffixed base counter ext)).
Proof.
  induction n as [|n IH]; intros X counter Hsize Hin.
  - simpl.
    destruct (path_exists fs (os_path_join UPLOAD_DIR (suffixed base counter ext))) eqn:Hex;
      [|by eexists].
    apply Hin in Hex; [|lia].
    apply size_empty_inv in Hex; [done|]. apply Nat.le_0_r in Hsize.
    by apply size_empty_iff, leibniz_equiv_iff in Hsize as ->.
  - simpl.
    destruct (path_exists fs (os_path_join UPLOAD_DIR (suffixed base counter ext))) eqn:Hex;
      [|by eexists].
    apply (IH (X ∖ {[ UPLOAD_DIR ++ [suffixed base counter ext] ]})).
    + assert (UPLOAD_DIR ++ [suffixed base counter ext] ∈ X) as Hc
        by (apply Hin; [lia|done]).
      pose proof (size_difference X {[ UPLOAD_DIR ++ [suffixed base counter ext] ]}) as Hd.
      rewrite size_singleton in Hd.
      assert (size X <> O) by (intros Hz%size_empty_iff; set_solver).
      rewrite Hd by set_solver. lia.
    + intros k Hk Hexk. apply elem_of_difference. split; [apply Hin; [lia|done]|].
      rewrite elem_of_singleton. intros Heq%app_inv_head. injection Heq as Heq.
      apply suffixed_inj in Heq. lia.
Qed.

Lemma reserve_loop_ends fs base ext counter final :
  is_Some (reserve_loop (S (size fs)) fs base ext counter final).
Proof.
  simpl. destruct (path_exists fs (os_path_join UPLOAD_DIR final)); [|by eexists].
  apply (reserve_loop_suffixed_ends fs base ext (size fs) (dom fs)).
  - by rewrite size_dom.
  - intros k _. rewrite path_exists_entry by apply suffixed_nonempty.
    intros Hk%bool_decide_eq_true. by apply elem_of_dom.
Qed.

Lemma final_name_ends fs client_name :
  exists final,
    (forall fuel, (size fs < fuel)%nat -> final_name fuel fs client_name = Some final)
    /\ path_exists fs (os_path_join UPLOAD_DIR final) = false.
Proof.
  unfold final_name. destruct (splitext (secure_filename client_name)) as [base ext].
  destruct (reserve_loop_ends fs base ext 1 (secure_filename client_name)) as [final Hfinal].
  exists final. split.
  - intros fuel Hfuel. apply (reserve_loop_more_fuel _ _ _ _ _ _ _ _ Hfinal). lia.
  - by apply reserve_loop_free in Hfinal.
Qed.

(** C9. For every desired name and every file system, hence every finite
    set of names present in the upload root, the loop of the storage
    namer ends, with any fuel above the number of entries, and the name
    it returns does not exist in the upload root. *)
Theorem storage_namer_terminates_on_free_name (fs : FS) (client_name : string) :
  exists final,
    (forall fuel, (size fs < fuel)%nat -> final_name fuel fs client_name = Some final)
    /\ path_exists fs (os_path_join UPLOAD_DIR final) = false
    /\ (final <> "" -> fs !! (UPLOAD_DIR ++ [final]) = None).
Proof.
  destruct (final_name_ends fs client_name) as (final & Hfuel & Hfree).
  exists final. split; [done|]. split; [done|].
  intros Hne. rewrite path_exists_entry in Hfree by done.
  apply bool_decide_eq_false in Hfree. by apply eq_None_not_Some.
Qed.

End Namer.

Section NameCollision.
Context `{Host}.

Lemma final_name_agree fuel fuel' fs client_name r r' :
  final_name fuel fs client_name = Some r ->
  final_name fuel' fs client_name = Some r' ->
  r = r'.
Proof.
  unfold final_name. destruct (splitext (secure_filename client_name)) as [base ext].
  intros Hr Hr'.
  apply (reserve_loop_more_fuel _ (fuel `max` fuel')) in Hr; [|lia].
  apply (reserve_loop_more_fuel _ (fuel `max` fuel')) in Hr'; [|lia].
  congruence.
Qed.

Lemma splitext_a_mp4 : splitext "a.mp4" = ("a", ".mp4").
Proof. unfold splitext, os_sep, os_altsep. by destruct os_nt. Qed.

(** The sanitiser leaves a.mp4 as it is when the normalisation does and
    A is no device name. *)
Lemma secure_filename_a_mp4 :
  nfkd_ascii "a.mp4" = "a.mp4" ->
  "A" ∉ windows_device_files ->
  secure_filename "a.mp4" = "a.mp4".
Proof.
  intros Hnfkd Hdevice. unfold secure_filename. rewrite Hnfkd.
  unfold secure_ascii, os_sep, os_altsep. destruct os_nt; [|done].
  change (Py.upper (Py.split_head "." (Py.strip dot_or_underscore
            (Py.filter filename_char (Py.join "_" (Py.split
               (Py.replace "/" " " (Py.replace "\" " " "a.mp4")))))))) with "A".
  by rewrite bool_decide_eq_false_2.
Qed.

(** The three runs of the loop on a.mp4, with fuel for two steps. *)
Lemma final_name_a_mp4_steps (fs : FS) :
  secure_filename "a.mp4" = "a.mp4" ->
  (path_exists fs (os_path_join UPLOAD_DIR "a.mp4") = false ->
     final_name 2 fs "a.mp4" = Some "a.mp4")
  /\ (path_exists fs (os_path_join UPLOAD_DIR "a.mp4") = true ->
      path_exists fs (os_path_join UPLOAD_DIR "a-1.mp4") = false ->
      final_name 2 fs "a.mp4" = Some "a-1.mp4")
  /\ (path_exists fs (os_path_join UPLOAD_DIR "a.mp4") = true ->
      path_exists fs (os_path_join UPLOAD_DIR "a-1.mp4") = true ->
      path_exists fs (os_path_join UPLOAD_DIR "a-2.mp4") = false ->
      final_name 2 fs "a.mp4" = Some "a-2.mp4").
Proof.
  intros Hsan. unfold final_name. rewrite Hsan, splitext_a_mp4.
  repeat split.
  - intros H0. simpl. by rewrite H0.
  - intros H0 H1. simpl. rewrite H0.
    change (suffixed "a" 1 ".mp4") with "a-1.mp4". by rewrite H1.
  - intros H0 H1 H2. simpl. rewrite H0.
    change (suffixed "a" 1 ".mp4") with "a-1.mp4". rewrite H1.
    change (suffixed "a" (1 + 1) ".mp4") with "a-2.mp4". by rewrite H2.
Qed.

(** C3. On a host whose Unicode normalisation leaves the ASCII name
    a.mp4 as it is and that has no device file named A: reserving a.mp4
    in an upload root that does not hold it, an empty one in particular,
    yields a.mp4; reserving it when a.mp4 exists and a-1.mp4 does not
    yields a-1.mp4; and when both exist and a-2.mp4 does not, a-2.mp4. *)
Theorem reserve_a_mp4_three_times (fs : FS) (fuel : nat) :
  nfkd_ascii "a.mp4" = "a.mp4" ->
  "A" ∉ windows_device_files ->
  (size fs < fuel)%nat ->
  (path_exists fs (os_path_join UPLOAD_DIR "a.mp4") = false ->
     final_name fuel fs "a.mp4" = Some "a.mp4")
  /\ (path_exists fs (os_path_join UPLOAD_DIR "a.mp4") = true ->
      path_exists fs (os_path_join UPLOAD_DIR "a-1.mp4") = false ->
      final_name fuel fs "a.mp4" = Some "a-1.mp4")
  /\ (path_exists fs (os_path_join UPLOAD_DIR "a.mp4") = true ->
      path_exists fs (os_path_join UPLOAD_DIR "a-1.mp4") = true ->
      path_exists fs (os_path_join UPLOAD_DIR "a-2.mp4") = false ->
      final_name fuel fs "a.mp4" = Some "a-2.mp4").
Proof.
  intros Hnfkd Hdevice Hfuel.
  pose proof (secure_filename_a_mp4 Hnfkd Hdevice) as Hsan.
  destruct (final_name_ends fs "a.mp4") as (final & Hfinal & _).
  destruct (final_name_a_mp4_steps fs Hsan) as (H0 & H1 & H2).
  rewrite (Hfinal fuel Hfuel).
  repeat split; intros; f_equal;
    eapply final_name_agree; eauto.
Qed.

End NameCollision.

(** ** The characters of a stored name *)

Lemma all_app p s t : Py.all p (s +:+ t) = Py.all p s && Py.all p t.
Proof.
  induction s as [|a s IH]; simpl; [done|]. rewrite IH. by rewrite andb_assoc.
Qed.

Lemma all_filter p s : Py.all p (Py.filter p s) = true.
Proof.
  induction s as [|a s IH]; simpl; [done|].
  destruct (p a) eqn:Hp; simpl; [by rewrite Hp|done].
Qed.

Lemma all_lstrip p q s : Py.all q s = true -> Py.all q (Py.lstrip p s) = true.
Proof.
  induction s as [|a s IH]; simpl; [done|].
  intros [Ha Hs]%andb_prop. destruct (p a); [by apply IH|].
  simpl. by rewrite Ha, Hs.
Qed.

Lemma all_rstrip p q s : Py.all q s = true -> Py.all q (Py.rstrip p s) = true.
Proof.
  induction s as [|a s IH]; simpl; [done|].
  intros [Ha Hs]%andb_prop. specialize (IH Hs).
  destruct (Py.rstrip p s) as [|b r].
  - destruct (p a); simpl; [done|by rewrite Ha].
  - change (q a && Py.all q (String b r) = true). by rewrite Ha, IH.
Qed.

Lemma all_take q n s : Py.all q s = true -> Py.all q (Py.take n s) = true.
Proof.
  revert s. induction n as [|n IH]; intros [|a s]; simpl; try done.
  intros [Ha Hs]%andb_prop. by rewrite Ha, (IH s Hs).
Qed.

Lemma all_drop q n s : Py.all q s = true -> Py.all q (Py.drop n s) = true.
Proof.
  revert s. induction n as [|n IH]; intros [|a s]; simpl; try done.
  intros [Ha Hs]%andb_prop. by apply IH.
Qed.

Lemma all_contains q c s :
  Py.all q s = true -> Py.contains c s = true -> q c = true.
Proof.
  induction s as [|a s IH]; simpl; [done|].
  intros [Ha Hs]%andb_prop [Hc|Hc]%orb_prop.
  - apply bool_decide_eq_true in Hc. by subst.
  - by apply IH.
Qed.

Lemma take_drop_string n s : Py.take n s +:+ Py.drop n s = s.
Proof.
  revert s. induction n as [|n IH]; intros [|a s]; try done.
  change (String a (Py.take n s +:+ Py.drop n s) = String a s). by rewrite IH.
Qed.

Lemma head_is_lstrip p s : Py.head_is p (Py.lstrip p s) = false.
Proof.
  induction s as [|a s IH]; simpl; [done|].
  destruct (p a) eqn:Hp; [done|]. simpl. by rewrite Hp.
Qed.

Lemma head_is_rstrip p q s :
  Py.head_is q (Py.rstrip p s) = true -> Py.head_is q s = true.
Proof.
  destruct s as [|a s]; simpl; [done|].
  destruct (Py.rstrip p s); [|done]. by destruct (p a).
Qed.

Lemma head_is_take q n s :
  Py.head_is q (Py.take n s) = true -> Py.head_is q s = true.
Proof. by destruct n, s. Qed.

Lemma head_is_app q s t :
  Py.head_is q (s +:+ t) = if Py.nonempty s then Py.head_is q s else Py.head_is q t.
Proof. by destruct s. Qed.

(** The decimal digits [pretty] writes are characters of a filename. *)
Lemma pretty_N_char_filename x : filename_char (pretty_N_char x) = true.
Proof. unfold pretty_N_char. by repeat case_match. Qed.

Lemma pretty_N_go_filename x s :
  Py.all filename_char s = true -> Py.all filename_char (pretty_N_go x s) = true.
Proof.
  revert s. induction (N.lt_wf_0 x) as [x _ IH]; intros s Hs.
  destruct (decide (x = 0)%N) as [->|Hx]; [by rewrite pretty_N_go_0|].
  rewrite pretty_N_go_step by lia. apply IH.
  - apply N.div_lt; lia.
  - simpl. by rewrite pretty_N_char_filename, Hs.
Qed.

Lemma pretty_N_filename (x : N) : Py.all filename_char (pretty x) = true.
Proof.
  unfold pretty, pretty_N. case_decide; [done|]. by apply pretty_N_go_filename.
Qed.

Lemma head_is_weaken (p q : ascii -> bool) s :
  (forall c, p c = true -> q c = true) ->
  Py.head_is p s = true -> Py.head_is q s = true.
Proof. destruct s; simpl; [done|auto]. Qed.

Lemma no_separator s :
  Py.all filename_char s = true ->
  Py.contains "/" s = false /\ Py.contains "\" s = false.
Proof.
  intros Hall. split.
  - destruct (Py.contains "/" s) eqn:Hc; [|done].
    by pose proof (all_contains _ _ _ Hall Hc).
  - destruct (Py.contains "\" s) eqn:Hc; [|done].
    by pose proof (all_contains _ _ _ Hall Hc).
Qed.

Lemma no_dot_component s :
  Py.head_is Py.is_dot s = false -> s <> "." /\ s <> "..".
Proof. split; by intros ->. Qed.

Section StoredName.
Context `{Host}.

Lemma secure_ascii_chars s : Py.all filename_char (secure_ascii s) = true.
Proof.
  unfold secure_ascii, Py.strip.
  match goal with |- context [Py.filter filename_char ?x] => generalize x end.
  intros x. pose proof (all_filter filename_char x) as Hx.
  apply (all_lstrip dot_or_underscore) in Hx. apply (all_rstrip dot_or_underscore) in Hx.
  case_match; [|done].
  change (filename_char "_" && Py.all filename_char
            (Py.rstrip dot_or_underscore (Py.lstrip dot_or_underscore (Py.filter filename_char x)))
          = true).
  by rewrite Hx.
Qed.

Lemma secure_ascii_head s : Py.head_is Py.is_dot (secure_ascii s) = false.
Proof.
  unfold secure_ascii, Py.strip.
  match goal with |- context [Py.filter filename_char ?x] => generalize x end.
  intros x. case_match; [done|].
  destruct (Py.head_is Py.is_dot _) eqn:Hd; [|done].
  apply head_is_rstrip in Hd.
  apply (head_is_weaken _ dot_or_underscore) in Hd.
  - by rewrite head_is_lstrip in Hd.
  - intros c Hc. unfold dot_or_underscore. unfold Py.is_dot in Hc. by rewrite Hc.
Qed.

Lemma splitext_parts p base ext :
  splitext p = (base, ext) ->
  (base = p /\ ext = "") \/ exists n, base = Py.take n p /\ ext = Py.drop n p.
Proof.
  unfold splitext. case_match; intros [= <- <-]; [right|left]; eauto.
Qed.

Lemma splitext_chars q p base ext :
  splitext p = (base, ext) -> Py.all q p = true ->
  Py.all q base = true /\ Py.all q ext = true.
Proof.
  intros [[-> ->]|(n & -> & ->)]%splitext_parts Hp; [done|].
  split; [by apply all_take|by apply all_drop].
Qed.

Lemma splitext_head q p base ext :
  splitext p = (base, ext) -> Py.head_is q base = true -> Py.head_is q p = true.
Proof.
  intros [[-> ->]|(n & -> & ->)]%splitext_parts; [done|]. apply head_is_take.
Qed.

Lemma suffixed_chars base k ext :
  Py.all filename_char base = true -> Py.all filename_char ext = true ->
  Py.all filename_char (suffixed base k ext) = true.
Proof.
  intros Hb He. unfold suffixed. rewrite !all_app, Hb, He, pretty_N_filename. done.
Qed.

Lemma suffixed_head base k ext :
  Py.head_is Py.is_dot base = false ->
  Py.head_is Py.is_dot (suffixed base k ext) = false.
Proof.
  intros Hb. unfold suffixed. rewrite head_is_app. by destruct (Py.nonempty base).
Qed.

(** Whatever the loop returns is made of filename characters and does
    not start with a dot. *)
Lemma final_name_safe fuel fs client_name final :
  final_name fuel fs client_name = Some final ->
  Py.all filename_char final = true /\ Py.head_is Py.is_dot final = false.
Proof.
  unfold final_name, secure_filename.
  destruct (splitext (secure_ascii (nfkd_ascii client_name))) as [base ext] eqn:Hsplit.
  pose proof (secure_ascii_chars (nfkd_ascii client_name)) as Hchars.
  pose proof (secure_ascii_head (nfkd_ascii client_name)) as Hhead.
  destruct (splitext_chars _ _ _ _ Hsplit Hchars) as [Hb He].
  intros [->|(k & _ & ->)]%reserve_loop_shape; [done|].
  split; [by apply suffixed_chars|]. apply suffixed_head.
  destruct (Py.head_is Py.is_dot base) eqn:Hd; [|done].
  apply (splitext_head _ _ _ _ Hsplit) in Hd. congruence.
Qed.

End StoredName.

(** ** Storing the upload *)

Section StoreUpload.
Context `{Host}.

(** [store_upload] as one case analysis. *)
Lemma store_upload_run env f w :
  store_upload env f w =
    match final_name (S (size (fs w))) (fs w) (client_filename f) with
    | None => None
    | Some final =>
        match save env f (fs w) (UPLOAD_DIR ++ [final]) with
        | inl e => Some (w, inl e)
        | inr fs1 =>
            Some (set_fs fs1 w,
                  inr (fst (splitext (secure_filename (client_filename f))), final,
                       UPLOAD_DIR ++ [final]))
        end
    end.
Proof.
  unfold store_upload, final_name.
  destruct (splitext (secure_filename (client_filename f))) as [base ext].
  unfold bind, reserve.
  destruct (reserve_loop _ _ _ _ _ _) as [final|]; [|done].
  unfold get_fs, lift, os_path_join.
  by destruct (save _ _ _ _).
Qed.

Lemma write_file_ok (fs0 fs1 : FS) p content :
  write_file fs0 p content = inr fs1 ->
  last p <> Some "" /\ fs1 = <[p := File content]> fs0.
Proof.
  unfold write_file. destruct (last p) as [[|a s]|] eqn:Hlast; try done;
    case_match; try done; by intros [= <-].
Qed.

Lemma save_ok (env : Env) (f : FileStorage) (fs0 fs1 : FS) (p : path) :
  save env f fs0 p = inr fs1 ->
  save_refused env p = false /\ write_file fs0 p (payload f) = inr fs1.
Proof. unfold save. by destruct (save_refused env p). Qed.

(** C10. When [upload_post] has stored an upload, the name it stored it
    under is made of letters, digits, underscores, dots and dashes only,
    so it holds no directory separator; it is none of the empty name,
    the current-directory name and the parent-directory name; it is the
    sanitised client name or that name with a dash and a number put
    before its extension; and the one file written is the entry of that
    name in the upload root. *)
Theorem stored_name_stays_in_upload_root
    (env : Env) (f : FileStorage) (w w' : World) (base final : string) (file_path : path) :
  store_upload env f w = Some (w', inr (base, final, file_path)) ->
  Py.all filename_char final = true
  /\ Py.contains "/" final = false /\ Py.contains "\" final = false
  /\ final <> "" /\ final <> "." /\ final <> ".."
  /\ (final = secure_filename (client_filename f)
      \/ exists k ext,
           splitext (secure_filename (client_filename f)) = (base, ext)
           /\ final = suffixed base k ext)
  /\ file_path = UPLOAD_DIR ++ [final]
  /\ w' = set_fs (<[UPLOAD_DIR ++ [final] := File (payload f)]> (fs w)) w.
Proof.
  rewrite store_upload_run.
  destruct (final_name _ _ _) as [final'|] eqn:Hfinal; [|done].
  destruct (save _ _ _ _) as [e|fs1] eqn:Hsave; [done|].
  apply save_ok in Hsave as [_ Hwrite].
  intros [= <- <- <- <-].
  destruct (final_name_safe _ _ _ _ Hfinal) as [Hchars Hhead].
  destruct (no_separator _ Hchars) as [Hslash Hbackslash].
  destruct (no_dot_component _ Hhead) as [Hdot Hdots].
  destruct (write_file_ok _ _ _ _ Hwrite) as [Hlast ->].
  rewrite last_snoc in Hlast.
  repeat split; try done.
  - congruence.
  - revert Hfinal. unfold final_name.
    destruct (splitext (secure_filename (client_filename f))) as [base ext].
    intros [->|(k & _ & ->)]%reserve_loop_shape; [by left|right]. by exists k, ext.
Qed.

End StoreUpload.

(** ** [transcode_to_hls] *)

Lemma replace_app old new s t :
  Py.replace old new (s +:+ t) = Py.replace old new s +:+ Py.replace old new t.
Proof.
  unfold Py.replace. induction s as [|a s IH]; [done|].
  change (String (if bool_decide (a = old) then new else a)
            (Py.map (fun c => if bool_decide (c = old) then new else c) (s +:+ t)) =
          String (if bool_decide (a = old) then new else a)
            (Py.map (fun c => if bool_decide (c = old) then new else c) s
             +:+ Py.map (fun c => if bool_decide (c = old) then new else c) t)).
  by rewrite IH.
Qed.

Lemma contains_replace old new s :
  old <> new -> Py.contains old (Py.replace old new s) = false.
Proof.
  intros Hne. unfold Py.replace. induction s as [|a s IH]; simpl; [done|].
  rewrite IH, orb_false_r. apply bool_decide_eq_false.
  case_bool_decide; congruence.
Qed.

Section Transcode.
Context `{Host}.

Lemma common_prefix_len_app (l r : list string) :
  common_prefix_len l (l ++ r) = length l.
Proof.
  induction l as [|x l IH]; simpl; [done|].
  rewrite bool_decide_eq_true_2 by done. by rewrite IH.
Qed.

(** The path of an entry two levels below [start], relative to [start]. *)
Lemma relpath_below (start : path) (sub name : string) :
  sub <> "" -> name <> "" ->
  relpath (start ++ [sub; name]) start = sub +:+ String os_sep name.
Proof.
  intros Hsub Hname. unfold relpath.
  rewrite List.filter_app, common_prefix_len_app, Nat.sub_diag, drop_app_length.
  destruct sub, name; try done.
Qed.

(** [transcode_to_hls] as one case analysis. *)
Lemma transcode_to_hls_run env input_path target_dir w :
  transcode_to_hls env input_path target_dir w =
    let cmd := ffmpeg_cmd input_path target_dir in
    let master_path := target_dir ++ ["master.m3u8"] in
    match makedirs (fs w) target_dir with
    | inl e => Some (w, inl e)
    | inr fs1 =>
        let w1 := add_run cmd (set_fs fs1 w) in
        match encoder env cmd fs1 with
        | NotStarted => Some (w1, inl OSError)
        | Ran returncode stderr after =>
            if (returncode =? 0)%Z then
              if path_exists after master_path
              then Some (set_fs after w1,
                         inr (Py.replace "\" "/" (relpath master_path HLS_DIR)))
              else match write_file after master_path master_manifest with
                   | inl e => Some (set_fs after w1, inl e)
                   | inr fs3 =>
                       Some (set_fs fs3 (set_fs after w1),
                             inr (Py.replace "\" "/" (relpath master_path HLS_DIR)))
                   end
            else Some (set_fs after w1, inl (CalledProcessError returncode stderr))
        end
    end.
Proof.
  unfold transcode_to_hls, subprocess_run, bind, get_fs, lift, os_path_join.
  destruct (makedirs (fs w) target_dir) as [e|fs1]; [done|]. simpl.
  destruct (encoder env _ fs1) as [returncode stderr after|]; [|done]. simpl.
  destruct (returncode =? 0)%Z; [|done]. simpl.
  destruct (path_exists after _); [done|]. simpl.
  by destruct (write_file after _ _).
Qed.

Lemma write_file_free (fs0 : FS) (dir : path) (name content : string) :
  name <> "" ->
  is_dir fs0 dir = true ->
  path_exists fs0 (dir ++ [name]) = false ->
  write_file fs0 (dir ++ [name]) content = inr (<[dir ++ [name] := File content]> fs0).
Proof.
  intros Hne Hdir Hfree. unfold path_exists in Hfree. unfold write_file.
  rewrite last_snoc in *. rewrite removelast_last, Hdir.
  destruct name; [done|].
  apply bool_decide_eq_false in Hfree. apply eq_None_not_Some in Hfree.
  unfold is_dir at 1. by rewrite Hfree.
Qed.

(** C5. When the encoder run ends with return code 0 and has left no
    master manifest in the output directory, [transcode_to_hls] writes
    one itself, which names exactly the two rendition playlists
    v0/index.m3u8 and v1/index.m3u8, each with its bandwidth and
    resolution; it then returns the path of the master manifest relative
    to the streaming root, with forward slashes only: for an output
    directory [sub] of the streaming root, [sub] followed by
    /master.m3u8. *)
Theorem master_manifest_synthesis
    (env : Env) (input_path target_dir : path) (w : World) (fs1 after : FS)
    (stderr : string) :
  makedirs (fs w) target_dir = inr fs1 ->
  encoder env (ffmpeg_cmd input_path target_dir) fs1 = Ran 0 stderr after ->
  is_dir after target_dir = true ->
  path_exists after (target_dir ++ ["master.m3u8"]) = false ->
  exists w' rel,
    transcode_to_hls env input_path target_dir w = Some (w', inr rel)
    /\ fs w' = <[target_dir ++ ["master.m3u8"] := File master_manifest]> after
    /\ m3u8_uris master_manifest = ["v0/index.m3u8"; "v1/index.m3u8"]
    /\ m3u8_variants master_manifest =
         [("BANDWIDTH=800000,RESOLUTION=640x360", "v0/index.m3u8");
          ("BANDWIDTH=2500000,RESOLUTION=1280x720", "v1/index.m3u8")]
    /\ rel = Py.replace "\" "/" (relpath (target_dir ++ ["master.m3u8"]) HLS_DIR)
    /\ Py.contains "\" rel = false
    /\ (forall sub, target_dir = HLS_DIR ++ [sub] -> sub <> "" ->
          rel = Py.replace "\" "/" sub +:+ "/master.m3u8").
Proof.
  intros Hmk Hrun Hdir Hfree.
  rewrite transcode_to_hls_run. cbv zeta. rewrite Hmk, Hrun. simpl.
  rewrite Hfree, (write_file_free after target_dir) by done.
  eexists _, _. split; [done|]. split; [done|].
  split; [by vm_compute|]. split; [by vm_compute|]. split; [done|].
  split; [by apply contains_replace|].
  intros sub -> Hsub. rewrite <- (app_assoc HLS_DIR [sub] ["master.m3u8"]). simpl.
  rewrite relpath_below by done.
  rewrite replace_app. f_equal. unfold os_sep. by destruct os_nt.
Qed.

End Transcode.

(** ** [upload_post] *)

Lemma strip_blank p s : Py.strip p s = "" -> Py.all p s = true.
Proof.
  unfold Py.strip. intros Hstrip.
  assert (forall t, Py.rstrip p t = "" -> Py.all p t = true) as Hr.
  { induction t as [|a t IH]; simpl; [done|].
    destruct (Py.rstrip p t); [|done]. destruct (p a); [|done].
    intros _. by rewrite IH. }
  apply Hr in Hstrip. clear Hr.
  induction s as [|a s IH]; simpl in *; [done|].
  destruct (p a) eqn:Hp; [by apply IH|].
  simpl in Hstrip. by rewrite Hp in Hstrip.
Qed.

Lemma dict_has_categories c :
  dict_has CATEGORIES_MAP c = true <->
  c ∈ ["tendance"; "jeux"; "musique"; "film"; "sport"].
Proof.
  unfold dict_has, CATEGORIES_MAP. simpl.
  rewrite bool_decide_eq_true, <- elem_of_dom.
  rewrite !dom_insert_L, dom_empty_L. set_unfold. naive_solver.
Qed.

Section Upload.
Context `{Host}.

(** Past its two checks, [upload_post] is [upload_accepted] under the
    handler of its [try]. *)
Lemma upload_post_accepted env req f w :
  file req = Some f ->
  client_filename f <> "" ->
  allowed_file (client_filename f) = inr true ->
  upload_post env req w = try_except (upload_accepted env req f) upload_handler w.
Proof.
  intros Hf Hname Hok. unfold upload_post, try_except. rewrite Hf.
  assert (Py.nonempty (client_filename f) = true) as ->
    by (by destruct (client_filename f)).
  simpl. unfold bind at 1. by rewrite Hok.
Qed.

(** The only way to the watch page goes through the two checks. *)
Lemma upload_post_watch env req w w' i :
  upload_post env req w = Some (w', inr (RedirectWatch i)) ->
  exists f,
    file req = Some f /\ client_filename f <> ""
    /\ allowed_file (client_filename f) = inr true
    /\ upload_accepted env req f w = Some (w', inr (RedirectWatch i)).
Proof.
  unfold upload_post, try_except.
  destruct (file req) as [f|] eqn:Hf; [|done].
  destruct (Py.nonempty (client_filename f)) eqn:Hn; [|done]. simpl.
  unfold bind at 1.
  destruct (allowed_file_total (client_filename f)) as [[] Hok]; rewrite Hok; simpl;
    [|done].
  intros Hrun. exists f. repeat split; try done.
  - by intros Hempty; rewrite Hempty in Hn.
  - destruct (upload_accepted env req f w) as [[w1 [e|r]]|]; [done|done|done].
Qed.

(** What a store that succeeded did. *)
Lemma store_upload_inv env f w w1 base final file_path :
  store_upload env f w = Some (w1, inr (base, final, file_path)) ->
  final_name (S (size (fs w))) (fs w) (client_filename f) = Some final
  /\ final <> ""
  /\ is_dir (fs w) UPLOAD_DIR = true
  /\ save_refused env file_path = false
  /\ base = fst (splitext (secure_filename (client_filename f)))
  /\ file_path = UPLOAD_DIR ++ [final]
  /\ w1 = set_fs (<[UPLOAD_DIR ++ [final] := File (payload f)]> (fs w)) w.
Proof.
  rewrite store_upload_run.
  destruct (final_name _ _ _) as [final'|] eqn:Hfinal; [|done].
  destruct (save _ _ _ _) as [e|fs1] eqn:Hsave; [done|].
  apply save_ok in Hsave as [Hrefused Hwrite].
  intros [= <- <- <- <-].
  destruct (write_file_ok _ _ _ _ Hwrite) as [Hlast ->].
  rewrite last_snoc in Hlast.
  unfold write_file in Hwrite. rewrite last_snoc, removelast_last in Hwrite.
  repeat split; try done.
  - congruence.
  - destruct final'; [done|]. by destruct (is_dir (fs w) UPLOAD_DIR).
Qed.

(** The store succeeds when the upload root is a directory and the
    operating system does not refuse the file. *)
Lemma store_upload_ok env f w :
  is_dir (fs w) UPLOAD_DIR = true ->
  exists final,
    final_name (S (size (fs w))) (fs w) (client_filename f) = Some final
    /\ final <> ""
    /\ (save_refused env (UPLOAD_DIR ++ [final]) = false ->
        store_upload env f w =
          Some (set_fs (<[UPLOAD_DIR ++ [final] := File (payload f)]> (fs w)) w,
                inr (fst (splitext (secure_filename (client_filename f))), final,
                     UPLOAD_DIR ++ [final]))).
Proof.
  intros Hdir.
  destruct (final_name_ends (fs w) (client_filename f)) as (final & Hfuel & Hfree).
  assert (final <> "") as Hne.
  { intros ->. unfold path_exists, os_path_join in Hfree.
    rewrite last_snoc, removelast_last in Hfree. congruence. }
  exists final. repeat split; [by apply Hfuel; lia|done|].
  intros Hrefused. rewrite store_upload_run, Hfuel by lia.
  unfold save. rewrite Hrefused. by rewrite write_file_free.
Qed.

Lemma transcode_step_skipped env to_hls file_path v :
  to_hls = false \/ which_ffmpeg env = None ->
  transcode_step env to_hls file_path v = ret v.
Proof.
  unfold transcode_step, ffmpeg_exists. intros [-> | Hwhich]; [done|].
  rewrite bool_decide_eq_false_2 by (by intros ?).
  by rewrite andb_false_r.
Qed.

Lemma transcode_to_hls_keeps env input_path target_dir w w' r :
  transcode_to_hls env input_path target_dir w = Some (w', r) ->
  videos w' = videos w /\ flashes w' = flashes w.
Proof.
  rewrite transcode_to_hls_run. cbv zeta.
  repeat case_match; by intros [= <- <-].
Qed.

(** A transcoding step leaves the table alone, raises nothing, and
    returns the record as it was or with a manifest path. *)
Lemma transcode_step_result env to_hls file_path v w w' r :
  transcode_step env to_hls file_path v w = Some (w', r) ->
  videos w' = videos w
  /\ (r = inr v \/ exists rel, r = inr (set_hls_manifest (Some rel) v)).
Proof.
  unfold transcode_step. destruct (to_hls && ffmpeg_exists env).
  - unfold try_except, bind.
    destruct (transcode_to_hls _ _ _ w) as [[w1 [e|rel]]|] eqn:Hrun; [| |done].
    + apply transcode_to_hls_keeps in Hrun as [Hvideos _].
      intros [= <- <-]. split; [done|by left].
    + apply transcode_to_hls_keeps in Hrun as [Hvideos _].
      intros [= <- <-]. split; [done|right; by eexists].
  - intros [= <- <-]. split; [done|by left].
Qed.


Lemma upload_accepted_run env req f w w1 w2 base final file_path v1 :
  store_upload env f w = Some (w1, inr (base, final, file_path)) ->
  transcode_step env (form_to_hls req) file_path
    (new_video env (form_title req) (form_description req) (form_category req)
       (form_creator env req) base final) w1 = Some (w2, inr v1) ->
  commit_fails env = false ->
  upload_accepted env req f w =
    Some (add_video (set_id (Some (next_id (videos w2))) v1) w2,
          inr (RedirectWatch (Some (next_id (videos w2))))).
Proof.
  intros Hstore Hstep Hcommit. unfold upload_accepted, bind at 1. rewrite Hstore.
  unfold bind at 1. rewrite Hstep. unfold bind, db_add_commit. by rewrite Hcommit.
Qed.

(** What the record of an upload that reached the watch page holds. *)
Lemma upload_post_created env req w w' i :
  upload_post env req w = Some (w', inr (RedirectWatch i)) ->
  exists f v base final,
    file req = Some f
    /\ allowed_file (client_filename f) = inr true
    /\ base = fst (splitext (secure_filename (client_filename f)))
    /\ final_name (S (size (fs w))) (fs w) (client_filename f) = Some final
    /\ videos w' = videos w ++ [v]
    /\ id v = i
    /\ title v = form_title req
    /\ category v =
         (if dict_has CATEGORIES_MAP (form_category req) then form_category req
          else "tendance")
    /\ filename v = Some final
    /\ thumb_url v = Some (thumb_for base).
Proof.
  intros (f & Hf & Hname & Hok & Hrun)%upload_post_watch.
  exists f. revert Hrun. unfold upload_accepted, bind at 1.
  rewrite store_upload_run.
  destruct (final_name _ _ _) as [final|] eqn:Hfinal; [|done].
  destruct (save _ _ _ _) as [e|fs1]; [done|].
  unfold bind at 1.
  match goal with |- context [transcode_step ?e ?t ?p ?v ?w1] =>
    destruct (transcode_step e t p v w1) as [[w2 r]|] eqn:Hstep; [|done] end.
  apply transcode_step_result in Hstep as [Hvideos Hr].
  unfold bind, db_add_commit.
  destruct Hr as [->|(rel & ->)]; destruct (commit_fails env); try done;
    intros [= <- <-]; eexists _, _, final; simpl; rewrite Hvideos; done.
Qed.

End Upload.

Section UploadOutcomes.
Context `{Host}.

(** The call of [transcode_to_hls] raises what [subprocess.run] raised
    for the return code. *)
Lemma transcode_to_hls_raises env input_path target_dir w fs1 returncode stderr after :
  makedirs (fs w) target_dir = inr fs1 ->
  encoder env (ffmpeg_cmd input_path target_dir) fs1 = Ran returncode stderr after ->
  returncode <> 0%Z ->
  exists w',
    transcode_to_hls env input_path target_dir w
    = Some (w', inl (CalledProcessError returncode stderr)).
Proof.
  intros Hmk Hrun Hrc%Z.eqb_neq. rewrite transcode_to_hls_run. cbv zeta.
  rewrite Hmk, Hrun, Hrc. by eexists.
Qed.


(** C6. When the encoder is not installed, an accepted upload whose
    file was saved succeeds without a streaming rendition, whether or not
    transcoding was requested: no command is run, no message is flashed,
    the file system gains the stored file and nothing else, and the new
    row has its stored filename set and its manifest path unset. *)
Theorem upload_without_encoder
    (env : Env) (req : Request) (f : FileStorage) (w w1 : World)
    (base final : string) (file_path : path) :
  file req = Some f ->
  client_filename f <> "" ->
  allowed_file (client_filename f) = inr true ->
  store_upload env f w = Some (w1, inr (base, final, file_path)) ->
  which_ffmpeg env = None ->
  commit_fails env = false ->
  exists w' v,
    upload_post env req w = Some (w', inr (RedirectWatch (id v)))
    /\ id v = Some (next_id (videos w))
    /\ videos w' = videos w ++ [v]
    /\ filename v = Some final /\ final <> ""
    /\ hls_manifest v = None
    /\ runs w' = runs w
    /\ flashes w' = flashes w
    /\ fs w' = <[UPLOAD_DIR ++ [final] := File (payload f)]> (fs w).
Proof.
  intros Hf Hname Hok Hstore Hwhich Hcommit.
  rewrite (upload_post_accepted env req f w Hf Hname Hok).
  destruct (store_upload_inv _ _ _ _ _ _ _ Hstore) as (_ & Hne & _ & _ & -> & -> & ->).
  set (v0 := new_video env (form_title req) (form_description req) (form_category req)
               (form_creator env req)
               (fst (splitext (secure_filename (client_filename f)))) final).
  pose proof (transcode_step_skipped env (form_to_hls req) (UPLOAD_DIR ++ [final]) v0
                (or_intror Hwhich)) as Hstep.
  apply (f_equal (fun m => m (set_fs (<[UPLOAD_DIR ++ [final] := File (payload f)]> (fs w)) w)))
    in Hstep.
  unfold try_except.
  rewrite (upload_accepted_run env req f w _ _ _ final _ v0 Hstore Hstep Hcommit).
  by eexists (add_video _ _), (set_id _ v0).
Qed.

(** C7, as the code has it. In the row of an upload that reached the
    watch page: a title that is absent or empty is replaced by the
    default title Sans titre; a title with a character that is not white
    space is stored without its leading and trailing white space, so
    unchanged when it has none; a category among tendance, jeux,
    musique, film and sport is stored unchanged; any other category, and
    an absent one, is replaced by tendance. *)
Theorem created_title_and_category
    (env : Env) (req : Request) (w w' : World) (i : option N) :
  upload_post env req w = Some (w', inr (RedirectWatch i)) ->
  exists v,
    videos w' = videos w ++ [v]
    /\ (unset (form req !! "title") -> title v = "Sans titre")
    /\ (forall t, form req !! "title" = Some t -> Py.all Py.is_space t = false ->
          title v = Py.strip Py.is_space t /\ title v <> "")
    /\ (forall t, form req !! "title" = Some t -> t <> "" ->
          Py.strip Py.is_space t = t -> title v = t)
    /\ (forall c, form req !! "category" = Some c ->
          c ∈ ["tendance"; "jeux"; "musique"; "film"; "sport"] -> category v = c)
    /\ ((forall c, form req !! "category" = Some c ->
           c ∉ ["tendance"; "jeux"; "musique"; "film"; "sport"]) ->
        category v = "tendance").
Proof.
  intros (f & v & base & final & _ & _ & _ & _ & Hvideos & _ & Htitle & Hcat & _)
    %upload_post_created.
  exists v. split; [done|]. rewrite Htitle, Hcat. unfold form_title, form_category.
  split; [|split; [|split; [|split]]].
  - by intros [-> | ->].
  - intros t -> Hspace. destruct t as [|a t]; [done|]. simpl. split; [done|].
    intros Hblank%strip_blank. congruence.
  - intros t -> Hne Hstrip. destruct t as [|a t]; [done|]. by simpl.
  - intros c -> Hc. apply dict_has_categories in Hc as Hd.
    destruct c as [|a c]; [by vm_compute in Hd|]. simpl. by rewrite Hd.
  - intros Hc. destruct (form req !! "category") as [[|a c]|]; try done. simpl.
    specialize (Hc (String a c) eq_refl).
    destruct (dict_has CATEGORIES_MAP (String a c)) eqn:Hd; [|done].
    by apply dict_has_categories in Hd.
Qed.

(** C8, as the code has it. In the row of an upload that reached the
    watch page, the thumbnail URL is the placeholder-image URL built
    from the base name, extension stripped, of the sanitised client
    name, as it is before the loop adds any suffix; it is the one built
    from the base of the stored filename when the stored filename is the
    sanitised name, that is when no suffix was added. *)
Theorem thumbnail_from_sanitised_base
    (env : Env) (req : Request) (w w' : World) (i : option N) :
  upload_post env req w = Some (w', inr (RedirectWatch i)) ->
  exists f v final,
    file req = Some f
    /\ videos w' = videos w ++ [v]
    /\ filename v = Some final
    /\ thumb_url v =
         Some ("https://picsum.photos/seed/mitabo-"
               +:+ fst (splitext (secure_filename (client_filename f)))
               +:+ "/640/360")
    /\ (final = secure_filename (client_filename f) ->
        thumb_url v = Some (thumb_for (fst (splitext final)))).
Proof.
  intros (f & v & base & final & Hf & _ & -> & _ & Hvideos & _ & _ & _ & Hname & Hthumb)
    %upload_post_created.
  exists f, v, final. repeat split; try done. by intros ->.
Qed.

End UploadOutcomes.

(** ** The handler always answers *)

Section Totality.
Context `{Host}.

Lemma transcode_to_hls_returns env input_path target_dir w :
  exists w' r, transcode_to_hls env input_path target_dir w = Some (w', r).
Proof.
  rewrite transcode_to_hls_run. cbv zeta. repeat case_match; eauto.
Qed.

Lemma transcode_step_returns env to_hls file_path v w :
  exists w' v', transcode_step env to_hls file_path v w = Some (w', inr v').
Proof.
  unfold transcode_step. destruct (to_hls && ffmpeg_exists env); [|by eexists _, _].
  unfold try_except, bind.
  destruct (transcode_to_hls_returns env file_path
              (os_path_join HLS_DIR ("video_" +:+ pretty (utc_timestamp env))) w)
    as (w1 & [e|rel] & ->); by eexists _, _.
Qed.

Lemma upload_accepted_returns env req f w :
  exists w' r, upload_accepted env req f w = Some (w', r).
Proof.
  unfold upload_accepted, bind at 1. rewrite store_upload_run.
  destruct (final_name_ends (fs w) (client_filename f)) as (final & Hfinal & _).
  rewrite Hfinal by lia.
  destruct (save _ _ _ _) as [e|fs1]; [by eexists _, _|].
  unfold bind at 1.
  match goal with |- context [transcode_step ?e ?t ?p ?v ?w1] =>
    destruct (transcode_step_returns e t p v w1) as (w2 & v' & ->) end.
  unfold bind, db_add_commit. destruct (commit_fails env); by eexists _, _.
Qed.

(** X1. Every request gets a response: the loop ends and the handler of the
    outer [try] lets no exception through. *)
Lemma upload_post_returns env req w :
  exists w' r, upload_post env req w = Some (w', inr r).
Proof.
  unfold upload_post, try_except.
  destruct (file req) as [f|]; [|by eexists _, _].
  destruct (Py.nonempty (client_filename f)); [|by eexists _, _]. simpl.
  unfold bind at 1.
  destruct (allowed_file_total (client_filename f)) as [[] ->]; simpl;
    [|by eexists _, _].
  destruct (upload_accepted_returns env req f w) as (w1 & [e|r] & ->);
    by eexists _, _.
Qed.

End Totality.

(** ** Runs on the sample installation *)

(** The resolver on a record that has a manifest path and a stored
    filename. *)
Lemma source_url_priority_witness :
  @source_url posix_host
    {| id := Some 1%N; title := "t"; description := ""; category := "film";
       filename := Some "a.mp4"; external_url := Some "https://example.org/a.mp4";
       thumb_url := None; duration := ""; creator := "Demo"; user_id := None;
       hls_manifest := Some "video_1/master.m3u8" |}
  = "/hls/video_1/master.m3u8".
Proof.
  apply (proj1 (@source_url_priority posix_host _) "video_1/master.m3u8");
    [reflexivity|discriminate].
Defined.

(** The validator on a name with an extension in mixed case. *)
Lemma allowed_file_extension_gate_witness : allowed_file "holiday.tar.WebM" = inr true.
Proof.
  apply (proj2 (proj1 allowed_file_extension_gate "holiday.tar.WebM")).
  exists "WebM". split.
  - exists "holiday.tar". split; reflexivity.
  - vm_compute. apply list_elem_of_further, list_elem_of_here.
Defined.

(** The loop in an upload root that holds a.mp4 and a-1.mp4. *)
Lemma storage_namer_terminates_on_free_name_witness :
  exists final,
    @final_name posix_host 9 sample_taken_twice "a.mp4" = Some final
    /\ path_exists sample_taken_twice (sample_uploads ++ [final]) = false.
Proof.
  destruct (@storage_namer_terminates_on_free_name posix_host sample_taken_twice "a.mp4")
    as (final & Hfuel & Hfree & _).
  exists final. split; [|exact Hfree].
  apply Hfuel. vm_compute. lia.
Defined.

(** The three reservations of a.mp4 in turn. *)
Lemma reserve_a_mp4_three_times_witness :
  @final_name posix_host 4 sample_root "a.mp4" = Some "a.mp4"
  /\ @final_name posix_host 5 sample_taken "a.mp4" = Some "a-1.mp4"
  /\ @final_name posix_host 6 sample_taken_twice "a.mp4" = Some "a-2.mp4".
Proof.
  split; [|split].
  - apply (@reserve_a_mp4_three_times posix_host sample_root 4 eq_refl);
      [apply not_elem_of_empty|vm_compute; lia|vm_compute; reflexivity].
  - apply (@reserve_a_mp4_three_times posix_host sample_taken 5 eq_refl);
      [apply not_elem_of_empty|vm_compute; lia|vm_compute; reflexivity..].
  - apply (@reserve_a_mp4_three_times posix_host sample_taken_twice 6 eq_refl);
      [apply not_elem_of_empty|vm_compute; lia|vm_compute; reflexivity..].
Defined.


(** A transcoding in which the encoder leaves the two rendition
    playlists and no master playlist. *)
Lemma master_manifest_synthesis_witness :
  exists w',
    @transcode_to_hls posix_host (sample_env (Some "/usr/bin/ffmpeg") renditions_only_encoder)
      (sample_uploads ++ ["a.mp4"]) (sample_uploads ++ ["hls"; "video_1700000000"])
      (sample_world sample_root)
    = Some (w', inr "video_1700000000/master.m3u8")
    /\ fs w' !! (sample_uploads ++ ["hls"; "video_1700000000"; "master.m3u8"])
       = Some (File master_manifest).
Proof.
  edestruct (@master_manifest_synthesis posix_host
               (sample_env (Some "/usr/bin/ffmpeg") renditions_only_encoder)
               (sample_uploads ++ ["a.mp4"]) (sample_uploads ++ ["hls"; "video_1700000000"])
               (sample_world sample_root))
    as (w' & rel & Hrun & Hfs & _ & _ & _ & _ & Hsub).
  - reflexivity.
  - reflexivity.
  - vm_compute. reflexivity.
  - vm_compute. reflexivity.
  - exists w'. rewrite (Hsub "video_1700000000") in Hrun; [|reflexivity|discriminate].
    split; [exact Hrun|]. rewrite Hfs. apply lookup_insert_eq.
Defined.

(** An upload with transcoding requested and no encoder installed. *)
Lemma upload_without_encoder_witness :
  exists w' v,
    @upload_post posix_host (sample_env None failing_encoder)
      (sample_request "clip.MP4" {[ "to_hls" := "on" ]}) (sample_world sample_root)
    = Some (w', inr (RedirectWatch (id v)))
    /\ id v = Some 1%N
    /\ videos w' = [v]
    /\ filename v = Some "clip.MP4" /\ "clip.MP4" <> ""
    /\ hls_manifest v = None
    /\ runs w' = []
    /\ flashes w' = []
    /\ fs w' = <[@UPLOAD_DIR posix_host ++ ["clip.MP4"] := File "DATA"]> sample_root.
Proof.
  pose (env := sample_env None failing_encoder).
  pose (f := {| client_filename := "clip.MP4"; payload := "DATA" |}).
  apply (@upload_without_encoder posix_host env
           (sample_request "clip.MP4" {[ "to_hls" := "on" ]}) f
           (sample_world sample_root)
           (world_after (sample_world sample_root)
              (@store_upload posix_host env f (sample_world sample_root)))
           "clip" "clip.MP4" (sample_uploads ++ ["clip.MP4"])).
  - reflexivity.
  - discriminate.
  - vm_compute. reflexivity.
  - vm_compute. reflexivity.
  - reflexivity.
  - reflexivity.
Defined.

(** An upload with a padded title and a known category, and the row it
    creates. *)
Lemma created_title_and_category_witness :
  exists v,
    rows_after
      (@upload_post posix_host (sample_env None failing_encoder)
         (sample_request "clip.mp4" {[ "title" := "  Holiday "; "category" := "film" ]})
         (sample_world sample_root)) = [v]
    /\ title v = "Holiday"
    /\ category v = "film".
Proof.
  pose (env := sample_env None failing_encoder).
  pose (req := sample_request "clip.mp4" {[ "title" := "  Holiday "; "category" := "film" ]}).
  pose (w := sample_world sample_root).
  assert (@upload_post posix_host env req w
          = Some (world_after w (@upload_post posix_host env req w),
                  inr (RedirectWatch (Some 1%N)))) as Hrun
    by (vm_compute; reflexivity).
  destruct (@created_title_and_category posix_host env req w _ _ Hrun)
    as (v & Hvideos & _ & Htitle & _ & Hcat & _).
  exists v. split; [|split].
  - change (rows_after (@upload_post posix_host env req w) = [v]).
    rewrite Hrun. exact Hvideos.
  - apply (Htitle "  Holiday "); reflexivity.
  - apply (Hcat "film"); [reflexivity|]. vm_compute.
    do 3 apply list_elem_of_further. apply list_elem_of_here.
Defined.

(** The row of the upload of a.mp4 into an upload root that holds a.mp4. *)
Lemma thumbnail_from_sanitised_base_witness :
  exists v,
    rows_after sample_collision_run = [v]
    /\ filename v = Some "a-1.mp4"
    /\ thumb_url v = Some "https://picsum.photos/seed/mitabo-a/640/360".
Proof.
  pose (env := sample_env None failing_encoder).
  pose (req := sample_request "a.mp4" ∅).
  pose (w := sample_world sample_taken).
  assert (@upload_post posix_host env req w
          = Some (world_after w (@upload_post posix_host env req w),
                  inr (RedirectWatch (Some 1%N)))) as Hrun
    by (vm_compute; reflexivity).
  destruct (@thumbnail_from_sanitised_base posix_host env req w _ _ Hrun)
    as (f & v & final & Hf & Hvideos & Hname & Hthumb & _).
  injection Hf as <-. exists v. split; [|split].
  - change (rows_after (@upload_post posix_host env req w) = [v]).
    rewrite Hrun. exact Hvideos.
  - assert (filename <$> rows_after (@upload_post posix_host env req w)
            = [Some "a-1.mp4"]) as Hrows by (vm_compute; reflexivity).
    rewrite Hrun in Hrows. simpl in Hrows. rewrite Hvideos in Hrows.
    by injection Hrows.
  - exact Hthumb.
Defined.

(** The storing of a client name that climbs out of the upload root. *)
Lemma stored_name_stays_in_upload_root_witness :
  exists w' base,
    @store_upload posix_host (sample_env None failing_encoder)
      {| client_filename := "../../etc/passwd.mp4"; payload := "DATA" |}
      (sample_world sample_root)
    = Some (w', inr (base, "etc_passwd.mp4", sample_uploads ++ ["etc_passwd.mp4"]))
    /\ Py.contains "/" "etc_passwd.mp4" = false
    /\ fs w' = <[sample_uploads ++ ["etc_passwd.mp4"] := File "DATA"]> sample_root.
Proof.
  pose (f := {| client_filename := "../../etc/passwd.mp4"; payload := "DATA" |}).
  pose (w := sample_world sample_root).
  pose (env := sample_env None failing_encoder).
  assert (@store_upload posix_host env f w
          = Some (world_after w (@store_upload posix_host env f w),
                  inr ("etc_passwd", "etc_passwd.mp4", sample_uploads ++ ["etc_passwd.mp4"])))
    as Hrun by (vm_compute; reflexivity).
  destruct (@stored_name_stays_in_upload_root posix_host env f w _ _ _ _ Hrun)
    as (_ & Hslash & _ & _ & _ & _ & _ & _ & Hworld).
  exists (world_after w (@store_upload posix_host env f w)), "etc_passwd".
  split; [exact Hrun|]. split; [exact Hslash|]. by rewrite Hworld.
Defined.

(** ** Where the code departs from the specification *)

(** An empty title is stored as Sans titre, not as Untitled. *)
Lemma empty_title_is_not_stored_as_Untitled :
  (snd <$> sample_empty_title_run) = Some (inr (RedirectWatch (Some 1%N)))
  /\ title <$> rows_after sample_empty_title_run = ["Sans titre"]
  /\ title <$> rows_after sample_empty_title_run <> ["Untitled"].
Proof. split; [|split]; by vm_compute. Qed.

(** A title of white space is stored as the empty string. *)
Lemma blank_title_is_stored_empty :
  title <$> rows_after sample_blank_title_run = [""].
Proof. by vm_compute. Qed.

(** After a collision the thumbnail URL is built from a, when the base of
    the stored filename is a-1. *)
Lemma thumbnail_ignores_the_suffix :
  (snd <$> sample_collision_run) = Some (inr (RedirectWatch (Some 1%N)))
  /\ filename <$> rows_after sample_collision_run = [Some "a-1.mp4"]
  /\ thumb_url <$> rows_after sample_collision_run
     = [Some "https://picsum.photos/seed/mitabo-a/640/360"]
  /\ thumb_url <$> rows_after sample_collision_run
     <> [Some (thumb_for (fst (@splitext posix_host "a-1.mp4")))].
Proof. repeat split; by vm_compute. Qed.

(** * Further properties of the pipeline *)

Section Rejections.
Context `{Host}.

Lemma upload_post_no_file (env : Env) (req : Request) (w : World) :
  file req = None ->
  upload_post env req w = Some (add_flash NoFileReceived w, inr RedirectUploadForm).
Proof. unfold upload_post, try_except. by intros ->. Qed.

Lemma upload_post_empty_name (env : Env) (req : Request) (w : World) f :
  file req = Some f -> client_filename f = "" ->
  upload_post env req w = Some (add_flash NoFileReceived w, inr RedirectUploadForm).
Proof. unfold upload_post, try_except. intros -> Hname. by rewrite Hname. Qed.

Lemma upload_post_refused_name (env : Env) (req : Request) (w : World) f :
  file req = Some f -> client_filename f <> "" ->
  allowed_file (client_filename f) = inr false ->
  upload_post env req w = Some (add_flash UnsupportedExtension w, inr RedirectUploadForm).
Proof.
  unfold upload_post, try_except. intros -> Hname Hbad.
  assert (Py.nonempty (client_filename f) = true) as ->
    by (by destruct (client_filename f)).
  simpl. unfold bind at 1. by rewrite Hbad.
Qed.

(** X2. A request without a file, with an empty filename or with a filename
    the validator refuses gets the redirection to the upload form and one
    flashed message; the file system, the table and the list of commands
    run stay as they are. *)
Theorem upload_post_rejects (env : Env) (req : Request) (w : World) :
  (file req = None ->
     upload_post env req w = Some (add_flash NoFileReceived w, inr RedirectUploadForm))
  /\ (forall f, file req = Some f -> client_filename f = "" ->
        upload_post env req w = Some (add_flash NoFileReceived w, inr RedirectUploadForm))
  /\ (forall f, file req = Some f -> client_filename f <> "" ->
        allowed_file (client_filename f) = inr false ->
        upload_post env req w
        = Some (add_flash UnsupportedExtension w, inr RedirectUploadForm)).
Proof.
  split; [|split].
  - apply upload_post_no_file.
  - apply upload_post_empty_name.
  - apply upload_post_refused_name.
Qed.

(** X3. Whatever [upload_post] changes in the file system, in the table or
    in the list of commands, it changes for a request whose file has a
    name that the validator accepts. *)
Theorem upload_post_touches_only_accepted (env : Env) (req : Request) (w w' : World) r :
  upload_post env req w = Some (w', r) ->
  (fs w', videos w', runs w') <> (fs w, videos w, runs w) ->
  exists f, file req = Some f /\ client_filename f <> ""
            /\ allowed_file (client_filename f) = inr true.
Proof.
  intros Hrun Hdiff.
  destruct (file req) as [f|] eqn:Hf.
  - destruct (decide (client_filename f = "")) as [Hname|Hname].
    + rewrite (upload_post_empty_name env req w f Hf Hname) in Hrun.
      by injection Hrun as <- <-.
    + destruct (allowed_file_total (client_filename f)) as [[] Hok]; [by exists f|].
      rewrite (upload_post_refused_name env req w f Hf Hname Hok) in Hrun.
      by injection Hrun as <- <-.
  - rewrite (upload_post_no_file env req w Hf) in Hrun. by injection Hrun as <- <-.
Qed.

End Rejections.

Section Failures.
Context `{Host}.

Lemma final_name_ends_free fuel fs client_name final :
  final_name fuel fs client_name = Some final ->
  path_exists fs (os_path_join UPLOAD_DIR final) = false.
Proof.
  unfold final_name. destruct (splitext (secure_filename client_name)) as [base ext].
  apply reserve_loop_free.
Qed.

(** X4. When the upload root is not a directory, saving an accepted upload
    raises: the handler flashes the upload error and sends the user back
    to the form, and neither a file nor a row is stored. *)
Theorem upload_post_storage_failure
    (env : Env) (req : Request) (f : FileStorage) (w : World) :
  file req = Some f ->
  client_filename f <> "" ->
  allowed_file (client_filename f) = inr true ->
  is_dir (fs w) UPLOAD_DIR = false ->
  upload_post env req w
  = Some (add_flash (UploadError OSError) w, inr RedirectUploadForm).
Proof.
  intros Hf Hname Hok Hdir.
  rewrite (upload_post_accepted env req f w Hf Hname Hok).
  unfold try_except, upload_accepted, bind at 1. rewrite store_upload_run.
  destruct (final_name_ends (fs w) (client_filename f)) as (final & Hfinal & _).
  rewrite Hfinal by lia.
  assert (save env f (fs w) (UPLOAD_DIR ++ [final]) = inl OSError) as ->; [|done].
  unfold save. destruct (save_refused env _); [done|].
  unfold write_file. rewrite last_snoc, removelast_last, Hdir.
  by destruct final.
Qed.


(** X5. When the file of an accepted upload was saved, no encoder is
    installed and the commit raises, the handler flashes the upload error
    and sends the user back to the form; no row is stored, and the file
    saved before, at a path that held nothing, stays in the upload
    root. *)
Theorem upload_post_commit_failure
    (env : Env) (req : Request) (f : FileStorage) (w w1 : World)
    (base final : string) (file_path : path) :
  file req = Some f ->
  client_filename f <> "" ->
  allowed_file (client_filename f) = inr true ->
  store_upload env f w = Some (w1, inr (base, final, file_path)) ->
  which_ffmpeg env = None ->
  commit_fails env = true ->
  upload_post env req w
  = Some (add_flash (UploadError DatabaseError) w1, inr RedirectUploadForm)
  /\ file_path = UPLOAD_DIR ++ [final]
  /\ fs w !! file_path = None
  /\ fs w1 = <[file_path := File (payload f)]> (fs w)
  /\ videos w1 = videos w /\ runs w1 = runs w.
Proof.
  intros Hf Hname Hok Hstore Hwhich Hcommit.
  rewrite (upload_post_accepted env req f w Hf Hname Hok).
  destruct (store_upload_inv _ _ _ _ _ _ _ Hstore)
    as (Hfinal & Hne & _ & _ & Hbase & Hpath & Hw1).
  split; [|split; [done|split; [|by subst]]].
  - unfold try_except, upload_accepted, bind at 1. rewrite Hstore.
    unfold bind at 1.
    rewrite (transcode_step_skipped env (form_to_hls req) _ _ (or_intror Hwhich)).
    unfold ret at 1. unfold bind, db_add_commit. by rewrite Hcommit.
  - subst file_path. apply final_name_ends_free in Hfinal.
    rewrite path_exists_entry in Hfinal by done.
    apply bool_decide_eq_false in Hfinal. by apply eq_None_not_Some.
Qed.

End Failures.

Section FirstFreeName.
Context `{Host}.

Lemma reserve_loop_first_free fuel fs base ext counter final r :
  reserve_loop fuel fs base ext counter final = Some r ->
  (path_exists fs (os_path_join UPLOAD_DIR final) = false /\ r = final)
  \/ (path_exists fs (os_path_join UPLOAD_DIR final) = true
      /\ exists k, (counter <= k)%N /\ r = suffixed base k ext
           /\ forall j, (counter <= j < k)%N ->
                path_exists fs (os_path_join UPLOAD_DIR (suffixed base j ext)) = true).
Proof.
  revert counter final. induction fuel as [|fuel IH]; intros counter final; simpl;
    destruct (path_exists fs (os_path_join UPLOAD_DIR final)) eqn:Hex; try done.
  - intros [= <-]. by left.
  - intros Hr. right. split; [done|].
    destruct (IH _ _ Hr) as [[Hfree ->]|(Htaken & k & Hk & -> & Hbelow)].
    + exists counter. split; [lia|]. split; [done|]. intros j Hj. lia.
    + exists k. split; [lia|]. split; [done|]. intros j Hj.
      destruct (decide (j = counter)) as [->|Hne]; [done|]. apply Hbelow. lia.
  - intros [= <-]. by left.
Qed.

(** X6. The storage namer returns the first free name of its sequence: the
    sanitised name itself when the upload root does not hold it, and
    otherwise the name with the least suffix number, from 1 on, that the
    upload root does not hold. *)
Theorem storage_namer_first_free (fuel : nat) (fs : FS) (client_name final : string) :
  final_name fuel fs client_name = Some final ->
  let sanitised := secure_filename client_name in
  (path_exists fs (os_path_join UPLOAD_DIR sanitised) = false /\ final = sanitised)
  \/ (path_exists fs (os_path_join UPLOAD_DIR sanitised) = true
      /\ exists k, (1 <= k)%N
           /\ final = suffixed (splitext sanitised).1 k (splitext sanitised).2
           /\ path_exists fs (os_path_join UPLOAD_DIR final) = false
           /\ forall j, (1 <= j < k)%N ->
                path_exists fs
                  (os_path_join UPLOAD_DIR
                     (suffixed (splitext sanitised).1 j (splitext sanitised).2)) = true).
Proof.
  intros Hfinal. cbv zeta. pose proof (final_name_ends_free _ _ _ _ Hfinal) as Hfree.
  revert Hfinal. unfold final_name.
  destruct (splitext (secure_filename client_name)) as [base ext]. simpl.
  intros [[? ->]|(Htaken & k & Hk & -> & Hbelow)]%reserve_loop_first_free; [by left|].
  right. split; [done|]. by exists k.
Qed.

(** X7. Saving an upload never replaces an entry of the file system: the path
    written was free, and every other path holds what it held. *)
Theorem store_upload_overwrites_nothing
    (env : Env) (f : FileStorage) (w w' : World) (base final : string) (file_path : path) :
  store_upload env f w = Some (w', inr (base, final, file_path)) ->
  fs w !! file_path = None
  /\ fs w' !! file_path = Some (File (payload f))
  /\ (forall q, q <> file_path -> fs w' !! q = fs w !! q)
  /\ videos w' = videos w /\ flashes w' = flashes w /\ runs w' = runs w.
Proof.
  rewrite store_upload_run.
  destruct (final_name _ _ _) as [final'|] eqn:Hfinal; [|done].
  destruct (save _ _ _ _) as [e|fs1] eqn:Hsave; [done|].
  apply save_ok in Hsave as [_ Hwrite].
  intros [= <- <- <- <-].
  destruct (write_file_ok _ _ _ _ Hwrite) as [Hlast ->].
  rewrite last_snoc in Hlast.
  assert (final' <> "") as Hne by congruence.
  apply final_name_ends_free in Hfinal. rewrite path_exists_entry in Hfinal by done.
  apply bool_decide_eq_false in Hfinal. simpl.
  split; [by apply eq_None_not_Some|]. split; [by rewrite lookup_insert_eq|].
  split; [|done]. intros q Hq. by rewrite lookup_insert_ne.
Qed.

End FirstFreeName.

Section TranscodeOutcomes.
Context `{Host}.

(** X8. A master manifest that the encoder wrote is left as it is: after a
    run with return code 0 that leaves one, [transcode_to_hls] writes
    nothing and returns the relative path. *)
Theorem transcode_keeps_encoder_manifest
    (env : Env) (input_path target_dir : path) (w : World) (fs1 after : FS)
    (stderr : string) :
  makedirs (fs w) target_dir = inr fs1 ->
  encoder env (ffmpeg_cmd input_path target_dir) fs1 = Ran 0 stderr after ->
  path_exists after (target_dir ++ ["master.m3u8"]) = true ->
  exists w',
    transcode_to_hls env input_path target_dir w
    = Some (w', inr (Py.replace "\" "/" (relpath (target_dir ++ ["master.m3u8"]) HLS_DIR)))
    /\ fs w' = after
    /\ runs w' = runs w ++ [ffmpeg_cmd input_path target_dir].
Proof.
  intros Hmk Hrun Hmaster. rewrite transcode_to_hls_run. cbv zeta.
  rewrite Hmk, Hrun. simpl. rewrite Hmaster. by eexists.
Qed.

(** X9. A run that ends with a return code other than 0 makes
    [transcode_to_hls] raise [CalledProcessError] with that code and the
    standard error of the process; the command was run once, what the
    process wrote stays, and no master manifest is written in its place. *)
Theorem transcode_raises_on_nonzero
    (env : Env) (input_path target_dir : path) (w : World) (fs1 after : FS)
    (returncode : Z) (stderr : string) :
  makedirs (fs w) target_dir = inr fs1 ->
  encoder env (ffmpeg_cmd input_path target_dir) fs1 = Ran returncode stderr after ->
  returncode <> 0%Z ->
  exists w',
    transcode_to_hls env input_path target_dir w
    = Some (w', inl (CalledProcessError returncode stderr))
    /\ fs w' = after
    /\ runs w' = runs w ++ [ffmpeg_cmd input_path target_dir]
    /\ videos w' = videos w /\ flashes w' = flashes w.
Proof.
  intros Hmk Hrun Hrc%Z.eqb_neq. rewrite transcode_to_hls_run. cbv zeta.
  rewrite Hmk, Hrun, Hrc. by eexists.
Qed.

(** When the output directory cannot be made, [transcode_to_hls] raises
    before any command is run. *)
Theorem transcode_without_directory
    (env : Env) (input_path target_dir : path) (w : World) (e : exn) :
  makedirs (fs w) target_dir = inl e ->
  transcode_to_hls env input_path target_dir w = Some (w, inl e).
Proof.
  intros Hmk. rewrite transcode_to_hls_run. cbv zeta. by rewrite Hmk.
Qed.

End TranscodeOutcomes.

(** ** [os.makedirs] *)

Lemma makedirs_from_made (todo : list string) :
  forall (done : path) (fs : FS),
    (forall k c, (0 < k <= length todo)%nat ->
       fs !! (done ++ take k todo) <> Some (File c)) ->
    exists fs',
      makedirs_from done todo fs = inr fs'
      /\ (forall k, (0 < k <= length todo)%nat -> fs' !! (done ++ take k todo) = Some Dir)
      /\ (forall q, (forall k, (0 < k <= length todo)%nat -> q <> done ++ take k todo) ->
            fs' !! q = fs !! q).
Proof.
  induction todo as [|c todo IH]; intros done fs Hclear.
  - exists fs. split; [done|]. split; [|done]. simpl. intros k Hk. lia.
  - assert (forall k, (0 < k)%nat -> (k <= length todo)%nat ->
              (done ++ [c]) ++ take k todo <> done ++ [c]) as Hlonger.
    { intros k Hk Hle Heq. apply (f_equal length) in Heq.
      rewrite !length_app, length_take in Heq. simpl in Heq. lia. }
    destruct (IH (done ++ [c]) (<[done ++ [c] := Dir]> fs)) as (fs' & Hrun & Hmade & Hkept).
    { intros k content Hk. rewrite lookup_insert_ne by (apply not_eq_sym, Hlonger; lia).
      rewrite <- app_assoc. apply (Hclear (S k) content). simpl. lia. }
    exists fs'. split; [|split].
    + simpl. specialize (Hclear 1%nat). simpl in Hclear.
      destruct (fs !! (done ++ [c])) as [[content|]|] eqn:Hp; [|done..].
      exfalso. apply (Hclear content); [lia|done].
    + intros [|[|k]] Hk; [lia| |].
      * simpl. rewrite Hkept; [apply lookup_insert_eq|].
        intros k Hk' Heq. symmetry in Heq. revert Heq. apply Hlonger; lia.
      * replace (done ++ take (S (S k)) (c :: todo))
          with ((done ++ [c]) ++ take (S k) todo) by (by rewrite <- app_assoc).
        apply Hmade. simpl in Hk. lia.
    + intros q Hq. rewrite Hkept.
      * apply lookup_insert_ne. intros Heq. apply (Hq 1%nat); [simpl; lia|].
        simpl. by rewrite take_0.
      * intros k Hk Heq. apply (Hq (S k)); [simpl; lia|].
        simpl. by rewrite <- app_assoc in Heq.
Qed.

Lemma makedirs_from_blocked (todo : list string) :
  forall (done : path) (fs : FS) k c,
    (0 < k <= length todo)%nat ->
    fs !! (done ++ take k todo) = Some (File c) ->
    makedirs_from done todo fs = inl OSError.
Proof.
  induction todo as [|x todo IH]; intros done fs k c Hk Hfile; simpl in *; [lia|].
  destruct k as [|k]; [lia|].
  destruct (decide (k = 0%nat)) as [->|Hpos].
  - simpl in Hfile. rewrite take_0 in Hfile. by rewrite Hfile.
  - destruct (fs !! (done ++ [x])) as [[content|]|] eqn:Hp; [done|..];
      apply (IH _ _ k c); try lia;
      (rewrite lookup_insert_ne;
         [by rewrite <- app_assoc
         |intros Heq; apply (f_equal length) in Heq;
          rewrite !length_app, length_take in Heq; simpl in Heq; lia]).
Qed.

(** [os.makedirs] with [exist_ok] raises exactly when a file stands where
    a directory of the path is wanted; otherwise it makes a directory of
    every prefix of the path and leaves every other entry as it was. *)
Theorem makedirs_makes_every_prefix (fs : FS) (p : path) :
  ((exists k c, (0 < k <= length p)%nat /\ fs !! take k p = Some (File c))
   -> makedirs fs p = inl OSError)
  /\ ((forall k c, (0 < k <= length p)%nat -> fs !! take k p <> Some (File c))
      -> exists fs',
           makedirs fs p = inr fs'
           /\ (forall k, (0 < k <= length p)%nat -> is_dir fs' (take k p) = true)
           /\ (forall q, (forall k, (0 < k <= length p)%nat -> q <> take k p) ->
                 fs' !! q = fs !! q)).
Proof.
  unfold makedirs. split.
  - intros (k & c & Hk & Hfile). by apply (makedirs_from_blocked p [] fs k c).
  - intros Hclear. destruct (makedirs_from_made p [] fs Hclear) as (fs' & Hrun & Hmade & Hkept).
    exists fs'. split; [done|]. split; [|done].
    intros k Hk. unfold is_dir. specialize (Hmade k Hk). simpl in Hmade. by rewrite Hmade.
Qed.

(** ** An upload that is transcoded *)



Lemma replace_nonempty old new s : s <> "" -> Py.replace old new s <> "".
Proof. by destruct s. Qed.

Section Transcoded.
Context `{Host}.

Lemma relpath_nonempty (p start : path) : relpath p start <> "".
Proof.
  unfold relpath.
  set (start_list := List.filter Py.nonempty start).
  set (path_list := List.filter Py.nonempty p).
  set (i := common_prefix_len start_list path_list).
  assert (Forall (fun c => c <> "") (replicate (length start_list - i) ".." ++ drop i path_list))
    as Hall.
  { apply Forall_app. split.
    - by apply Forall_replicate.
    - apply Forall_drop, List.Forall_forall. intros c [_ Hc]%List.filter_In.
      by destruct c. }
  destruct (replicate _ _ ++ drop i path_list) as [|x l]; [done|].
  apply Forall_cons in Hall as [Hx _]. unfold path_str, Py.join. simpl.
  destruct l; by destruct x.
Qed.

Lemma transcode_to_hls_value env input_path target_dir w w' rel :
  transcode_to_hls env input_path target_dir w = Some (w', inr rel) ->
  rel = Py.replace "\" "/" (relpath (target_dir ++ ["master.m3u8"]) HLS_DIR).
Proof.
  rewrite transcode_to_hls_run. cbv zeta.
  repeat case_match; intros; by simplify_eq.
Qed.




Lemma transcode_step_manifest env to_hls file_path v w w' r :
  transcode_step env to_hls file_path v w = Some (w', r) ->
  videos w' = videos w
  /\ (r = inr v \/ exists rel, rel <> "" /\ r = inr (set_hls_manifest (Some rel) v)).
Proof.
  unfold transcode_step. destruct (to_hls && ffmpeg_exists env).
  - unfold try_except, bind.
    destruct (transcode_to_hls _ _ _ w) as [[w1 [e|rel]]|] eqn:Hrun; [| |done].
    + apply transcode_to_hls_keeps in Hrun as [Hvideos _].
      intros [= <- <-]. split; [done|by left].
    + pose proof (transcode_to_hls_value _ _ _ _ _ _ Hrun) as ->.
      apply transcode_to_hls_keeps in Hrun as [Hvideos _].
      intros [= <- <-]. split; [done|right]. eexists. split; [|done].
      apply replace_nonempty, relpath_nonempty.
  - intros [= <- <-]. split; [done|by left].
Qed.

(** X11. Every row that [upload_post] creates can be played: its playback
    locator is the streaming URL of its manifest path when it has one,
    and the media URL of its stored filename otherwise; it is never the
    empty locator nor an external URL. *)
Theorem created_row_is_playable
    (env : Env) (req : Request) (w w' : World) (i : option N) :
  upload_post env req w = Some (w', inr (RedirectWatch i)) ->
  exists v final,
    videos w' = videos w ++ [v]
    /\ filename v = Some final /\ final <> ""
    /\ external_url v = None
    /\ ((hls_manifest v = None /\ source_url v = "/media/" +:+ url_quote final)
        \/ (exists rel, hls_manifest v = Some rel /\ rel <> ""
                        /\ source_url v = "/hls/" +:+ url_quote rel)).
Proof.
  intros (f & Hf & Hname & Hok & Hrun)%upload_post_watch.
  revert Hrun. unfold upload_accepted, bind at 1. rewrite store_upload_run.
  destruct (final_name _ _ _) as [final|] eqn:Hfinal; [|done].
  destruct (save _ _ _ _) as [e|fs1] eqn:Hsave; [done|].
  apply save_ok in Hsave as [_ Hwrite].
  destruct (write_file_ok _ _ _ _ Hwrite) as [Hlast _]. rewrite last_snoc in Hlast.
  assert (final <> "") as Hne by congruence.
  unfold bind at 1.
  match goal with |- context [transcode_step ?e ?t ?p ?v ?w1] =>
    destruct (transcode_step e t p v w1) as [[w2 r]|] eqn:Hstep; [|done] end.
  apply transcode_step_manifest in Hstep as [Hvideos Hr].
  unfold bind, db_add_commit.
  destruct Hr as [->|(rel & Hrel & ->)]; destruct (commit_fails env); try done;
    intros [= <- <-]; eexists _, final; simpl; rewrite Hvideos;
    (split; [done|]); (split; [done|]); (split; [done|]); (split; [done|]).
  - left. split; [done|]. apply (source_url_file _ final); [by left|done..].
  - right. exists rel. split; [done|]. split; [done|].
    by apply (source_url_manifest _ rel).
Qed.

End Transcoded.

(** * The social features *)

(** ** Votes *)

Lemma int_or_Some_0 n : int_or (Some n) 0 = n.
Proof. unfold int_or. destruct (Z.eqb_spec n 0); congruence. Qed.

Lemma int_or_1 o : int_or o 1 = if (int_or o 0 =? 0)%Z then 1%Z else int_or o 0.
Proof.
  destruct o as [n|]; unfold int_or; [|done].
  destruct (Z.eqb_spec n 0) as [->|Hn]; [done|].
  by apply Z.eqb_neq in Hn as ->.
Qed.

Lemma vote_count_insert_fresh video_id is_like rows k x :
  rows !! k = None ->
  vote_count video_id is_like (<[k := x]> rows)
  = (vote_count video_id is_like rows
     + if bool_decide (k.2 = video_id /\ x = is_like) then 1 else 0)%nat.
Proof.
  intros Hk. unfold vote_count. case_bool_decide as Hp.
  - rewrite map_filter_insert_True by done.
    rewrite map_size_insert_None; [lia|]. by apply map_lookup_filter_None_2; left.
  - rewrite map_filter_insert_not'; [lia|done|]. intros y. by rewrite Hk.
Qed.

Lemma vote_count_delete video_id is_like rows k x :
  rows !! k = Some x ->
  vote_count video_id is_like rows
  = (vote_count video_id is_like (delete k rows)
     + if bool_decide (k.2 = video_id /\ x = is_like) then 1 else 0)%nat.
Proof.
  intros Hk. rewrite <- (insert_id rows k x Hk) at 1. rewrite <- insert_delete_eq.
  apply vote_count_insert_fresh, lookup_delete_eq.
Qed.

Lemma vote_count_replace video_id is_like rows k x y :
  rows !! k = Some x ->
  vote_count video_id is_like (<[k := y]> rows)
  = (vote_count video_id is_like (delete k rows)
     + if bool_decide (k.2 = video_id /\ y = is_like) then 1 else 0)%nat.
Proof.
  intros Hk. rewrite <- insert_delete_eq.
  apply vote_count_insert_fresh, lookup_delete_eq.
Qed.

(** The arithmetic of the three branches. *)
Lemma counter_up o (n : nat) :
  int_or o 0 = Z.of_nat n -> int_or (Some (int_or o 0 + 1)%Z) 0 = Z.of_nat (n + 1).
Proof. intros ->. rewrite int_or_Some_0. lia. Qed.

Lemma counter_down o (n : nat) :
  int_or o 0 = Z.of_nat (n + 1) ->
  int_or (Some (Z.max (int_or o 1 - 1) 0)) 0 = Z.of_nat n.
Proof.
  intros Ho. rewrite int_or_Some_0, int_or_1, Ho.
  destruct (Z.eqb_spec (Z.of_nat (n + 1)) 0); lia.
Qed.

Lemma like_video_in_sync commit_fails me video_id s :
  counters_in_sync s -> counters_in_sync (like_video commit_fails me video_id s).1.
Proof.
  intros Hsync. unfold like_video.
  destruct (video_rows s !! video_id) as [v|] eqn:Hv; [|done].
  destruct (Hsync video_id v Hv) as [Hl Hd].
  destruct (like_rows s !! (me, video_id)) as [[|]|] eqn:Hrow;
    destruct commit_fails; try done; intros vid c; simpl;
    (destruct (decide (vid = video_id)) as [->|Hne];
     [rewrite lookup_insert_eq; intros [= <-]; simpl
     |rewrite lookup_insert_ne by done; intros Hc; destruct (Hsync vid c Hc) as [Hl' Hd']]).
  - rewrite (vote_count_delete video_id true _ _ _ Hrow) in Hl.
    rewrite (vote_count_delete video_id false _ _ _ Hrow) in Hd.
    rewrite bool_decide_eq_true_2 in Hl by done.
    rewrite bool_decide_eq_false_2, Nat.add_0_r in Hd by (by intros [_ ?]).
    split; [exact (counter_down _ _ Hl)|exact Hd].
  - rewrite (vote_count_delete vid true _ _ _ Hrow) in Hl'.
    rewrite (vote_count_delete vid false _ _ _ Hrow) in Hd'.
    rewrite bool_decide_eq_false_2, Nat.add_0_r in Hl' by (by intros [? _]).
    rewrite bool_decide_eq_false_2, Nat.add_0_r in Hd' by (by intros [? _]).
    by split.
  - rewrite (vote_count_delete video_id true _ _ _ Hrow) in Hl.
    rewrite (vote_count_delete video_id false _ _ _ Hrow) in Hd.
    rewrite !(vote_count_replace _ _ _ _ _ _ Hrow).
    rewrite bool_decide_eq_false_2, Nat.add_0_r in Hl by (by intros [_ ?]).
    rewrite bool_decide_eq_true_2 in Hd by done.
    rewrite bool_decide_eq_true_2 by done.
    rewrite bool_decide_eq_false_2, Nat.add_0_r by (by intros [_ ?]).
    split; [exact (counter_up _ _ Hl)|exact (counter_down _ _ Hd)].
  - rewrite (vote_count_delete vid true _ _ _ Hrow) in Hl'.
    rewrite (vote_count_delete vid false _ _ _ Hrow) in Hd'.
    rewrite !(vote_count_replace _ _ _ _ _ _ Hrow).
    rewrite bool_decide_eq_false_2 in Hl' by (by intros [? _]).
    rewrite bool_decide_eq_false_2 in Hd' by (by intros [? _]).
    rewrite !bool_decide_eq_false_2 by (by intros [? _]).
    by split.
  - rewrite !(vote_count_insert_fresh _ _ _ _ _ Hrow).
    rewrite bool_decide_eq_true_2 by done.
    rewrite bool_decide_eq_false_2, Nat.add_0_r by (by intros [_ ?]).
    split; [exact (counter_up _ _ Hl)|exact Hd].
  - rewrite !(vote_count_insert_fresh _ _ _ _ _ Hrow).
    rewrite !bool_decide_eq_false_2 by (by intros [? _]).
    rewrite !Nat.add_0_r. by split.
Qed.

Lemma dislike_video_in_sync commit_fails me video_id s :
  counters_in_sync s -> counters_in_sync (dislike_video commit_fails me video_id s).1.
Proof.
  intros Hsync. unfold dislike_video.
  destruct (video_rows s !! video_id) as [v|] eqn:Hv; [|done].
  destruct (Hsync video_id v Hv) as [Hl Hd].
  destruct (like_rows s !! (me, video_id)) as [[|]|] eqn:Hrow;
    destruct commit_fails; try done; intros vid c; simpl;
    (destruct (decide (vid = video_id)) as [->|Hne];
     [rewrite lookup_insert_eq; intros [= <-]; simpl
     |rewrite lookup_insert_ne by done; intros Hc; destruct (Hsync vid c Hc) as [Hl' Hd']]).
  - rewrite (vote_count_delete video_id true _ _ _ Hrow) in Hl.
    rewrite (vote_count_delete video_id false _ _ _ Hrow) in Hd.
    rewrite !(vote_count_replace _ _ _ _ _ _ Hrow).
    rewrite bool_decide_eq_true_2 in Hl by done.
    rewrite bool_decide_eq_false_2, Nat.add_0_r in Hd by (by intros [_ ?]).
    rewrite bool_decide_eq_false_2, Nat.add_0_r by (by intros [_ ?]).
    rewrite bool_decide_eq_true_2 by done.
    split; [exact (counter_down _ _ Hl)|exact (counter_up _ _ Hd)].
  - rewrite (vote_count_delete vid true _ _ _ Hrow) in Hl'.
    rewrite (vote_count_delete vid false _ _ _ Hrow) in Hd'.
    rewrite !(vote_count_replace _ _ _ _ _ _ Hrow).
    rewrite bool_decide_eq_false_2 in Hl' by (by intros [? _]).
    rewrite bool_decide_eq_false_2 in Hd' by (by intros [? _]).
    rewrite !bool_decide_eq_false_2 by (by intros [? _]).
    by split.
  - rewrite (vote_count_delete video_id true _ _ _ Hrow) in Hl.
    rewrite (vote_count_delete video_id false _ _ _ Hrow) in Hd.
    rewrite bool_decide_eq_false_2, Nat.add_0_r in Hl by (by intros [_ ?]).
    rewrite bool_decide_eq_true_2 in Hd by done.
    split; [exact Hl|exact (counter_down _ _ Hd)].
  - rewrite (vote_count_delete vid true _ _ _ Hrow) in Hl'.
    rewrite (vote_count_delete vid false _ _ _ Hrow) in Hd'.
    rewrite bool_decide_eq_false_2, Nat.add_0_r in Hl' by (by intros [? _]).
    rewrite bool_decide_eq_false_2, Nat.add_0_r in Hd' by (by intros [? _]).
    by split.
  - rewrite !(vote_count_insert_fresh _ _ _ _ _ Hrow).
    rewrite bool_decide_eq_false_2, Nat.add_0_r by (by intros [_ ?]).
    rewrite bool_decide_eq_true_2 by done.
    split; [exact Hl|exact (counter_up _ _ Hd)].
  - rewrite !(vote_count_insert_fresh _ _ _ _ _ Hrow).
    rewrite !bool_decide_eq_false_2 by (by intros [? _]).
    rewrite !Nat.add_0_r. by split.
Qed.

(** X12. When the counters of every video tell the numbers of its likes and
    dislikes in the table [likes], they still do after [like_video] and
    after [dislike_video], whoever votes on whichever video and whether
    or not the commit succeeds. *)
Theorem votes_keep_counters_in_sync (commit_fails : bool) (me video_id : N) (s : Site) :
  counters_in_sync s ->
  counters_in_sync (like_video commit_fails me video_id s).1
  /\ counters_in_sync (dislike_video commit_fails me video_id s).1.
Proof.
  intros Hsync. split; [by apply like_video_in_sync|by apply dislike_video_in_sync].
Qed.

(** X13. [dislike_video] is [like_video] with likes and dislikes exchanged:
    disliking on the mirrored site gives the mirror of what liking gives,
    site and response. *)
Theorem dislike_video_mirrors_like_video (commit_fails : bool) (me video_id : N) (s : Site) :
  dislike_video commit_fails me video_id (mirror s)
  = (mirror (like_video commit_fails me video_id s).1,
     mirror_response (like_video commit_fails me video_id s).2).
Proof.
  unfold dislike_video, like_video. simpl. rewrite !lookup_fmap.
  destruct (video_rows s !! video_id) as [v|]; [|done]. simpl.
  destruct (like_rows s !! (me, video_id)) as [[|]|]; simpl;
    destruct commit_fails; try done; simpl; unfold mirror, set_video_votes; simpl;
    rewrite ?fmap_insert, ?fmap_delete; done.
Qed.

(** X15. A counter that is not negative stays so: neither [like_video] nor
    [dislike_video] brings a counter below zero. *)
Theorem votes_keep_counters_not_negative (commit_fails : bool) (me video_id : N) (s : Site) :
  counters_not_negative s ->
  counters_not_negative (like_video commit_fails me video_id s).1
  /\ counters_not_negative (dislike_video commit_fails me video_id s).1.
Proof.
  intros Hpos.
  assert (forall o, (forall n, o = Some n -> (0 <= n)%Z) -> (0 <= int_or o 0 + 1)%Z) as Hup.
  { intros [n|] Hn; unfold int_or; [|lia]. specialize (Hn n eq_refl).
    destruct (n =? 0)%Z; lia. }
  unfold like_video, dislike_video. split;
    (destruct (video_rows s !! video_id) as [v|] eqn:Hv; [|done]);
    destruct (Hpos video_id v Hv) as [Hl Hd];
    destruct (like_rows s !! (me, video_id)) as [[|]|]; destruct commit_fails; try done;
    intros vid c; simpl;
    (destruct (decide (vid = video_id)) as [->|Hne];
     [rewrite lookup_insert_eq; intros [= <-]; simpl
     |rewrite lookup_insert_ne by done; by apply Hpos]);
    split; intros n Hn;
    first [by apply Hl | by apply Hd
          | injection Hn as <-; first [apply Z.le_max_r | by apply Hup]].
Qed.

Lemma toggle_up_down n :
  (0 <= n)%Z -> Z.max (int_or (Some (int_or (Some n) 0 + 1)%Z) 1 - 1) 0 = n.
Proof.
  intros Hn. unfold int_or.
  destruct (Z.eqb_spec n 0); repeat case_match; lia.
Qed.

Lemma toggle_down_up n :
  (1 <= n)%Z -> (int_or (Some (Z.max (int_or (Some n) 1 - 1) 0)) 0 + 1)%Z = n.
Proof.
  intros Hn. unfold int_or.
  destruct (Z.eqb_spec n 0); repeat case_match; lia.
Qed.

Lemma take_one_off n :
  (1 <= n)%Z -> Z.max (int_or (Some n) 1 - 1) 0 = (n - 1)%Z.
Proof. intros Hn. unfold int_or. destruct (Z.eqb_spec n 0); lia. Qed.

Lemma vote_counted video_id is_like rows (me : N) :
  rows !! (me, video_id) = Some is_like -> (1 <= vote_count video_id is_like rows)%nat.
Proof.
  intros Hrow. rewrite (vote_count_delete _ _ _ _ _ Hrow).
  rewrite bool_decide_eq_true_2 by done. lia.
Qed.

(** X16. Voting twice the same way takes the vote back. On a site whose
    counters are in step with the table of likes, for a video whose two
    counters are set: two calls of [like_video] in a row leave the site
    as it was, rows and counters, when the user had no vote or a like;
    when the user had a dislike they leave the user without a vote and
    the dislikes one lower, the likes being as they were. Two calls of
    [dislike_video] do the same with the two sides exchanged. *)
Theorem voting_twice_takes_the_vote_back (me video_id : N) (s : Site) (v : Counters)
    (n m : Z) :
  counters_in_sync s ->
  video_rows s !! video_id = Some v ->
  likes v = Some n ->
  dislikes v = Some m ->
  let liked_twice := (like_video false me video_id (like_video false me video_id s).1).1 in
  let disliked_twice :=
    (dislike_video false me video_id (dislike_video false me video_id s).1).1 in
  let without_vote (v' : Counters) :=
    set_video_votes (delete (me, video_id) (like_rows s))
      (<[video_id := v']> (video_rows s)) s in
  (like_rows s !! (me, video_id) = None -> liked_twice = s /\ disliked_twice = s)
  /\ (like_rows s !! (me, video_id) = Some true ->
        liked_twice = s
        /\ disliked_twice = without_vote (set_likes (Some (n - 1)%Z) v))
  /\ (like_rows s !! (me, video_id) = Some false ->
        disliked_twice = s
        /\ liked_twice = without_vote (set_dislikes (Some (m - 1)%Z) v)).
Proof.
  intros Hsync Hv Hn Hm. cbv zeta.
  destruct (Hsync video_id v Hv) as [Hlikes Hdislikes].
  rewrite Hn, int_or_Some_0 in Hlikes. rewrite Hm, int_or_Some_0 in Hdislikes.
  assert (0 <= n)%Z as Hn0 by lia. assert (0 <= m)%Z as Hm0 by lia.
  destruct s as [users table rows follows comments flashed].
  destruct v as [seen liked disliked]. simpl in *. subst liked disliked.
  split; [|split]; intros Hrow;
    try (pose proof (vote_counted _ _ _ _ Hrow) as Hone;
         first [assert (1 <= n)%Z as Hn1 by lia | assert (1 <= m)%Z as Hm1 by lia]);
    (split;
     unfold like_video, dislike_video; simpl; rewrite Hv, Hrow; simpl;
     rewrite !lookup_insert_eq; simpl;
     rewrite ?lookup_insert_eq, ?lookup_delete_eq; simpl;
     unfold set_video_votes, set_likes, set_dislikes; simpl;
     rewrite insert_insert_eq;
     rewrite ?int_or_Some_0;
     rewrite ?toggle_up_down, ?toggle_down_up, ?take_one_off by done;
     rewrite ?toggle_up_down, ?toggle_down_up, ?take_one_off by lia;
     rewrite ?Z.add_simpl_r, ?Z.sub_add;
     rewrite ?(insert_id table) by done;
     rewrite ?(delete_insert_eq rows), ?insert_delete_eq, ?(insert_id rows) by done;
     rewrite ?delete_id by done;
     try done).
Qed.

(** ** Following *)

Lemma count_add (P : N * N -> Prop) `{!forall p, Decision (P p)} (p : N * N)
    (X : gset (N * N)) :
  p ∉ X -> P p -> size (filter P ({[ p ]} ∪ X)) = S (size (filter P X)).
Proof.
  intros Hp HP. rewrite filter_union_L, filter_singleton_L by apply _.
  rewrite decide_True by done.
  rewrite size_union, size_singleton; [done|].
  set_unfold. intros q -> [_ Hq]. by apply Hp.
Qed.

Lemma count_remove (P : N * N -> Prop) `{!forall p, Decision (P p)} (p : N * N)
    (X : gset (N * N)) :
  p ∈ X -> P p -> S (size (filter P (X ∖ {[ p ]}))) = size (filter P X).
Proof.
  intros Hp HP. rewrite <- (count_add P p) by (done || set_unfold; tauto).
  by rewrite <- union_difference_singleton_L.
Qed.

Lemma toggle_off_on (p : N * N) (X : gset (N * N)) :
  p ∈ X -> {[ p ]} ∪ X ∖ {[ p ]} = X.
Proof. intros Hp. by rewrite <- union_difference_singleton_L. Qed.

Lemma toggle_on_off (p : N * N) (X : gset (N * N)) :
  p ∉ X -> ({[ p ]} ∪ X) ∖ {[ p ]} = X.
Proof.
  intros Hp. apply set_eq. intros q. set_unfold.
  split; [tauto|]. intros Hq. split; [tauto|]. by intros ->.
Qed.

(** X17. The toggle of [follow_user] of [home.py] is its own inverse: two
    calls in a row, both committed, leave the site as it was, whoever the
    two users are and whatever the table of follows holds. *)
Theorem follow_user_twice_restores_the_site (me user_id : N) (s : Site) :
  (follow_user false me user_id (follow_user false me user_id s).1).1 = s.
Proof.
  destruct s as [users table rows follows comments flashed].
  unfold follow_user; simpl.
  destruct (bool_decide (user_id = me)) eqn:Hself; simpl; [done|].
  destruct (users !! user_id) as [target|] eqn:Huser; simpl;
    [|by rewrite Huser].
  destruct (bool_decide ((me, user_id) ∈ follows)) eqn:Hin; simpl;
    rewrite Huser; unfold set_follow_rows; simpl.
  - apply bool_decide_eq_true in Hin.
    rewrite bool_decide_eq_false_2 by (set_unfold; tauto).
    by rewrite toggle_off_on.
  - apply bool_decide_eq_false in Hin.
    rewrite bool_decide_eq_true_2 by (set_unfold; tauto).
    by rewrite toggle_on_off.
Qed.

(** X18. The answer of [follow_user] of [home.py] tells the state it leaves:
    when it answers [{"following": b}], the follower follows the target
    afterwards exactly when [b] is true, the two counts that
    [followers_count] and [following_count] read have moved by one, up
    when [b] is true and down otherwise, and no other pair of the table
    has been added or removed. *)
Theorem follow_user_answer_is_truthful (commit_fails : bool) (me user_id : N)
    (s s' : Site) (b : bool) :
  follow_user commit_fails me user_id s = (s', FollowJson b) ->
  is_following me user_id s' = b
  /\ is_following me user_id s = negb b
  /\ (if b
      then followers_count user_id s' = S (followers_count user_id s)
           /\ following_count me s' = S (following_count me s)
      else S (followers_count user_id s') = followers_count user_id s
           /\ S (following_count me s') = following_count me s)
  /\ (forall p, p <> (me, user_id) -> p ∈ follow_rows s' <-> p ∈ follow_rows s).
Proof.
  unfold follow_user, is_following, followers_count, following_count.
  destruct (bool_decide (user_id = me)); [done|].
  destruct (user_rows s !! user_id); [|done].
  destruct commit_fails; [done|].
  destruct (bool_decide ((me, user_id) ∈ follow_rows s)) eqn:Hin;
    intros [= <- <-]; simpl.
  - apply bool_decide_eq_true in Hin.
    split; [apply bool_decide_eq_false_2; set_unfold; tauto|].
    split; [done|].
    split; [by split; apply count_remove|].
    intros p Hp. set_unfold. tauto.
  - apply bool_decide_eq_false in Hin.
    split; [apply bool_decide_eq_true_2; set_unfold; tauto|].
    split; [done|].
    split; [by split; apply count_add|].
    intros p Hp. set_unfold. tauto.
Qed.

(** X19. Nobody comes to follow themselves: the three handlers that write the
    table of follows, [follow_user] of [home.py] and [follow_user] and
    [unfollow_user] of [profil.py], keep it free of pairs of a user with
    themselves. *)
Theorem follow_handlers_keep_no_self_follow (commit_fails : bool) (me user_id : N)
    (s : Site) :
  no_self_follow s ->
  no_self_follow (follow_user commit_fails me user_id s).1
  /\ no_self_follow (profil.follow_user commit_fails me user_id s).1
  /\ no_self_follow (profil.unfollow_user commit_fails me user_id s).1.
Proof.
  intros Hs. split; [|split]; intros u; specialize (Hs u); revert Hs;
    unfold follow_user, profil.follow_user, profil.unfollow_user, is_following;
    destruct (bool_decide (user_id = me)) eqn:Hself;
    destruct (user_rows s !! user_id);
    destruct (bool_decide ((me, user_id) ∈ follow_rows s));
    destruct commit_fails; simpl; try done;
    set_unfold; try tauto;
    apply bool_decide_eq_false in Hself;
    intros Hs [[= -> ->]|?]; tauto.
Qed.

Lemma absorb_singleton (p : N * N) (X : gset (N * N)) :
  p ∈ X -> {[ p ]} ∪ X = X.
Proof.
  intros Hp. apply set_eq. intros q. set_unfold.
  split; [|tauto]. by intros [-> | Hq].
Qed.

Lemma without_absent (p : N * N) (X : gset (N * N)) :
  p ∉ X -> X ∖ {[ p ]} = X.
Proof.
  intros Hp. apply set_eq. intros q. set_unfold.
  split; [tauto|]. intros Hq. split; [done|]. by intros ->.
Qed.

(** X20. The two handlers of [profil.py] on a user of the table who is not
    the one logged in: [follow_user] leaves the pair in the table, whether
    it was there or not, and [unfollow_user] leaves it out; undoing a
    follow gives the table without the pair. *)
Theorem profil_follow_then_unfollow (me user_id : N) (s : Site) :
  is_Some (user_rows s !! user_id) -> user_id <> me ->
  let followed := (profil.follow_user false me user_id s).1 in
  let unfollowed := (profil.unfollow_user false me user_id s).1 in
  follow_rows followed = {[ (me, user_id) ]} ∪ follow_rows s
  /\ is_following me user_id followed = true
  /\ follow_rows unfollowed = follow_rows s ∖ {[ (me, user_id) ]}
  /\ is_following me user_id unfollowed = false
  /\ follow_rows (profil.unfollow_user false me user_id followed).1
     = follow_rows s ∖ {[ (me, user_id) ]}.
Proof.
  intros [user Huser] Hne. unfold profil.follow_user, profil.unfollow_user, is_following.
  rewrite Huser. rewrite (bool_decide_eq_false_2 (user_id = me)) by done.
  destruct (bool_decide ((me, user_id) ∈ follow_rows s)) eqn:Hin; simpl;
    rewrite Huser, ?Hin; simpl.
  - apply bool_decide_eq_true in Hin.
    split; [by rewrite absorb_singleton|].
    split; [done|]. split; [done|].
    split; [apply bool_decide_eq_false_2; set_unfold; tauto|done].
  - apply bool_decide_eq_false in Hin.
    rewrite (bool_decide_eq_true_2 ((me, user_id) ∈ {[(me, user_id)]} ∪ follow_rows s))
      by (set_unfold; tauto).
    simpl.
    split; [done|].
    split; [done|].
    split; [by rewrite without_absent|].
    split; [done|].
    by rewrite toggle_on_off, without_absent.
Qed.

(** X21. The toggle of [home.py] does to the table of follows what the two
    handlers of [profil.py] do between them: what [unfollow_user] does
    when the pair is in the table, what [follow_user] does when it is
    not. *)
Theorem follow_toggle_agrees_with_profil (me user_id : N) (s : Site) :
  user_id <> me ->
  follow_rows (follow_user false me user_id s).1
  = if is_following me user_id s
    then follow_rows (profil.unfollow_user false me user_id s).1
    else follow_rows (profil.follow_user false me user_id s).1.
Proof.
  intros Hne. unfold follow_user, profil.follow_user, profil.unfollow_user, is_following.
  rewrite (bool_decide_eq_false_2 (user_id = me)) by done.
  destruct (user_rows s !! user_id);
    destruct (bool_decide ((me, user_id) ∈ follow_rows s)); done.
Qed.

(** ** Comments *)

Lemma rstrip_idem p t : Py.rstrip p (Py.rstrip p t) = Py.rstrip p t.
Proof.
  induction t as [|a t IH]; [done|].
  change (Py.rstrip p (String a t))
    with (match Py.rstrip p t with
          | EmptyString => if p a then EmptyString else String a EmptyString
          | r' => String a r'
          end).
  destruct (Py.rstrip p t) as [|b r] eqn:Hr.
  - destruct (p a) eqn:Hp; [done|]. simpl. by rewrite Hp.
  - change (Py.rstrip p (String a (String b r)))
      with (match Py.rstrip p (String b r) with
            | EmptyString => if p a then EmptyString else String a EmptyString
            | r' => String a r'
            end).
    by rewrite IH.
Qed.

Lemma lstrip_head p s a r : Py.lstrip p s = String a r -> p a = false.
Proof.
  induction s as [|b s IH]; simpl; [done|].
  destruct (p b) eqn:Hp; [done|]. by intros [= <- <-].
Qed.

Lemma rstrip_head p a r :
  p a = false -> exists r', Py.rstrip p (String a r) = String a r'.
Proof.
  intros Hp. simpl. destruct (Py.rstrip p r); rewrite ?Hp; eauto.
Qed.

Lemma strip_idem p s : Py.strip p (Py.strip p s) = Py.strip p s.
Proof.
  unfold Py.strip.
  assert (Py.lstrip p (Py.rstrip p (Py.lstrip p s)) = Py.rstrip p (Py.lstrip p s)) as ->;
    [|apply rstrip_idem].
  destruct (Py.lstrip p s) as [|a r] eqn:Hl; [done|].
  apply lstrip_head in Hl.
  destruct (rstrip_head p a r Hl) as [r' ->]. simpl. by rewrite Hl.
Qed.

(** X22. [comment_post] stores only comments whose body is not empty and has
    no white space around it, on a video of the table: when every comment
    of the table is such a comment, so is every comment after the call.
    The call adds at most one comment, of the user logged in and on the
    video of the route, at the end of the table, and leaves the other
    tables as they are. *)
Theorem comment_post_stores_stripped_bodies (commit_fails : bool) (me video_id : N)
    (form_body : option string) (s : Site) :
  Forall (comment_ok s) (comment_rows s) ->
  let s' := comment_post commit_fails me video_id form_body s in
  Forall (comment_ok s') (comment_rows s')
  /\ (comment_rows s' = comment_rows s
      \/ exists c, comment_rows s' = comment_rows s ++ [c]
           /\ comment_user c = me /\ comment_video c = video_id
           /\ body c = Py.strip Py.is_space (Py.or_else form_body ""))
  /\ user_rows s' = user_rows s /\ video_rows s' = video_rows s
  /\ like_rows s' = like_rows s /\ follow_rows s' = follow_rows s.
Proof.
  intros Hall. unfold comment_post.
  destruct (video_rows s !! video_id) as [v|] eqn:Hv; simpl; [|by auto 10].
  destruct (Py.strip Py.is_space (Py.or_else form_body "")) as [|a r] eqn:Hbody;
    simpl; [by auto 10|].
  destruct commit_fails; simpl; [by auto 10|].
  split; [|split; [right; by eexists|done]].
  apply Forall_app. split; [done|].
  apply Forall_singleton. unfold comment_ok; simpl.
  split; [done|]. split; [|by rewrite Hv].
  rewrite <- Hbody. apply strip_idem.
Qed.

(** ** The admin routes *)

(** X23. [promote_user] only grants: it adds no user and removes none, it
    leaves every user but the one of the route as it is, that one keeps
    its names and nobody who was an admin stops being one; when the user
    logged in is not an admin no row changes. The other tables are left
    as they are. *)
Theorem promote_user_only_grants (commit_fails : bool) (cu : Account) (user_id : N)
    (s : Site) :
  let s' := promote_user commit_fails cu user_id s in
  dom (user_rows s') = dom (user_rows s)
  /\ (forall u r, user_rows s !! u = Some r ->
        exists r', user_rows s' !! u = Some r'
          /\ row_username r' = row_username r
          /\ row_display_name r' = row_display_name r
          /\ (row_is_admin r = true -> row_is_admin r' = true)
          /\ (u <> user_id -> r' = r))
  /\ (account_is_admin cu = false -> user_rows s' = user_rows s)
  /\ video_rows s' = video_rows s /\ like_rows s' = like_rows s
  /\ follow_rows s' = follow_rows s /\ comment_rows s' = comment_rows s.
Proof.
  unfold promote_user.
  destruct (account_is_admin cu); simpl; [|by eauto 12].
  destruct (user_rows s !! user_id) as [user|] eqn:Huser; simpl; [|by eauto 12].
  destruct commit_fails; simpl; [by eauto 12|].
  split; [apply dom_insert_lookup_L; by eexists|].
  split; [|done].
  intros u r Hu. destruct (decide (u = user_id)) as [->|Hne].
  - rewrite lookup_insert_eq. exists (set_admin user).
    assert (r = user) as -> by congruence. by simpl.
  - rewrite lookup_insert_ne by done. by exists r.
Qed.

(** X24. Whatever the deletion of a user does to the tables, [ban_user] does
    not reach it when the user logged in is not an admin, nor when the
    user of the route is the one logged in: every table is then left as
    it is. *)
Theorem ban_user_guards (orm_delete : N -> Site -> option Site) (cu : Account)
    (user_id : N) (s : Site) :
  account_is_admin cu = false \/ user_id = account_id cu ->
  let s' := ban_user orm_delete cu user_id s in
  user_rows s' = user_rows s /\ video_rows s' = video_rows s
  /\ like_rows s' = like_rows s /\ follow_rows s' = follow_rows s
  /\ comment_rows s' = comment_rows s.
Proof.
  unfold ban_user. intros [Hadmin | ->].
  - by rewrite Hadmin.
  - destruct (account_is_admin cu); simpl; [|done].
    destruct (user_rows s !! account_id cu); simpl; [|done].
    by rewrite bool_decide_eq_false_2 by (intros H; by apply H).
Qed.

(** ** [api_videos] *)

Section ApiPages.
Variable py_int : string -> option Z.
Variable ilike : string -> string -> bool.

Lemma filter_sublist {A} (f : A -> bool) (l : list A) : sublist (List.filter f l) l.
Proof.
  induction l as [|a l IH]; simpl; [done|].
  destruct (f a); by constructor.
Qed.

Lemma api_query_sublist args table :
  sublist (api_query ilike args table) table.
Proof.
  unfold api_query.
  destruct (Py.nonempty (Py.strip Py.is_space (Py.or_else (args !! "q") "")));
    destruct (Py.nonempty (Py.or_else (args !! "cat") ""));
    repeat (etrans; [apply filter_sublist|]); done.
Qed.

Lemma api_query_page args text table :
  api_query ilike (<["page" := text]> args) table = api_query ilike args table.
Proof. unfold api_query. by rewrite !lookup_insert_ne. Qed.

(** X25. When [int] reads the two arguments, [api_videos] works with a
    page number of at least 1 and a page size between 1 and 50. When the
    offset, the page size times the number of pages before, is more than
    the largest INTEGER of the database, the answer is the 500 of the
    handler. Otherwise the request is answered with that page number and
    page size; the items are rows of the table, in the order of the
    table: as many as the rows the query selects have left past the pages
    before, a page size of them at most, so none for a page past the
    end; the total is the number of rows selected, at most the size of
    the table. *)
Theorem api_videos_page_bounds (args : gmap string string) (table : list Video)
    (p n : Z) :
  int_arg py_int args "page" 1 = Some p ->
  int_arg py_int args "per_page" 12 = Some n ->
  let page := Z.max p 1 in
  let per_page := Z.min (Z.max n 1) 50 in
  let offset := ((page - 1) * per_page)%Z in
  (1 <= page)%Z
  /\ (1 <= per_page <= 50)%Z
  /\ ((SQLITE_INTEGER_MAX < offset)%Z -> api_videos py_int ilike args table = None)
  /\ ((offset <= SQLITE_INTEGER_MAX)%Z ->
        exists pg,
          api_videos py_int ilike args table = Some pg
          /\ api_page pg = page
          /\ api_per_page pg = per_page
          /\ api_total pg = length (api_query ilike args table)
          /\ api_total pg <= length table
          /\ sublist (api_items pg) table
          /\ length (api_items pg)
             = Z.to_nat per_page `min` (api_total pg - Z.to_nat offset)).
Proof.
  intros Hp Hn. cbv zeta. unfold api_videos. rewrite Hp, Hn.
  split; [lia|]. split; [lia|]. split.
  - intros Hover. by apply Z.ltb_lt in Hover as ->.
  - intros Hfits. apply Z.ltb_ge in Hfits as ->.
    eexists. split; [done|]. simpl.
    split; [done|]. split; [done|]. split; [done|].
    split; [apply sublist_length, api_query_sublist|].
    split.
    + etrans; [apply sublist_take|]. etrans; [apply sublist_drop|].
      apply api_query_sublist.
    + by rewrite length_take, length_drop.
Qed.

(** X26. Two pages that follow each other hold rows of the query that follow
    each other: for the same arguments but the page number, the items of
    page [p] followed by those of page [p + 1] are the rows of the query
    from the first row of page [p] on, two page sizes of them at most;
    the two answers tell the same page size and the same total. *)
Theorem api_videos_consecutive_pages (args : gmap string string) (table : list Video)
    (text text' : string) (p : Z) (pg pg' : ApiPage) :
  py_int text = Some p -> py_int text' = Some (p + 1)%Z -> (1 <= p)%Z ->
  api_videos py_int ilike (<["page" := text]> args) table = Some pg ->
  api_videos py_int ilike (<["page" := text']> args) table = Some pg' ->
  api_per_page pg' = api_per_page pg
  /\ api_total pg' = api_total pg
  /\ api_items pg ++ api_items pg'
     = take (2 * Z.to_nat (api_per_page pg))
         (drop (Z.to_nat ((p - 1) * api_per_page pg)) (api_query ilike args table)).
Proof.
  intros Hp Hp' Hpos. unfold api_videos, int_arg.
  rewrite !lookup_insert_eq, !lookup_insert_ne by done. rewrite Hp, Hp'.
  destruct (match args !! "per_page" with Some t => py_int t | None => Some 12%Z end)
    as [n|]; [|done].
  do 2 (destruct (_ <? _)%Z; [done|]).
  intros [= <-] [= <-]; simpl. rewrite !api_query_page.
  split; [done|]. split; [done|].
  set (per := Z.min (Z.max n 1) 50).
  set (rows := api_query ilike args table).
  replace (Z.max (p + 1) 1 - 1)%Z with p by lia.
  replace (Z.max p 1 - 1)%Z with (p - 1)%Z by lia.
  assert (1 <= per)%Z as Hper by (unfold per; lia).
  clearbody per rows.
  replace (p * per)%Z with ((p - 1) * per + per)%Z by lia.
  rewrite Z2Nat.inj_add by (try apply Z.mul_nonneg_nonneg; lia).
  rewrite <- drop_drop.
  rewrite take_take_drop. f_equal. lia.
Qed.

End ApiPages.

(** ** [watch] *)

(** X27. Every request of the watch page counts: after [n] of them the views
    of the video, read with null as 0, are [n] more than before; its two
    vote counters, the other videos and the other tables are as they
    were. *)
Theorem watch_counts_each_view (n : nat) (video_id : N) (s : Site) (v : Counters) :
  video_rows s !! video_id = Some v ->
  let s' := watches n video_id s in
  (exists v', video_rows s' !! video_id = Some v'
      /\ int_or (views v') 0 = (int_or (views v) 0 + Z.of_nat n)%Z
      /\ likes v' = likes v /\ dislikes v' = dislikes v)
  /\ (forall u, u <> video_id -> video_rows s' !! u = video_rows s !! u)
  /\ user_rows s' = user_rows s /\ like_rows s' = like_rows s
  /\ follow_rows s' = follow_rows s /\ comment_rows s' = comment_rows s.
Proof.
  intros Hv. cbv zeta. induction n as [|n IH].
  - split; [exists v; split; [done|]; split; [simpl; lia|done]|done].
  - destruct IH as ((v' & Hv' & Hviews & Hlikes & Hdislikes) & Hothers
                    & Husers & Hrows & Hfollows & Hcomments).
    unfold watches in *. simpl.
    set (sn := Nat.iter n _ s) in *. clearbody sn.
    unfold watch. rewrite Hv'. simpl.
    split; [|split; [|done]].
    + eexists. rewrite lookup_insert_eq. split; [done|]. simpl.
      rewrite int_or_Some_0. split; [lia|done].
    + intros u Hu. rewrite lookup_insert_ne by done. by apply Hothers.
Qed.

(** X28. A request of the watch page leaves the vote counters as the votes
    left them: in step with the rows of the table of likes, and not
    negative. *)
Theorem watch_keeps_vote_counters (commit_fails : bool) (video_id : N) (s : Site) :
  counters_in_sync s -> counters_not_negative s ->
  counters_in_sync (watch commit_fails video_id s).1
  /\ counters_not_negative (watch commit_fails video_id s).1.
Proof.
  intros Hsync Hpos. unfold watch.
  destruct (video_rows s !! video_id) as [v|] eqn:Hv; [|done].
  destruct commit_fails; [done|]. simpl.
  split; intros u c; simpl;
    (destruct (decide (u = video_id)) as [->|Hne];
     [rewrite lookup_insert_eq; intros [= <-]; simpl
     |rewrite lookup_insert_ne by done]).
  - by apply Hsync.
  - apply Hsync.
  - by apply (Hpos video_id).
  - apply Hpos.
Qed.

(** ** [home] *)

Lemma Forall_filter_keeps {A} (P : A -> Prop) (f : A -> bool) (l : list A) :
  Forall P l -> Forall P (List.filter f l).
Proof.
  induction 1 as [|a l Ha Hl IH]; simpl; [done|].
  destruct (f a); [by constructor|done].
Qed.

Section HomePage.
Variable py_int : string -> option Z.
Variable ilike : string -> string -> bool.

(** X29. [home] finds its items whatever the request: at most 40 rows of the
    table, in the order of the table, all of one category, which is the
    one the request names or, when it names none, the first of
    [CATEGORIES]. *)
Theorem home_items_bounds (args : gmap string string) (table : list Video) :
  exists items,
    home_items ilike args table = inr items
    /\ length items <= 40
    /\ sublist items table
    /\ Forall (fun v => category v = Py.or_else (args !! "cat") "tendance") items.
Proof.
  unfold home_items.
  set (cat := Py.or_else (args !! "cat") "tendance").
  assert ((if Py.truthy (args !! "cat") then inr (Py.or_else (args !! "cat") "")
           else match CATEGORIES with
                | c :: _ => inr (cat_id c)
                | [] => inl IndexError
                end) = (inr cat : result string)) as ->.
  { unfold cat. destruct (args !! "cat") as [[|a t]|]; done. }
  eexists. split; [done|].
  split; [rewrite length_take; lia|].
  split.
  - etrans; [apply sublist_take|].
    destruct (Py.nonempty _); repeat (etrans; [apply filter_sublist|]); done.
  - apply Forall_take.
    assert (Forall (fun v => category v = cat)
              (List.filter (fun v => bool_decide (category v = cat)) table)) as Hcat.
    { induction table as [|v table IH]; simpl; [done|].
      destruct (bool_decide (category v = cat)) eqn:Hv; [|done].
      constructor; [by apply bool_decide_eq_true in Hv|done]. }
    destruct (Py.nonempty _); [|done].
    by apply Forall_filter_keeps.
Qed.

(** X30. When the request names a category, the items of [home] are those of
    the first page of [api_videos] for the same search and category and a
    page size of 40. *)
Theorem home_is_first_api_page (args : gmap string string) (table : list Video)
    (text : string) :
  Py.truthy (args !! "cat") = true ->
  py_int text = Some 40%Z ->
  exists pg,
    api_videos py_int ilike (<["per_page" := text]> (delete "page" args)) table = Some pg
    /\ api_page pg = 1%Z /\ api_per_page pg = 40%Z
    /\ home_items ilike args table = inr (api_items pg).
Proof.
  intros Hcat Htext. unfold api_videos, int_arg, home_items, api_query.
  rewrite lookup_insert_eq, Htext.
  rewrite !lookup_insert_ne by done.
  rewrite lookup_delete_eq, !lookup_delete_ne by done.
  rewrite Hcat.
  assert (Py.nonempty (Py.or_else (args !! "cat") "") = true) as ->
    by (by destruct (args !! "cat") as [[|a t]|]).
  change (SQLITE_INTEGER_MAX <? (Z.max 1 1 - 1) * Z.min (Z.max 40 1) 50)%Z with false.
  eexists. split; [done|]. simpl. split; [done|]. split; [done|].
  by change (Z.to_nat (Z.min (Z.max 40 1) 50)) with 40.
Qed.

End HomePage.

(** * Runs on the sample data *)

(** An upload of clip.mp4 that stores a row: its file has an accepted
    name. *)
Lemma upload_post_touches_only_accepted_witness :
  exists f, file (sample_request "clip.mp4" ∅) = Some f
            /\ client_filename f <> ""
            /\ allowed_file (client_filename f) = inr true.
Proof.
  apply (@upload_post_touches_only_accepted posix_host (sample_env None failing_encoder)
           (sample_request "clip.mp4" ∅) (sample_world sample_root)
           (world_after (sample_world sample_root)
              (@upload_post posix_host (sample_env None failing_encoder)
                 (sample_request "clip.mp4" ∅) (sample_world sample_root)))
           (inr (RedirectWatch (Some 1%N)))).
  - vm_compute. reflexivity.
  - intros Heq. apply (f_equal (fun t => length t.1.2)) in Heq.
    vm_compute in Heq. discriminate.
Defined.

(** An upload into an installation without its upload directory. *)
Lemma upload_post_storage_failure_witness :
  @upload_post posix_host (sample_env None failing_encoder)
    (sample_request "clip.mp4" ∅) (sample_world ∅)
  = Some (add_flash (UploadError OSError) (sample_world ∅), inr RedirectUploadForm).
Proof.
  apply (@upload_post_storage_failure posix_host (sample_env None failing_encoder)
           (sample_request "clip.mp4" ∅) (sample_clip "clip.mp4") (sample_world ∅)).
  - reflexivity.
  - discriminate.
  - vm_compute. reflexivity.
  - vm_compute. reflexivity.
Defined.

(** An upload whose commit fails: the file stays. *)
Lemma upload_post_commit_failure_witness :
  let w := sample_world sample_root in
  let w1 := world_after w (@store_upload posix_host sample_env_commit_fails
                             (sample_clip "clip.mp4") w) in
  @upload_post posix_host sample_env_commit_fails (sample_request "clip.mp4" ∅) w
  = Some (add_flash (UploadError DatabaseError) w1, inr RedirectUploadForm)
  /\ sample_uploads ++ ["clip.mp4"] = @UPLOAD_DIR posix_host ++ ["clip.mp4"]
  /\ fs w !! (sample_uploads ++ ["clip.mp4"]) = None
  /\ fs w1 = <[sample_uploads ++ ["clip.mp4"] := File "DATA"]> (fs w)
  /\ videos w1 = videos w /\ runs w1 = runs w.
Proof.
  intros w w1.
  apply (@upload_post_commit_failure posix_host sample_env_commit_fails
           (sample_request "clip.mp4" ∅) (sample_clip "clip.mp4") w w1
           "clip" "clip.mp4" (sample_uploads ++ ["clip.mp4"])).
  - reflexivity.
  - discriminate.
  - vm_compute. reflexivity.
  - vm_compute. reflexivity.
  - reflexivity.
  - reflexivity.
Defined.


(** The name reserved for a.mp4 in an upload root that holds a.mp4. *)
Lemma storage_namer_first_free_witness :
  let sanitised := @secure_filename posix_host "a.mp4" in
  (path_exists sample_taken (os_path_join (@UPLOAD_DIR posix_host) sanitised) = false
   /\ "a-1.mp4" = sanitised)
  \/ (path_exists sample_taken (os_path_join (@UPLOAD_DIR posix_host) sanitised) = true
      /\ exists k, (1 <= k)%N
           /\ "a-1.mp4" = suffixed (@splitext posix_host sanitised).1 k
                            (@splitext posix_host sanitised).2
           /\ path_exists sample_taken (os_path_join (@UPLOAD_DIR posix_host) "a-1.mp4") = false
           /\ forall j, (1 <= j < k)%N ->
                path_exists sample_taken
                  (os_path_join (@UPLOAD_DIR posix_host)
                     (suffixed (@splitext posix_host sanitised).1 j
                        (@splitext posix_host sanitised).2)) = true).
Proof.
  apply (@storage_namer_first_free posix_host 5 sample_taken "a.mp4" "a-1.mp4").
  vm_compute. reflexivity.
Defined.

(** The file stored for a.mp4 in an upload root that holds a.mp4. *)
Lemma store_upload_overwrites_nothing_witness :
  let w := sample_world sample_taken in
  let w' := world_after w (@store_upload posix_host (sample_env None failing_encoder)
                             (sample_clip "a.mp4") w) in
  fs w !! (sample_uploads ++ ["a-1.mp4"]) = None
  /\ fs w' !! (sample_uploads ++ ["a-1.mp4"]) = Some (File "DATA")
  /\ (forall q, q <> sample_uploads ++ ["a-1.mp4"] -> fs w' !! q = fs w !! q)
  /\ videos w' = videos w /\ flashes w' = flashes w /\ runs w' = runs w.
Proof.
  intros w w'.
  apply (@store_upload_overwrites_nothing posix_host (sample_env None failing_encoder)
           (sample_clip "a.mp4") w w'
           "a" "a-1.mp4" (sample_uploads ++ ["a-1.mp4"])).
  vm_compute. reflexivity.
Defined.

(** A transcoding in which the encoder writes the master playlist. *)
Lemma transcode_keeps_encoder_manifest_witness :
  let target_dir := sample_uploads ++ ["hls"; "video_1700000000"] in
  let w := sample_world sample_root in
  let made := match makedirs sample_root target_dir with
              | inr made => made
              | inl _ => sample_root
              end in
  exists w',
    @transcode_to_hls posix_host (sample_env (Some "/usr/bin/ffmpeg") complete_encoder)
      (sample_uploads ++ ["a.mp4"]) target_dir w
    = Some (w', inr (Py.replace "\" "/"
                       (@relpath posix_host (target_dir ++ ["master.m3u8"]) (@HLS_DIR posix_host))))
    /\ fs w' = <[target_dir ++ ["master.m3u8"] := File "#EXTM3U"]> made
    /\ runs w' = runs w ++ [@ffmpeg_cmd posix_host (sample_uploads ++ ["a.mp4"]) target_dir].
Proof.
  intros target_dir w made.
  apply (@transcode_keeps_encoder_manifest posix_host
           (sample_env (Some "/usr/bin/ffmpeg") complete_encoder)
           (sample_uploads ++ ["a.mp4"]) target_dir w
           made (<[target_dir ++ ["master.m3u8"] := File "#EXTM3U"]> made) "").
  - vm_compute. reflexivity.
  - reflexivity.
  - vm_compute. reflexivity.
Defined.

(** A transcoding in which the encoder gives up. *)
Lemma transcode_raises_on_nonzero_witness :
  let target_dir := sample_uploads ++ ["hls"; "video_1700000000"] in
  let w := sample_world sample_root in
  let made := match makedirs sample_root target_dir with
              | inr made => made
              | inl _ => sample_root
              end in
  exists w',
    @transcode_to_hls posix_host (sample_env (Some "/usr/bin/ffmpeg") failing_encoder)
      (sample_uploads ++ ["a.mp4"]) target_dir w
    = Some (w', inl (CalledProcessError 1 "Invalid data found when processing input"))
    /\ fs w' = made
    /\ runs w' = runs w ++ [@ffmpeg_cmd posix_host (sample_uploads ++ ["a.mp4"]) target_dir]
    /\ videos w' = videos w /\ flashes w' = flashes w.
Proof.
  intros target_dir w made.
  apply (@transcode_raises_on_nonzero posix_host
           (sample_env (Some "/usr/bin/ffmpeg") failing_encoder)
           (sample_uploads ++ ["a.mp4"]) target_dir w
           made made 1 "Invalid data found when processing input").
  - vm_compute. reflexivity.
  - reflexivity.
  - discriminate.
Defined.


(** The row of an upload without encoder is played from /media/. *)
Lemma created_row_is_playable_witness :
  let w := sample_world sample_root in
  let w' := world_after w
              (@upload_post posix_host (sample_env None failing_encoder)
                 (sample_request "clip.mp4" ∅) w) in
  exists v final,
    videos w' = videos w ++ [v]
    /\ filename v = Some final /\ final <> ""
    /\ external_url v = None
    /\ ((hls_manifest v = None
         /\ @source_url posix_host v = "/media/" +:+ @url_quote posix_host final)
        \/ (exists rel, hls_manifest v = Some rel /\ rel <> ""
                        /\ @source_url posix_host v = "/hls/" +:+ @url_quote posix_host rel)).
Proof.
  intros w w'.
  apply (@created_row_is_playable posix_host (sample_env None failing_encoder)
           (sample_request "clip.mp4" ∅) w w' (Some 1%N)).
  vm_compute. reflexivity.
Defined.

Lemma sample_site_in_sync : counters_in_sync sample_site.
Proof.
  intros video_id v Hv. unfold sample_site in Hv. cbn [video_rows] in Hv.
  apply lookup_singleton_Some in Hv as [<- <-].
  split; vm_compute; reflexivity.
Defined.

Lemma sample_site_not_negative : counters_not_negative sample_site.
Proof.
  intros video_id v Hv. unfold sample_site in Hv. cbn [video_rows] in Hv.
  apply lookup_singleton_Some in Hv as [<- <-].
  split; intros n [= <-]. lia.
Defined.

(** A like and a dislike of the first user on the video of the sample
    site. *)
Lemma votes_keep_counters_in_sync_witness :
  counters_in_sync (like_video false 1 5 sample_site).1
  /\ counters_in_sync (dislike_video false 1 5 sample_site).1.
Proof. apply (votes_keep_counters_in_sync false 1 5 sample_site sample_site_in_sync). Defined.

Lemma votes_keep_counters_not_negative_witness :
  counters_not_negative (like_video false 1 5 sample_site).1
  /\ counters_not_negative (dislike_video false 1 5 sample_site).1.
Proof.
  apply (votes_keep_counters_not_negative false 1 5 sample_site sample_site_not_negative).
Defined.

Lemma sample_voted_site_in_sync : counters_in_sync sample_voted_site.
Proof.
  intros video_id v Hv. unfold sample_voted_site in Hv. cbn [video_rows] in Hv.
  apply lookup_singleton_Some in Hv as [<- <-].
  split; vm_compute; reflexivity.
Defined.

(** Two likes of the second user, who had disliked the video: the
    dislike is gone and nothing is put in its place. *)
Lemma voting_twice_takes_the_vote_back_witness :
  (dislike_video false 2 5 (dislike_video false 2 5 sample_voted_site).1).1
  = sample_voted_site
  /\ (like_video false 2 5 (like_video false 2 5 sample_voted_site).1).1
     = set_video_votes {[ (1%N, 5%N) := true ]}
         {[ 5%N := {| views := Some 3%Z; likes := Some 1%Z; dislikes := Some 0%Z |} ]}
         sample_voted_site.
Proof.
  destruct (voting_twice_takes_the_vote_back 2 5 sample_voted_site
              {| views := Some 3%Z; likes := Some 1%Z; dislikes := Some 1%Z |} 1 1
              sample_voted_site_in_sync)
    as (_ & _ & Hdisliked); [vm_compute; reflexivity|reflexivity|reflexivity|].
  destruct Hdisliked as [Hsame Hback]; [vm_compute; reflexivity|].
  split; [exact Hsame|]. rewrite Hback. vm_compute. reflexivity.
Defined.

(** The first user of the sample site follows the second. *)
Lemma follow_user_answer_is_truthful_witness :
  let s' := (follow_user false 1 2 sample_site).1 in
  is_following 1 2 s' = true
  /\ is_following 1 2 sample_site = negb true
  /\ (followers_count 2 s' = S (followers_count 2 sample_site)
      /\ following_count 1 s' = S (following_count 1 sample_site))
  /\ (forall p, p <> (1%N, 2%N) -> p ∈ follow_rows s' <-> p ∈ follow_rows sample_site).
Proof.
  intros s'.
  apply (follow_user_answer_is_truthful false 1 2 sample_site s' true).
  vm_compute. reflexivity.
Defined.

Lemma sample_site_no_self_follow : no_self_follow sample_site.
Proof. intros u. apply not_elem_of_empty. Defined.

Lemma follow_handlers_keep_no_self_follow_witness :
  no_self_follow (follow_user false 1 2 sample_site).1
  /\ no_self_follow (profil.follow_user false 1 2 sample_site).1
  /\ no_self_follow (profil.unfollow_user false 1 2 sample_site).1.
Proof.
  apply (follow_handlers_keep_no_self_follow false 1 2 sample_site
           sample_site_no_self_follow).
Defined.

Lemma sample_site_has_ana : is_Some (user_rows sample_site !! 2%N).
Proof.
  exists {| row_username := "ana"; row_display_name := ""; row_is_admin := false |}.
  vm_compute. reflexivity.
Defined.

Lemma profil_follow_then_unfollow_witness :
  let followed := (profil.follow_user false 1 2 sample_site).1 in
  let unfollowed := (profil.unfollow_user false 1 2 sample_site).1 in
  follow_rows followed = {[ (1%N, 2%N) ]} ∪ follow_rows sample_site
  /\ is_following 1 2 followed = true
  /\ follow_rows unfollowed = follow_rows sample_site ∖ {[ (1%N, 2%N) ]}
  /\ is_following 1 2 unfollowed = false
  /\ follow_rows (profil.unfollow_user false 1 2 followed).1
     = follow_rows sample_site ∖ {[ (1%N, 2%N) ]}.
Proof.
  apply (profil_follow_then_unfollow 1 2 sample_site sample_site_has_ana).
  discriminate.
Defined.

Lemma follow_toggle_agrees_with_profil_witness :
  follow_rows (follow_user false 1 2 sample_site).1
  = if is_following 1 2 sample_site
    then follow_rows (profil.unfollow_user false 1 2 sample_site).1
    else follow_rows (profil.follow_user false 1 2 sample_site).1.
Proof. apply (follow_toggle_agrees_with_profil 1 2 sample_site). discriminate. Defined.

(** A comment with white space around it, on the video of the sample
    site. *)
Lemma comment_post_stores_stripped_bodies_witness :
  let s' := comment_post false 1 5 (Some "  bravo ") sample_site in
  Forall (comment_ok s') (comment_rows s')
  /\ (comment_rows s' = comment_rows sample_site
      \/ exists c, comment_rows s' = comment_rows sample_site ++ [c]
           /\ comment_user c = 1%N /\ comment_video c = 5%N
           /\ body c = Py.strip Py.is_space (Py.or_else (Some "  bravo ") ""))
  /\ user_rows s' = user_rows sample_site /\ video_rows s' = video_rows sample_site
  /\ like_rows s' = like_rows sample_site /\ follow_rows s' = follow_rows sample_site.
Proof.
  apply (comment_post_stores_stripped_bodies false 1 5 (Some "  bravo ") sample_site).
  apply Forall_nil_2.
Defined.

(** The second user of the sample site, who is no admin, tries to ban
    the first. *)
Lemma ban_user_guards_witness :
  let s' := ban_user sample_orm_delete {| account_id := 2; account_is_admin := false |}
              1 sample_site in
  user_rows s' = user_rows sample_site /\ video_rows s' = video_rows sample_site
  /\ like_rows s' = like_rows sample_site /\ follow_rows s' = follow_rows sample_site
  /\ comment_rows s' = comment_rows sample_site.
Proof.
  apply (ban_user_guards sample_orm_delete {| account_id := 2; account_is_admin := false |}
           1 sample_site).
  left. reflexivity.
Defined.

(** The second page of two rows of the sample table, and a page whose
    offset the database does not take. *)
Lemma api_videos_page_bounds_witness :
  (exists pg,
     api_videos sample_py_int sample_ilike {[ "page" := "2"; "per_page" := "2" ]} sample_table
     = Some pg
     /\ api_page pg = 2%Z /\ api_per_page pg = 2%Z /\ api_total pg = 5
     /\ api_items pg = [sample_video 3 "Concert" "musique" "ana";
                        sample_video 2 "Tournoi" "jeux" "ana"])
  /\ api_videos sample_py_int sample_ilike
       {[ "page" := "9223372036854775809"; "per_page" := "1" ]} sample_table = None.
Proof.
  split.
  - destruct (api_videos_page_bounds sample_py_int sample_ilike
                {[ "page" := "2"; "per_page" := "2" ]} sample_table 2 2)
      as (_ & _ & _ & Hanswered); [vm_compute; reflexivity..|].
    destruct Hanswered as (pg & Hrun & Hpage & Hper & Htotal & _); [vm_compute; discriminate|].
    exists pg. split; [exact Hrun|]. split; [exact Hpage|]. split; [exact Hper|].
    split; [rewrite Htotal; vm_compute; reflexivity|].
    vm_compute in Hrun. injection Hrun as <-. vm_compute. reflexivity.
  - destruct (api_videos_page_bounds sample_py_int sample_ilike
                {[ "page" := "9223372036854775809"; "per_page" := "1" ]} sample_table
                9223372036854775809 1)
      as (_ & _ & Hrefused & _); [vm_compute; reflexivity..|].
    apply Hrefused. vm_compute. reflexivity.
Defined.

(** The first two pages of two rows of the sample table. *)
Lemma api_videos_consecutive_pages_witness :
  let args : gmap string string := {[ "per_page" := "2" ]} in
  let pg := {| api_page := 1; api_per_page := 2; api_total := 5;
               api_items := [sample_video 5 "Finale" "sport" "ana";
                             sample_video 4 "Speedrun" "jeux" "demo"] |} in
  let pg' := {| api_page := 2; api_per_page := 2; api_total := 5;
                api_items := [sample_video 3 "Concert" "musique" "ana";
                              sample_video 2 "Tournoi" "jeux" "ana"] |} in
  api_per_page pg' = api_per_page pg
  /\ api_total pg' = api_total pg
  /\ api_items pg ++ api_items pg'
     = take (2 * Z.to_nat (api_per_page pg))
         (drop (Z.to_nat ((1 - 1) * api_per_page pg))
            (api_query sample_ilike args sample_table)).
Proof.
  intros args pg pg'.
  apply (api_videos_consecutive_pages sample_py_int sample_ilike args sample_table
           "1" "2" 1 pg pg').
  - reflexivity.
  - reflexivity.
  - lia.
  - vm_compute. reflexivity.
  - vm_compute. reflexivity.
Defined.

(** Two requests of the watch page of the video of the sample site. *)
Lemma watch_counts_each_view_witness :
  let s' := watches 2 5 sample_site in
  (exists v', video_rows s' !! 5%N = Some v'
      /\ int_or (views v') 0 = (int_or (Some 3%Z) 0 + Z.of_nat 2)%Z
      /\ likes v' = Some 0%Z /\ dislikes v' = None)
  /\ (forall u, u <> 5%N -> video_rows s' !! u = video_rows sample_site !! u)
  /\ user_rows s' = user_rows sample_site /\ like_rows s' = like_rows sample_site
  /\ follow_rows s' = follow_rows sample_site /\ comment_rows s' = comment_rows sample_site.
Proof.
  apply (watch_counts_each_view 2 5 sample_site
           {| views := Some 3%Z; likes := Some 0%Z; dislikes := None |}).
  vm_compute. reflexivity.
Defined.

Lemma watch_keeps_vote_counters_witness :
  counters_in_sync (watch false 5 sample_site).1
  /\ counters_not_negative (watch false 5 sample_site).1.
Proof.
  apply (watch_keeps_vote_counters false 5 sample_site
           sample_site_in_sync sample_site_not_negative).
Defined.

(** The home page of the category jeux on the sample table, searched for
    the text tour. *)
Lemma home_is_first_api_page_witness :
  let args : gmap string string := {[ "cat" := "jeux"; "q" := " TOUR " ]} in
  home_items sample_ilike args sample_table = inr [sample_video 2 "Tournoi" "jeux" "ana"]
  /\ exists pg,
       api_videos sample_py_int sample_ilike
         (<["per_page" := "40"]> (delete "page" args)) sample_table = Some pg
       /\ api_page pg = 1%Z /\ api_per_page pg = 40%Z
       /\ home_items sample_ilike args sample_table = inr (api_items pg).
Proof.
  intros args. split; [vm_compute; reflexivity|].
  apply (home_is_first_api_page sample_py_int sample_ilike args sample_table "40").
  - vm_compute. reflexivity.
  - vm_compute. reflexivity.
Defined.
